(** * The monetization-plan engine: aggregation, tactics, ranking, report

    A shallow embedding of the plan route (types, [benchmarks], [aggregate],
    [tactics], [composeSummary], [POST]) and the properties its
    specification states about it.

    Numbers.  A JavaScript [number] is an IEEE 754 double, and the file
    carries the arithmetic of the engine twice.

    The first embedding models a number as an exact rational ([Q]).  It is
    the model of the statements about structure: which buckets exist and
    what guards them, what each rule reads and compares with which literal,
    the order of the sections, the outcomes of the route, and the bounds and
    sums that hold of the mathematical values.  IEEE rounding, [NaN] and the
    infinities are outside it.

    The second embedding, module [F64], models a number as the kernel's
    binary64 float, whose operations round as those of the program do.  It
    is the model of the statements about the rates and gaps the aggregator
    computes and about the rules on the aggregate of an inventory, where a
    rounding decides on which side of a threshold a value falls.

    Values that the code makes integral ([Math.round], the literal scores)
    are [Z] in the first embedding.  Strings are [string]; the
    string-literal unions of the TypeScript types ([Format], [Platform],
    ...) are kept as the strings they are at run time, so the theorems also
    cover records whose tag is none of the declared literals. *)

From Stdlib Require Import QArith Qround Qabs ZArith Lia Lqa Sorted Permutation.
From Stdlib Require PrimFloat FloatOps SpecFloat Uint63.
From stdpp Require Import gmap strings list fin_maps pretty.

Open Scope Q_scope.

(** ** Host-language primitives *)

(** [a > b], [a >= b], ... on numbers. *)
Definition Qltb (x y : Q) : bool := negb (Qle_bool y x).
Definition Qleb (x y : Q) : bool := Qle_bool x y.

(** [x || d] on numbers: [d] replaces a falsy [x] (zero). *)
Definition num_or (x d : Q) : Q := if Qeq_bool x 0 then d else x.

(** [Math.round]: the nearest integer, a tie going up. *)
Definition Math_round (x : Q) : Z := Qfloor (x + (1 # 2)).

(** [a || b] on two integral numbers, as the comparator of the sort uses it. *)
Definition int_or (a b : Z) : Z := if (a =? 0)%Z then b else a.

(** Decimal digits of a non-negative integer, padded with zeros on the left
    to [width] characters. *)
Fixpoint pad_left (width : nat) (s : string) : string :=
  match width with
  | O => s
  | S w => if (String.length s <? S w)%nat then pad_left w ("0" +:+ s) else s
  end.

(** [Number.prototype.toFixed(2)] on the rational value: the sign, then the
    integer [n] closest to [|x| * 100] (the larger one on a tie), written
    with two digits after the point.  The host rounds the double, which for
    a decimal such as 1.005 lies below the decimal: the digits of the
    snapshot lines are those of the rational model, and no statement is
    made about them. *)
Definition toFixed2 (x : Q) : string :=
  let sign := if Qltb x 0 then "-" else "" in
  let n := Qfloor (Qabs x * 100 + (1 # 2)) in
  sign +:+ pretty (n / 100)%Z +:+ "." +:+ pad_left 2 (pretty (n mod 100)%Z).

(** The fractional digits of [r / d] for [0 <= r < d], at most [k] of them,
    stopping when the expansion ends. *)
Fixpoint frac_digits (k : nat) (r d : Z) : string :=
  match k with
  | O => ""
  | S k' =>
      if (r =? 0)%Z then ""
      else pretty (10 * r / d)%Z +:+ frac_digits k' ((10 * r) mod d)%Z d
  end.

(** Number-to-string conversion, as string concatenation and template
    literals apply it.  Exact on integral values below 10^21 (from there on
    the host writes an exponent), which covers the engine's own numbers; a
    fractional value is written with its decimal expansion, cut after 17
    digits, which need not be the digits the host prints for the double. *)
Definition Number_toString (x : Q) : string :=
  let a := Qabs x in
  let i := Qfloor a in
  let r := (Qnum a - i * Zpos (Qden a))%Z in
  (if Qltb x 0 then "-" else "") +:+ pretty i +:+
  (if (r =? 0)%Z then "" else "." +:+ frac_digits 17 r (Zpos (Qden a))).

(** One digit in radix 36. *)
Definition digit36 (d : N) : string :=
  match
    String.get (N.to_nat d) "0123456789abcdefghijklmnopqrstuvwxyz"
  with
  | Some c => String c EmptyString
  | None => ""
  end.

Fixpoint toString36_go (fuel : nat) (n : N) (acc : string) : string :=
  match fuel with
  | O => acc
  | S fuel' =>
      let acc' := digit36 (n mod 36)%N +:+ acc in
      if (n / 36 =? 0)%N then acc' else toString36_go fuel' (n / 36)%N acc'
  end.

(** [n.toString(36)] for a non-negative integer [n]. *)
Definition toString36 (n : N) : string :=
  toString36_go (S (N.to_nat (N.log2 n))) n "".

(** [lines.join(sep)]. *)
Definition join (sep : string) (lines : list string) : string :=
  String.concat sep lines.

(** ** Types *)

Module AdUnitMetrics.
Record t := mk {
  ad_unit_id : string;
  format : string;
  platform : string;
  avg_ecpm : Q;
  fill_rate : Q;
  latency_ms : Q;
  impressions : Q;
  revenue : Q
}.
End AdUnitMetrics.

Module InventoryProfile.
Record t := mk {
  app_id : string;
  app_name : string;
  sdk_version : string;
  mediation_partners : list string;
  metrics : list AdUnitMetrics.t;
  policy_flags : option (list string)
}.
End InventoryProfile.

Module BusinessConstraints.
Record t := mk {
  primary_goal : string;
  latency_budget_ms : Q;
  developer_capacity : string
}.
End BusinessConstraints.

(** The parsed request body: an object.  The route checks it at run time,
    so a property that may be absent is an [option].  [None] is, for
    [account_name], a missing property; for [inventory], a missing property
    or a value that is no array; for [constraints], a missing property (the
    value [undefined]; a [null] makes the same read throw with another
    message and is not modelled).  What is present is well-formed: every
    profile has its [metrics] array and every unit its numbers.  A body that
    does not parse or is no object, and a profile without [metrics], make
    the code throw where this type has no value: they are outside the
    model. *)
Module PlanCreateRequest.
Record t := mk {
  account_name : option string;
  inventory : option (list InventoryProfile.t);
  constraints : option BusinessConstraints.t
}.
End PlanCreateRequest.

Module PlanSection.
Record t := mk {
  id : string;
  title : string;
  impact_score : Z;
  effort_score : Z;
  markdown : string
}.
End PlanSection.

Module PlanResponse.
Record t := mk {
  account_name : string;
  summary : string;
  sections : list PlanSection.t;
  constraints : option BusinessConstraints.t
}.
End PlanResponse.

(** ** Benchmarks *)

Module Benchmark.
Record t := mk { avg_ecpm : Q; fill_rate : Q }.
End Benchmark.

#[global] Instance Benchmark_inhabited : Inhabited Benchmark.t :=
  populate (Benchmark.mk 0 0).

Definition benchmarks : gmap string Benchmark.t :=
  list_to_map
    [ ("rewarded", Benchmark.mk 9.5 0.82);
      ("interstitial", Benchmark.mk 6.2 0.90);
      ("banner", Benchmark.mk 1.2 0.95);
      ("native", Benchmark.mk 2.2 0.92) ].

(** ** Aggregation *)

(** The running totals of one format bucket. *)
Module Totals.
Record t := mk { imps : Q; revenue : Q; sumLatency : Q; sumFillImps : Q }.
Definition zero : t := mk 0 0 0 0.
End Totals.

Module FormatAggregate.
Record t := mk {
  avg_ecpm : Q;
  fill_rate : Q;
  latency_ms : Z;
  imps : Q;
  revenue : Q;
  avg_ecpm_gap : Q;
  fill_rate_gap : Q
}.
End FormatAggregate.

Module GlobalAggregate.
Record t := mk { avg_ecpm : Q; fill_rate : Q; latency_ms : Z }.
End GlobalAggregate.

(** The value [aggregate] returns.  [byFormat] is an object built from a list
    of entries; it is kept as that list, in insertion order, which is the
    order [Object.values] walks it in. *)
Module Aggregate.
Record t := mk {
  byFormat : list (string * FormatAggregate.t);
  global : GlobalAggregate.t
}.
End Aggregate.

(** [obj[key]] / [obj.key] on an object kept as its entry list. *)
Fixpoint prop {A} (entries : list (string * A)) (key : string) : option A :=
  match entries with
  | [] => None
  | (k, v) :: rest => if String.eqb k key then Some v else prop rest key
  end.

Definition formats : list string :=
  ["banner"; "interstitial"; "rewarded"; "native"].

(** The four [+=] of the inner loop: one ad unit added to running totals. *)
Definition addUnit (cur : Totals.t) (m : AdUnitMetrics.t) : Totals.t :=
  Totals.mk
    (Totals.imps cur + AdUnitMetrics.impressions m)
    (Totals.revenue cur + AdUnitMetrics.revenue m)
    (Totals.sumLatency cur
     + AdUnitMetrics.latency_ms m * AdUnitMetrics.impressions m)
    (Totals.sumFillImps cur
     + AdUnitMetrics.fill_rate m * AdUnitMetrics.impressions m).

(** The body of the inner loop: the bucket of the unit's format is created
    at zero if it is not there yet, and the unit is added to it. *)
Definition accumulate (perFormat : gmap string Totals.t) (m : AdUnitMetrics.t)
  : gmap string Totals.t :=
  let key := AdUnitMetrics.format m in
  let cur := default Totals.zero (perFormat !! key) in
  <[ key := addUnit cur m ]> perFormat.

(** Both loops: every unit of every profile. *)
Definition accumulateAll (inventory : list InventoryProfile.t)
  : gmap string Totals.t :=
  fold_left
    (fun perFormat inv =>
       fold_left accumulate (InventoryProfile.metrics inv) perFormat)
    inventory ∅.

(** The function mapped over [formats]: the entry of one format. *)
Definition formatEntry (perFormat : gmap string Totals.t) (f : string)
  : string * FormatAggregate.t :=
  let agg := default Totals.zero (perFormat !! f) in
  let avg_ecpm :=
    if Qltb 0 (Totals.imps agg)
    then Totals.revenue agg * 1000 / Totals.imps agg else 0 in
  let fill_rate :=
    if Qltb 0 (Totals.imps agg)
    then Totals.sumFillImps agg / Totals.imps agg else 0 in
  let latency_ms :=
    if Qltb 0 (Totals.imps agg)
    then Math_round (Totals.sumLatency agg / Totals.imps agg) else 0%Z in
  let avg_ecpm_gap :=
    match benchmarks !! f with
    | Some b =>
        (avg_ecpm - Benchmark.avg_ecpm b) / num_or (Benchmark.avg_ecpm b) 1
    | None => 0
    end in
  let fill_rate_gap :=
    match benchmarks !! f with
    | Some b => fill_rate - Benchmark.fill_rate b
    | None => 0
    end in
  (f, FormatAggregate.mk avg_ecpm fill_rate latency_ms
        (Totals.imps agg) (Totals.revenue agg) avg_ecpm_gap fill_rate_gap).

(** The reducer that rebuilds the global totals from the format entries. *)
Definition addEntry (acc : Totals.t) (cur : FormatAggregate.t) : Totals.t :=
  Totals.mk
    (Totals.imps acc + FormatAggregate.imps cur)
    (Totals.revenue acc + FormatAggregate.revenue cur)
    (Totals.sumLatency acc
     + inject_Z (FormatAggregate.latency_ms cur) * FormatAggregate.imps cur)
    (Totals.sumFillImps acc
     + FormatAggregate.fill_rate cur * FormatAggregate.imps cur).

Definition aggregate (inventory : list InventoryProfile.t) : Aggregate.t :=
  let perFormat := accumulateAll inventory in
  let byFormat := map (formatEntry perFormat) formats in
  let totals := fold_left addEntry (map snd byFormat) Totals.zero in
  let global_avg_ecpm :=
    if Qltb 0 (Totals.imps totals)
    then Totals.revenue totals * 1000 / Totals.imps totals else 0 in
  let global_fill_rate :=
    if Qltb 0 (Totals.imps totals)
    then Totals.sumFillImps totals / Totals.imps totals else 0 in
  let global_latency_ms :=
    if Qltb 0 (Totals.imps totals)
    then Math_round (Totals.sumLatency totals / Totals.imps totals) else 0%Z in
  Aggregate.mk byFormat
    (GlobalAggregate.mk global_avg_ecpm global_fill_rate global_latency_ms).

(** ** Exceptions *)

(** The one exception the engine can raise: a property read on a value that
    is [undefined]. *)
Inductive JsError := TypeError (message : string).

Definition message (e : JsError) : string :=
  match e with TypeError m => m end.

Inductive Except (A : Type) :=
  | Throw (e : JsError)
  | Return (a : A).
Arguments Throw {A} e.
Arguments Return {A} a.

#[global] Instance Except_ret : MRet Except := fun _ a => Return a.
#[global] Instance Except_bind : MBind Except := fun _ _ k c =>
  match c with
  | Throw e => Throw e
  | Return a => k a
  end.

(** [obj.name] where [obj] may be [undefined] ([None]). *)
Definition get {A B} (obj : option A) (name : string) (field : A -> B)
  : Except B :=
  match obj with
  | Some o => Return (field o)
  | None =>
      Throw (TypeError
               ("Cannot read properties of undefined (reading '"
                +:+ name +:+ "')"))
  end.

(** ** Tactics *)

Definition LF : string := String (Ascii.ascii_of_nat 10) EmptyString.

Definition sdkTarget : string := "22.0.0".
Definition biddingPartners : list string :=
  ["ironSource"; "Unity Ads"; "AppLovin"].

(** [now] is the reading of the clock ([Date.now()]). *)
Definition enable_bidding_markdown (now : N) (latency_budget_ms : Q) : string :=
  join LF
    [ "- Upgrade Google Mobile Ads SDK to version " +:+ sdkTarget
        +:+ " for Android/iOS.";
      "- In AdMob → Mediation → Ad sources, enable bidding for "
        +:+ join ", " biddingPartners +:+ ".";
      "- Migrate top waterfall instances to bidding; keep a Tier-3 fallback waterfall.";
      "- Set up Firebase Remote Config experiment: `bidding_migration_"
        +:+ toString36 now +:+ "`.";
      "";
      "**Metrics to monitor:**";
      "- Target eCPM uplift: +15–25%";
      "- Latency: keep below " +:+ Number_toString latency_budget_ms +:+ " ms" ].

Definition geo_floors_markdown : string :=
  join LF
    [ "- Create price floors segmented by major geos (Tier1/Tier2/Tier3) and format.";
      "- Use historical eCPM percentiles: start at P40–P50 for Tier1, P30–P40 for Tier2, minimal floors for Tier3.";
      "- Review floors weekly and auto-adjust based on win rate and fill.";
      "- Keep fill > 88% and ramp floors gradually to avoid demand suppression.";
      "";
      "**Metrics to monitor:**";
      "- eCPM uplift versus last 7-day baseline";
      "- Fill rate stability (target ≥ 0.88)" ].

Definition segment_units_markdown : string :=
  join LF
    [ "- Create audience tiers (whale/mid/casual) via Firebase/GA4.";
      "- Duplicate rewarded and interstitial units per tier; apply floors and frequency caps by tier.";
      "- Use Remote Config to route ad requests by audience in real time.";
      "";
      "**Metrics to monitor:**";
      "- ARPDAU and retention delta by audience";
      "- eCPM per tier; watch whale latency" ].

Definition latency_opt_markdown (latency_budget_ms : Q) : string :=
  join LF
    [ "- Enable parallel ad requests and prefetch for interstitial/rewarded.";
      "- Cache SDK initialization; avoid redundant re-init per screen.";
      "- Lazy-load banners below the fold; defer heavy rendering.";
      "- Consider Google Mobile Ads Lite or network timeouts on low-bandwidth segments.";
      "";
      "**Metrics to monitor:**";
      "- Median ad load time; 95th percentile under "
        +:+ Number_toString latency_budget_ms +:+ " ms";
      "- ANR/Crash rate in Play Console" ].

Definition policy_health_markdown : string :=
  join LF
    [ "- Review Ad Review Center weekly; auto-archive low-quality creatives.";
      "- Apply sensitive category blocklists where CTR is high but eCPM is low.";
      "- Ensure content compliance (families, COPPA) by ad unit and placement.";
      "";
      "**Metrics to monitor:**";
      "- Policy warning count";
      "- Fill/Revenue impact from blocklists" ].

Definition banner_refresh_markdown : string :=
  join LF
    [ "- Set refresh between 30–60s; avoid < 30s to reduce latency and viewability issues.";
      "- Use sticky banners in high-viewability slots; avoid stacking multiple banners.";
      "- Measure viewable impressions and click quality; prune low-quality placements.";
      "";
      "**Metrics to monitor:**";
      "- Viewability rate and Invalid Traffic (IVT) signals";
      "- eCPM change post refresh tuning" ].

Definition rewarded_caps_markdown : string :=
  join LF
    [ "- Cap at 2–3 rewarded ads per session for casual users; higher caps for whale cohort.";
      "- Gate rewards behind meaningful actions (level up, revive) to keep perceived value.";
      "- A/B test cap levels via Remote Config (e.g., 2 vs 3).";
      "";
      "**Metrics to monitor:**";
      "- Session length, retention, ARPDAU";
      "- Complaints/ratings related to ads" ].

(** [agg.byFormat[f]?.field ?? dflt]. *)
Definition field_or {A} (agg : Aggregate.t) (f : string)
    (field : FormatAggregate.t -> A) (dflt : A) : A :=
  from_option field dflt (prop (Aggregate.byFormat agg) f).

(** The conditions of the seven rules, in the order of the source. *)
Definition biddingNeeded (agg : Aggregate.t) : bool :=
  Qleb 0.85 (GlobalAggregate.fill_rate (Aggregate.global agg))
  && (Qleb (field_or agg "rewarded" FormatAggregate.avg_ecpm_gap 0) (- 0.10)
      || Qleb (field_or agg "interstitial" FormatAggregate.avg_ecpm_gap 0)
           (- 0.10)).

Definition floorsNeeded (agg : Aggregate.t) : bool :=
  Qleb 0.90 (GlobalAggregate.fill_rate (Aggregate.global agg))
  && Qleb (GlobalAggregate.avg_ecpm (Aggregate.global agg))
       (0.95 * field_or agg "rewarded" FormatAggregate.avg_ecpm
                 (GlobalAggregate.avg_ecpm (Aggregate.global agg))).

Definition totalImps (agg : Aggregate.t) : Q :=
  fold_left (fun s f => s + FormatAggregate.imps f)
    (map snd (Aggregate.byFormat agg)) 0.

Definition hasSingleRewardedUnit (inventory : list InventoryProfile.t) : bool :=
  existsb
    (fun inv =>
       (length
          (filter (fun m => AdUnitMetrics.format m = "rewarded")
             (InventoryProfile.metrics inv)) <=? 1)%nat)
    inventory.

Definition hasPolicyFlags (inventory : list InventoryProfile.t) : bool :=
  existsb
    (fun inv =>
       (0 <? length (default [] (InventoryProfile.policy_flags inv)))%nat)
    inventory.

Definition bannerWeak (agg : Aggregate.t) : bool :=
  Qltb (field_or agg "banner" FormatAggregate.avg_ecpm 0)
    (Benchmark.avg_ecpm (benchmarks !!! "banner"))
  && Qleb 0.9 (field_or agg "banner" FormatAggregate.fill_rate 0).

Definition rewardedVolumeHigh (agg : Aggregate.t) : bool :=
  Qltb 150000 (field_or agg "rewarded" FormatAggregate.imps 0).

Definition latencyHigh (agg : Aggregate.t) (latency_budget_ms : Q) : bool :=
  Qltb latency_budget_ms
    (inject_Z (GlobalAggregate.latency_ms (Aggregate.global agg))).

(** The sections the rules push. *)
Definition section_enable_bidding (developer_capacity : string)
    (latency_budget_ms : Q) (now : N) : PlanSection.t :=
  PlanSection.mk "enable_bidding"
    "Enable AdMob Bidding for High-Volume Partners"
    5 (if String.eqb developer_capacity "low" then 4 else 3)
    (enable_bidding_markdown now latency_budget_ms).

Definition section_geo_floors : PlanSection.t :=
  PlanSection.mk "geo_floors"
    "Introduce Dynamic eCPM Floors by Geo and Format"
    4 2 geo_floors_markdown.

Definition section_segment_units : PlanSection.t :=
  PlanSection.mk "segment_units"
    "Segment Ad Units by User Value and Session Depth"
    4 3 segment_units_markdown.

Definition section_latency_opt (latency_budget_ms : Q) : PlanSection.t :=
  PlanSection.mk "latency_opt" "Optimize Latency and SDK Load"
    3 2 (latency_opt_markdown latency_budget_ms).

Definition section_policy_health : PlanSection.t :=
  PlanSection.mk "policy_health" "Policy and Inventory Health Actions"
    3 2 policy_health_markdown.

Definition section_banner_refresh : PlanSection.t :=
  PlanSection.mk "banner_refresh" "Tune Banner Refresh and Viewability"
    3 1 banner_refresh_markdown.

Definition section_rewarded_caps : PlanSection.t :=
  PlanSection.mk "rewarded_caps"
    "Apply Rewarded Frequency Caps and Placement Strategy"
    3 2 rewarded_caps_markdown.

(** [if (cond) sections.push(section)]. *)
Definition push_if (cond : bool) (section : PlanSection.t)
    (sections : list PlanSection.t) : list PlanSection.t :=
  if cond then sections ++ [section] else sections.

(** [constraints] is [None] when the request carries no constraints object:
    the first read of one of its properties then throws.  [now] is the
    reading of the clock the call would get. *)
Definition tactics (inventory : list InventoryProfile.t)
    (constraints : option BusinessConstraints.t) (agg : Aggregate.t) (now : N)
  : Except (list PlanSection.t) :=
  let sections : list PlanSection.t := [] in
  (* 1) Enable AdMob Bidding *)
  sections ←
    (if biddingNeeded agg then
       developer_capacity ←
         get constraints "developer_capacity"
           BusinessConstraints.developer_capacity;
       latency_budget_ms ←
         get constraints "latency_budget_ms"
           BusinessConstraints.latency_budget_ms;
       mret
         (sections ++
          [section_enable_bidding developer_capacity latency_budget_ms now])
     else mret sections);
  (* 2) Dynamic eCPM floors by geo *)
  let sections := push_if (floorsNeeded agg) section_geo_floors sections in
  (* 3) Segment ad units by user value *)
  let sections :=
    push_if (Qltb 200000 (totalImps agg) && hasSingleRewardedUnit inventory)
      section_segment_units sections in
  (* 4) Latency optimization *)
  latency_budget_ms ←
    get constraints "latency_budget_ms" BusinessConstraints.latency_budget_ms;
  let sections :=
    push_if (latencyHigh agg latency_budget_ms)
      (section_latency_opt latency_budget_ms) sections in
  (* 5) Policy and inventory health *)
  let sections :=
    push_if (hasPolicyFlags inventory) section_policy_health sections in
  (* 6) Banner refresh rate tuning *)
  let sections := push_if (bannerWeak agg) section_banner_refresh sections in
  (* 7) Rewarded frequency capping *)
  let sections :=
    push_if (rewardedVolumeHigh agg) section_rewarded_caps sections in
  mret sections.

(** ** Ranking *)

(** The comparator both sorts use:
    [(b.impact_score - a.impact_score) || (a.effort_score - b.effort_score)]. *)
Definition compareSections (a b : PlanSection.t) : Z :=
  int_or (PlanSection.impact_score b - PlanSection.impact_score a)
    (PlanSection.effort_score a - PlanSection.effort_score b).

(** [Array.prototype.sort] is a stable sort.  It is modelled by the stable
    insertion sort: an element is put in front of the first element it does
    not have to follow. *)
Fixpoint insert_sorted {A} (cmp : A -> A -> Z) (x : A) (l : list A) : list A :=
  match l with
  | [] => [x]
  | y :: l' =>
      if (cmp x y <=? 0)%Z then x :: y :: l' else y :: insert_sorted cmp x l'
  end.

Definition Array_sort {A} (cmp : A -> A -> Z) (l : list A) : list A :=
  foldr (insert_sorted cmp) [] l.

(** ** Summary composer *)

Definition fmt (n : Q) : string := toFixed2 n.

(** One row of the per-format table. *)
Definition formatLine (agg : Aggregate.t) (f : string) : string :=
  let bm := benchmarks !!! f in
  let gap100 := field_or agg f FormatAggregate.avg_ecpm_gap 0 * 100 in
  "- " +:+ f +:+ ": " +:+ fmt (field_or agg f FormatAggregate.avg_ecpm 0)
  +:+ " (benchmark " +:+ fmt (Benchmark.avg_ecpm bm) +:+ ") — gap "
  +:+ (if Qleb 0 gap100 then "+" else "") +:+ fmt gap100 +:+ "%".

(** One row of the numbered priority list; [i] is the index in the array. *)
Definition priorityLine (i : nat) (s : PlanSection.t) : string :=
  pretty (i + 1)%nat +:+ ". " +:+ PlanSection.title s
  +:+ " (Impact " +:+ pretty (PlanSection.impact_score s)
  +:+ " / Effort " +:+ pretty (PlanSection.effort_score s) +:+ ")".

(** The lines in front of the priority list. *)
Definition snapshotLines (accountName : string) (agg : Aggregate.t)
  : list string :=
  [ "# Technical Monetization Plan — " +:+ accountName;
    "";
    "## Inventory Snapshot (Aggregated)";
    "- Global eCPM: "
      +:+ fmt (GlobalAggregate.avg_ecpm (Aggregate.global agg));
    "- Global fill rate: "
      +:+ fmt (GlobalAggregate.fill_rate (Aggregate.global agg));
    "- Global latency: "
      +:+ pretty (GlobalAggregate.latency_ms (Aggregate.global agg)) +:+ " ms";
    "";
    "### Per-format eCPM vs benchmark" ]
  ++ map (formatLine agg) ["rewarded"; "interstitial"; "banner"; "native"]
  ++ [ ""; "## Priority Summary" ].

(** [composeSummary] sorts the array it is given in place, so the caller's
    array is changed too: the function returns the text together with the
    array as it leaves it. *)
Definition composeSummary (accountName : string) (agg : Aggregate.t)
    (sections : list PlanSection.t) : string * list PlanSection.t :=
  let sections := Array_sort compareSections sections in
  let lines :=
    snapshotLines accountName agg ++ imap priorityLine sections ++ [ "" ] in
  (join LF lines, sections).

(** ** The route *)

Module Response.
Inductive body :=
  | Plan (response : PlanResponse.t)
  | Detail (detail : string).
Record t := mk { json : body; status : Z }.
End Response.

(** [!body.account_name || !Array.isArray(body.inventory)
     || body.inventory.length === 0]: the validated name and inventory, or
    [None] when the guard rejects. *)
Definition validated (body : PlanCreateRequest.t)
  : option (string * list InventoryProfile.t) :=
  match PlanCreateRequest.account_name body, PlanCreateRequest.inventory body
  with
  | Some name, Some inventory =>
      if String.eqb name "" || (length inventory =? 0)%nat then None
      else Some (name, inventory)
  | _, _ => None
  end.

(** The body of the [try] block. *)
Definition handle (body : PlanCreateRequest.t) (now : N) : Except Response.t :=
  match validated body with
  | None =>
      mret (Response.mk (Response.Detail "Missing account_name or inventory") 400)
  | Some (account_name, inventory) =>
      let agg := aggregate inventory in
      sections ← tactics inventory (PlanCreateRequest.constraints body) agg now;
      let sections := Array_sort compareSections sections in
      let '(summary, sections) := composeSummary account_name agg sections in
      mret
        (Response.mk
           (Response.Plan
              (PlanResponse.mk account_name summary sections
                 (PlanCreateRequest.constraints body)))
           200)
  end.

(** [POST]: the [try] block, and the [catch] that turns an exception into
    the 500 response carrying its message.  [body] is what [req.json()]
    returned, an object. *)
Definition POST (body : PlanCreateRequest.t) (now : N) : Response.t :=
  match handle body now with
  | Return response => response
  | Throw e => Response.mk (Response.Detail (message e)) 500
  end.

(** ** The pool: what the specification measures the aggregate against *)

(** Every ad unit of the inventory, profile after profile. *)
Definition units (inventory : list InventoryProfile.t) : list AdUnitMetrics.t :=
  concat (map InventoryProfile.metrics inventory).

(** The units of one format. *)
Definition unitsOf (f : string) (inventory : list InventoryProfile.t)
  : list AdUnitMetrics.t :=
  filter (fun m => AdUnitMetrics.format m = f) (units inventory).

(** The units of the four formats, as one pool. *)
Definition pool (inventory : list InventoryProfile.t) : list AdUnitMetrics.t :=
  filter (fun m => AdUnitMetrics.format m ∈ formats) (units inventory).

Definition sumQ {A} (g : A -> Q) (l : list A) : Q :=
  foldr (fun x s => g x + s) 0 l.

Definition sumImpressions (us : list AdUnitMetrics.t) : Q :=
  sumQ AdUnitMetrics.impressions us.
Definition sumRevenue (us : list AdUnitMetrics.t) : Q :=
  sumQ AdUnitMetrics.revenue us.
Definition sumWeightedLatency (us : list AdUnitMetrics.t) : Q :=
  sumQ (fun m => AdUnitMetrics.latency_ms m * AdUnitMetrics.impressions m) us.
Definition sumWeightedFill (us : list AdUnitMetrics.t) : Q :=
  sumQ (fun m => AdUnitMetrics.fill_rate m * AdUnitMetrics.impressions m) us.

(** The three rates of a set of units treated as one pool, normalized once. *)
Definition pooled_avg_ecpm (us : list AdUnitMetrics.t) : Q :=
  if Qltb 0 (sumImpressions us)
  then sumRevenue us * 1000 / sumImpressions us else 0.
Definition pooled_fill_rate (us : list AdUnitMetrics.t) : Q :=
  if Qltb 0 (sumImpressions us)
  then sumWeightedFill us / sumImpressions us else 0.
Definition pooled_latency_ms (us : list AdUnitMetrics.t) : Z :=
  if Qltb 0 (sumImpressions us)
  then Math_round (sumWeightedLatency us / sumImpressions us) else 0%Z.

(** The bucket of format [f] when the loops are done. *)
Definition bucket (inventory : list InventoryProfile.t) (f : string) : Totals.t :=
  default Totals.zero (accumulateAll inventory !! f).

(** A rule fired: the list holds a section with the rule's id. *)
Definition fires (rule : string) (sections : list PlanSection.t) : Prop :=
  exists s, s ∈ sections /\ PlanSection.id s = rule.

(** The ranking: [a] may stand in front of [b]. *)
Definition ranks_before (a b : PlanSection.t) : Prop :=
  (PlanSection.impact_score b < PlanSection.impact_score a)%Z
  \/ (PlanSection.impact_score a = PlanSection.impact_score b
      /\ (PlanSection.effort_score a <= PlanSection.effort_score b)%Z).

(** ** Scenarios and vocabulary of the statements *)

(** An inventory of one profile holding the given units. *)
Definition profileOf (us : list AdUnitMetrics.t) : InventoryProfile.t :=
  InventoryProfile.mk "com.demo.puzzleplanet" "Puzzle Planet" "21.5.0"
    ["AdMob"; "UnityAds"; "ironSource"] us (Some []).

(** The end-to-end scenario of the specification: one rewarded unit. *)
Definition scenario : list InventoryProfile.t :=
  [ profileOf
      [ AdUnitMetrics.mk "pp_rewarded_global" "rewarded" "android"
          8.2 0.86 1300 240000 1968 ] ].

(** Every field of a format entry is zero. *)
Definition all_zero (e : FormatAggregate.t) : Prop :=
  FormatAggregate.avg_ecpm e == 0 /\ FormatAggregate.fill_rate e == 0
  /\ FormatAggregate.latency_ms e = 0%Z /\ FormatAggregate.imps e == 0
  /\ FormatAggregate.revenue e == 0 /\ FormatAggregate.avg_ecpm_gap e == 0
  /\ FormatAggregate.fill_rate_gap e == 0.

(** The totals the reducer rebuilds from the four entries. *)
Definition globalTotals (inventory : list InventoryProfile.t) : Totals.t :=
  fold_left addEntry (map snd (Aggregate.byFormat (aggregate inventory)))
    Totals.zero.

(** Two banner units whose mean latency is 100.4 and one interstitial unit:
    the pooled mean latency is 100.6. *)
Definition rounding_inventory : list InventoryProfile.t :=
  [ profileOf
      [ AdUnitMetrics.mk "banner_a" "banner" "android" 1 0.9 100 6000 6;
        AdUnitMetrics.mk "banner_b" "banner" "ios" 1 0.9 101 4000 4;
        AdUnitMetrics.mk "inter_a" "interstitial" "android" 2 0.9 101 5000 10 ] ].

(** One profile with a single rewarded unit of the given impression count. *)
Definition boundary_inventory (impressions : Q) : list InventoryProfile.t :=
  [ profileOf
      [ AdUnitMetrics.mk "pp_rewarded_global" "rewarded" "android"
          8.2 0.86 1300 impressions 1968 ] ].

(** The constraints the form starts with. *)
Definition demo_constraints : BusinessConstraints.t :=
  BusinessConstraints.mk "maximize_revenue" 1200 "medium".

(** The ids of the rules that fire on an inventory, in the order of
    evaluation. *)
Definition fired_ids (inventory : list InventoryProfile.t) (now : N)
  : list string :=
  match
    tactics inventory (Some demo_constraints) (aggregate inventory) now
  with
  | Return sections => map PlanSection.id sections
  | Throw _ => []
  end.

(** A request the guard rejects, whose constraints are missing as well. *)
Definition nameless_request : PlanCreateRequest.t :=
  PlanCreateRequest.mk (Some "") (Some scenario) None.

(** The scenario of the specification, sent without a constraints object. *)
Definition unconstrained_request : PlanCreateRequest.t :=
  PlanCreateRequest.mk (Some "Demo Publisher Inc") (Some scenario) None.

(** The demo request of the form: three units of one application. *)
Definition demo_request : PlanCreateRequest.t :=
  PlanCreateRequest.mk (Some "Demo Publisher Inc")
    (Some
       [ profileOf
           [ AdUnitMetrics.mk "pp_rewarded_global" "rewarded" "android"
               8.2 0.86 1300 240000 1968;
             AdUnitMetrics.mk "pp_interstitial_global" "interstitial"
               "android" 5.5 0.92 1100 300000 1650;
             AdUnitMetrics.mk "pp_banner_global" "banner" "android"
               1.1 0.95 900 1200000 1320 ] ])
    (Some demo_constraints).

(** The plan in a response; the empty plan for a response without one. *)
Definition plan_of (response : Response.t) : PlanResponse.t :=
  match Response.json response with
  | Response.Plan r => r
  | Response.Detail _ => PlanResponse.mk "" "" [] None
  end.

(** Two sections agree on everything but the token of the clock: same id,
    title and scores, and the same guidance text, except that the text of
    the bidding section may carry the token of another clock reading at the
    same place. *)
Definition same_up_to_token (now1 now2 : N) (s1 s2 : PlanSection.t) : Prop :=
  PlanSection.id s1 = PlanSection.id s2
  /\ PlanSection.title s1 = PlanSection.title s2
  /\ PlanSection.impact_score s1 = PlanSection.impact_score s2
  /\ PlanSection.effort_score s1 = PlanSection.effort_score s2
  /\ (PlanSection.markdown s1 = PlanSection.markdown s2
      \/ (PlanSection.id s1 = "enable_bidding"
          /\ exists pre post,
               PlanSection.markdown s1 = pre +:+ toString36 now1 +:+ post
               /\ PlanSection.markdown s2 = pre +:+ toString36 now2 +:+ post)).

(** The ids of the rules in the order [tactics] evaluates them. *)
Definition evaluation_order : list string :=
  [ "enable_bidding"; "geo_floors"; "segment_units"; "latency_opt";
    "policy_health"; "banner_refresh"; "rewarded_caps" ].

(** The scenario again, its unit split over two applications and with a
    unit of an unknown format added. *)
Definition scenario_regrouped : list InventoryProfile.t :=
  [ profileOf
      [ AdUnitMetrics.mk "pp_video" "video" "web" 3 0.5 700 9000 27 ];
    profileOf
      [ AdUnitMetrics.mk "pp_rewarded_global" "rewarded" "android"
          8.2 0.86 1300 240000 1968 ] ].

(** The demo inventory of the form. *)
Definition demo_inventory : list InventoryProfile.t :=
  [ profileOf
      [ AdUnitMetrics.mk "pp_rewarded_global" "rewarded" "android"
          8.2 0.86 1300 240000 1968;
        AdUnitMetrics.mk "pp_interstitial_global" "interstitial"
          "android" 5.5 0.92 1100 300000 1650;
        AdUnitMetrics.mk "pp_banner_global" "banner" "android"
          1.1 0.95 900 1200000 1320 ] ].

(** The demo request with a latency budget of 900 ms.  The global latency
    is 990 ms, so the latency rule fires too, and the rules push
    latency_opt (impact 3, effort 2) before banner_refresh (impact 3,
    effort 1): the sort has to exchange them. *)
Definition demo_request_tight : PlanCreateRequest.t :=
  PlanCreateRequest.mk (Some "Demo Publisher Inc") (Some demo_inventory)
    (Some (BusinessConstraints.mk "maximize_revenue" 900 "medium")).

(** ** The form *)

(** The request the page keeps in its state: every property is there. *)
Module FormRequest.
Record t := mk {
  account_name : string;
  inventory : list InventoryProfile.t;
  constraints : BusinessConstraints.t
}.
End FormRequest.

(** [array.filter((x, i) => p(x, i))]. *)
Fixpoint filter_index_from {A} (p : A -> nat -> bool) (start : nat)
    (l : list A) : list A :=
  match l with
  | [] => []
  | x :: l' =>
      if p x start then x :: filter_index_from p (S start) l'
      else filter_index_from p (S start) l'
  end.

Definition Array_filter {A} (p : A -> nat -> bool) (l : list A) : list A :=
  filter_index_from p 0 l.

(** [{ ...inv, metrics }]. *)
Definition with_metrics (inv : InventoryProfile.t)
    (metrics : list AdUnitMetrics.t) : InventoryProfile.t :=
  InventoryProfile.mk (InventoryProfile.app_id inv)
    (InventoryProfile.app_name inv) (InventoryProfile.sdk_version inv)
    (InventoryProfile.mediation_partners inv) metrics
    (InventoryProfile.policy_flags inv).

(** The unit [addAdUnit] creates; [uuid] is what [crypto.randomUUID()]
    returns. *)
Definition newUnit (uuid : string) : AdUnitMetrics.t :=
  AdUnitMetrics.mk ("new_" +:+ uuid) "interstitial" "android"
    4.0 0.9 1000 100000 400.

(** The handlers compute the next request from the current one and hand it
    to [setRequest]; a handler that throws leaves the state as it is.  They
    are modelled as functions from the current request to the next one. *)
Definition addAdUnit (request : FormRequest.t) (uuid : string) (invIdx : nat)
  : Except FormRequest.t :=
  let inv := FormRequest.inventory request !! invIdx in
  newInv ←
    get inv "metrics"
      (fun i => with_metrics i (InventoryProfile.metrics i ++ [newUnit uuid]));
  mret
    (FormRequest.mk (FormRequest.account_name request)
       (<[invIdx := newInv]> (FormRequest.inventory request))
       (FormRequest.constraints request)).

Definition removeAdUnit (request : FormRequest.t) (invIdx unitIdx : nat)
  : Except FormRequest.t :=
  let inv := FormRequest.inventory request !! invIdx in
  newInv ←
    get inv "metrics"
      (fun i =>
         with_metrics i
           (Array_filter (fun _ i => negb (i =? unitIdx)%nat)
              (InventoryProfile.metrics i)));
  mret
    (FormRequest.mk (FormRequest.account_name request)
       (<[invIdx := newInv]> (FormRequest.inventory request))
       (FormRequest.constraints request)).

(** What the route parses out of [JSON.stringify(request)]. *)
Definition toBody (request : FormRequest.t) : PlanCreateRequest.t :=
  PlanCreateRequest.mk (Some (FormRequest.account_name request))
    (Some (FormRequest.inventory request))
    (Some (FormRequest.constraints request)).

(** What the page shows after a run of [generatePlan]. *)
Module UiState.
Record t := mk {
  plan : option Response.body;
  loading : bool;
  error : option string
}.
End UiState.

(** [res.ok]. *)
Definition ok (res : Response.t) : bool :=
  (200 <=? Response.status res)%Z && (Response.status res <=? 299)%Z.

(** [generatePlan], given how the [fetch] ended: [Throw] when the request
    did not get through, [Return] with the response otherwise.  The state
    is the one after the [finally] block. *)
Definition generatePlan (fetched : Except Response.t) : UiState.t :=
  match fetched with
  | Throw e => UiState.mk None false (Some (message e))
  | Return res =>
      if negb (ok res) then
        UiState.mk None false
          (Some
             match Response.json res with
             | Response.Detail detail => detail
             | Response.Plan _ => "HTTP " +:+ pretty (Response.status res)
             end)
      else UiState.mk (Some (Response.json res)) false None
  end.

(** The request the page starts with. *)
Definition initRequest : FormRequest.t :=
  FormRequest.mk "Demo Publisher Inc" demo_inventory demo_constraints.

(** ** What the engine reads of a request *)

(** The fields of an ad unit, a profile and the constraints that
    [aggregate] and [tactics] read. *)
Definition read_of_unit (m : AdUnitMetrics.t) : string * Q * Q * Q * Q :=
  (AdUnitMetrics.format m, AdUnitMetrics.fill_rate m,
   AdUnitMetrics.latency_ms m, AdUnitMetrics.impressions m,
   AdUnitMetrics.revenue m).

Definition read_of_profile (inv : InventoryProfile.t)
  : list (string * Q * Q * Q * Q) * option (list string) :=
  (map read_of_unit (InventoryProfile.metrics inv),
   InventoryProfile.policy_flags inv).

Definition read_of_constraints (c : BusinessConstraints.t) : Q * string :=
  (BusinessConstraints.latency_budget_ms c,
   BusinessConstraints.developer_capacity c).

(** The demo request with other identifiers, platforms, reported eCPMs and
    another primary goal. *)
Definition demo_request_relabelled : PlanCreateRequest.t :=
  PlanCreateRequest.mk (Some "Demo Publisher Inc")
    (Some
       [ InventoryProfile.mk "com.other.app" "Other" "19.0.0" []
           [ AdUnitMetrics.mk "a" "rewarded" "ios" 1 0.86 1300 240000 1968;
             AdUnitMetrics.mk "b" "interstitial" "web" 2 0.92 1100 300000 1650;
             AdUnitMetrics.mk "c" "banner" "ios" 3 0.95 900 1200000 1320 ]
           (Some []) ])
    (Some (BusinessConstraints.mk "balance_ux" 1200 "medium")).

(** ** The engine in IEEE 754 binary64

    The numbers of the program are doubles.  The rules compare what the
    aggregator computes with literals, so what a condition such as
    [avg_ecpm_gap <= -0.10] decides depends on how each operation rounds.
    This second embedding of the aggregator and the rule engine works on
    the kernel's binary64 numbers, whose operations are those of the
    program: one rounding, to nearest even, per operation.  It is the one
    the statements about computed values and thresholds are made on. *)

Module F64.
Import PrimFloat.
#[local] Open Scope float_scope.
#[local] Set Warnings "-inexact-float".

(** [x <= y], [x < y] on numbers, as propositions. *)
Definition le (x y : float) : Prop := (x <=? y) = true.
Definition lt (x y : float) : Prop := (x <? y) = true.

(** [x || d] on numbers: [d] replaces a falsy [x] (a zero or [NaN]). *)
Definition num_or (x d : float) : float :=
  if (x =? 0) || is_nan x then d else x.

(** An integer as a number (exact below [2^53]). *)
Definition of_Z (n : Z) : float :=
  if (n <? 0)%Z then - of_uint63 (Uint63.of_Z (- n))
  else of_uint63 (Uint63.of_Z n).

(** [Math.round]: the integer closest to [x], a tie going up; [x] itself
    when it is integral, infinite or [NaN]; [-0] for [-0.5 <= x < 0].  The
    rounding is computed on the exact value [± m * 2^e] of the double. *)
Definition Math_round (x : float) : float :=
  match FloatOps.Prim2SF x with
  | SpecFloat.S754_finite s m e =>
      if (0 <=? e)%Z then x
      else
        let d := (2 ^ (- e))%Z in
        let n := (((if s then Z.neg m else Z.pos m) * 2 + d) / (2 * d))%Z in
        if (n =? 0)%Z then (if s then - 0 else 0) else of_Z n
  | _ => x
  end.

(** *** Types *)

Module AdUnitMetrics.
Record t := mk {
  ad_unit_id : string;
  format : string;
  platform : string;
  avg_ecpm : float;
  fill_rate : float;
  latency_ms : float;
  impressions : float;
  revenue : float
}.
End AdUnitMetrics.

Module InventoryProfile.
Record t := mk {
  app_id : string;
  app_name : string;
  sdk_version : string;
  mediation_partners : list string;
  metrics : list AdUnitMetrics.t;
  policy_flags : option (list string)
}.
End InventoryProfile.

Module BusinessConstraints.
Record t := mk {
  primary_goal : string;
  latency_budget_ms : float;
  developer_capacity : string
}.
End BusinessConstraints.

(** *** Benchmarks *)

Module Benchmark.
Record t := mk { avg_ecpm : float; fill_rate : float }.
End Benchmark.

Definition benchmarks : gmap string Benchmark.t :=
  list_to_map
    [ ("rewarded", Benchmark.mk 9.5 0.82);
      ("interstitial", Benchmark.mk 6.2 0.90);
      ("banner", Benchmark.mk 1.2 0.95);
      ("native", Benchmark.mk 2.2 0.92) ].

(** The banner benchmark, read as [benchmarks.banner]. *)
Definition benchmarks_banner : Benchmark.t := Benchmark.mk 1.2 0.95.

(** *** Aggregation *)

Module Totals.
Record t :=
  mk { imps : float; revenue : float; sumLatency : float; sumFillImps : float }.
Definition zero : t := mk 0 0 0 0.
End Totals.

Module FormatAggregate.
Record t := mk {
  avg_ecpm : float;
  fill_rate : float;
  latency_ms : float;
  imps : float;
  revenue : float;
  avg_ecpm_gap : float;
  fill_rate_gap : float
}.
End FormatAggregate.

Module GlobalAggregate.
Record t := mk { avg_ecpm : float; fill_rate : float; latency_ms : float }.
End GlobalAggregate.

Module Aggregate.
Record t := mk {
  byFormat : list (string * FormatAggregate.t);
  global : GlobalAggregate.t
}.
End Aggregate.

(** The four [+=] of the inner loop. *)
Definition addUnit (cur : Totals.t) (m : AdUnitMetrics.t) : Totals.t :=
  Totals.mk
    (Totals.imps cur + AdUnitMetrics.impressions m)
    (Totals.revenue cur + AdUnitMetrics.revenue m)
    (Totals.sumLatency cur
     + AdUnitMetrics.latency_ms m * AdUnitMetrics.impressions m)
    (Totals.sumFillImps cur
     + AdUnitMetrics.fill_rate m * AdUnitMetrics.impressions m).

Definition accumulate (perFormat : gmap string Totals.t) (m : AdUnitMetrics.t)
  : gmap string Totals.t :=
  let key := AdUnitMetrics.format m in
  let cur := default Totals.zero (perFormat !! key) in
  <[ key := addUnit cur m ]> perFormat.

Definition accumulateAll (inventory : list InventoryProfile.t)
  : gmap string Totals.t :=
  fold_left
    (fun perFormat inv =>
       fold_left accumulate (InventoryProfile.metrics inv) perFormat)
    inventory ∅.

Definition formatEntry (perFormat : gmap string Totals.t) (f : string)
  : string * FormatAggregate.t :=
  let agg := default Totals.zero (perFormat !! f) in
  let avg_ecpm :=
    if 0 <? Totals.imps agg
    then Totals.revenue agg * 1000 / Totals.imps agg else 0 in
  let fill_rate :=
    if 0 <? Totals.imps agg
    then Totals.sumFillImps agg / Totals.imps agg else 0 in
  let latency_ms :=
    if 0 <? Totals.imps agg
    then Math_round (Totals.sumLatency agg / Totals.imps agg) else 0 in
  let avg_ecpm_gap :=
    match benchmarks !! f with
    | Some b =>
        (avg_ecpm - Benchmark.avg_ecpm b) / num_or (Benchmark.avg_ecpm b) 1
    | None => 0
    end in
  let fill_rate_gap :=
    match benchmarks !! f with
    | Some b => fill_rate - Benchmark.fill_rate b
    | None => 0
    end in
  (f, FormatAggregate.mk avg_ecpm fill_rate latency_ms
        (Totals.imps agg) (Totals.revenue agg) avg_ecpm_gap fill_rate_gap).

Definition addEntry (acc : Totals.t) (cur : FormatAggregate.t) : Totals.t :=
  Totals.mk
    (Totals.imps acc + FormatAggregate.imps cur)
    (Totals.revenue acc + FormatAggregate.revenue cur)
    (Totals.sumLatency acc
     + FormatAggregate.latency_ms cur * FormatAggregate.imps cur)
    (Totals.sumFillImps acc
     + FormatAggregate.fill_rate cur * FormatAggregate.imps cur).

Definition aggregate (inventory : list InventoryProfile.t) : Aggregate.t :=
  let perFormat := accumulateAll inventory in
  let byFormat := map (formatEntry perFormat) formats in
  let totals := fold_left addEntry (map snd byFormat) Totals.zero in
  let global_avg_ecpm :=
    if 0 <? Totals.imps totals
    then Totals.revenue totals * 1000 / Totals.imps totals else 0 in
  let global_fill_rate :=
    if 0 <? Totals.imps totals
    then Totals.sumFillImps totals / Totals.imps totals else 0 in
  let global_latency_ms :=
    if 0 <? Totals.imps totals
    then Math_round (Totals.sumLatency totals / Totals.imps totals) else 0 in
  Aggregate.mk byFormat
    (GlobalAggregate.mk global_avg_ecpm global_fill_rate global_latency_ms).

(** *** Tactics *)

(** [agg.byFormat[f]?.field ?? dflt]. *)
Definition field_or {A} (agg : Aggregate.t) (f : string)
    (field : FormatAggregate.t -> A) (dflt : A) : A :=
  from_option field dflt (prop (Aggregate.byFormat agg) f).

Definition biddingNeeded (agg : Aggregate.t) : bool :=
  (0.85 <=? GlobalAggregate.fill_rate (Aggregate.global agg))
  && ((field_or agg "rewarded" FormatAggregate.avg_ecpm_gap 0 <=? - 0.10)
      || (field_or agg "interstitial" FormatAggregate.avg_ecpm_gap 0
          <=? - 0.10)).

Definition floorsNeeded (agg : Aggregate.t) : bool :=
  (0.90 <=? GlobalAggregate.fill_rate (Aggregate.global agg))
  && (GlobalAggregate.avg_ecpm (Aggregate.global agg)
      <=? 0.95 * field_or agg "rewarded" FormatAggregate.avg_ecpm
                   (GlobalAggregate.avg_ecpm (Aggregate.global agg))).

Definition totalImps (agg : Aggregate.t) : float :=
  fold_left (fun s f => s + FormatAggregate.imps f)
    (map snd (Aggregate.byFormat agg)) 0.

Definition hasSingleRewardedUnit (inventory : list InventoryProfile.t) : bool :=
  existsb
    (fun inv =>
       (length
          (filter (fun m => AdUnitMetrics.format m = "rewarded")
             (InventoryProfile.metrics inv)) <=? 1)%nat)
    inventory.

Definition hasPolicyFlags (inventory : list InventoryProfile.t) : bool :=
  existsb
    (fun inv =>
       (0 <? length (default [] (InventoryProfile.policy_flags inv)))%nat)
    inventory.

Definition bannerWeak (agg : Aggregate.t) : bool :=
  (field_or agg "banner" FormatAggregate.avg_ecpm 0
   <? Benchmark.avg_ecpm benchmarks_banner)
  && (0.9 <=? field_or agg "banner" FormatAggregate.fill_rate 0).

Definition rewardedVolumeHigh (agg : Aggregate.t) : bool :=
  150000 <? field_or agg "rewarded" FormatAggregate.imps 0.

Definition latencyHigh (agg : Aggregate.t) (latency_budget_ms : float) : bool :=
  latency_budget_ms <? GlobalAggregate.latency_ms (Aggregate.global agg).

Section Host.
(** How the host writes a number into a string: the digits of a double are
    the host's business and no statement depends on them. *)
Variable Number_toString : float -> string.

Definition enable_bidding_markdown (now : N) (latency_budget_ms : float)
  : string :=
  join LF
    [ "- Upgrade Google Mobile Ads SDK to version " +:+ sdkTarget
        +:+ " for Android/iOS.";
      "- In AdMob → Mediation → Ad sources, enable bidding for "
        +:+ join ", " biddingPartners +:+ ".";
      "- Migrate top waterfall instances to bidding; keep a Tier-3 fallback waterfall.";
      "- Set up Firebase Remote Config experiment: `bidding_migration_"
        +:+ toString36 now +:+ "`.";
      "";
      "**Metrics to monitor:**";
      "- Target eCPM uplift: +15–25%";
      "- Latency: keep below " +:+ Number_toString latency_budget_ms +:+ " ms" ].

Definition latency_opt_markdown (latency_budget_ms : float) : string :=
  join LF
    [ "- Enable parallel ad requests and prefetch for interstitial/rewarded.";
      "- Cache SDK initialization; avoid redundant re-init per screen.";
      "- Lazy-load banners below the fold; defer heavy rendering.";
      "- Consider Google Mobile Ads Lite or network timeouts on low-bandwidth segments.";
      "";
      "**Metrics to monitor:**";
      "- Median ad load time; 95th percentile under "
        +:+ Number_toString latency_budget_ms +:+ " ms";
      "- ANR/Crash rate in Play Console" ].

Definition section_enable_bidding (developer_capacity : string)
    (latency_budget_ms : float) (now : N) : PlanSection.t :=
  PlanSection.mk "enable_bidding"
    "Enable AdMob Bidding for High-Volume Partners"
    5 (if String.eqb developer_capacity "low" then 4 else 3)
    (enable_bidding_markdown now latency_budget_ms).

Definition section_latency_opt (latency_budget_ms : float) : PlanSection.t :=
  PlanSection.mk "latency_opt" "Optimize Latency and SDK Load"
    3 2 (latency_opt_markdown latency_budget_ms).

Definition tactics (inventory : list InventoryProfile.t)
    (constraints : option BusinessConstraints.t) (agg : Aggregate.t) (now : N)
  : Except (list PlanSection.t) :=
  let sections : list PlanSection.t := [] in
  (* 1) Enable AdMob Bidding *)
  sections ←
    (if biddingNeeded agg then
       developer_capacity ←
         get constraints "developer_capacity"
           BusinessConstraints.developer_capacity;
       latency_budget_ms ←
         get constraints "latency_budget_ms"
           BusinessConstraints.latency_budget_ms;
       mret
         (sections ++
          [section_enable_bidding developer_capacity latency_budget_ms now])
     else mret sections);
  (* 2) Dynamic eCPM floors by geo *)
  let sections := push_if (floorsNeeded agg) section_geo_floors sections in
  (* 3) Segment ad units by user value *)
  let sections :=
    push_if ((200000 <? totalImps agg) && hasSingleRewardedUnit inventory)
      section_segment_units sections in
  (* 4) Latency optimization *)
  latency_budget_ms ←
    get constraints "latency_budget_ms" BusinessConstraints.latency_budget_ms;
  let sections :=
    push_if (latencyHigh agg latency_budget_ms)
      (section_latency_opt latency_budget_ms) sections in
  (* 5) Policy and inventory health *)
  let sections :=
    push_if (hasPolicyFlags inventory) section_policy_health sections in
  (* 6) Banner refresh rate tuning *)
  let sections := push_if (bannerWeak agg) section_banner_refresh sections in
  (* 7) Rewarded frequency capping *)
  let sections :=
    push_if (rewardedVolumeHigh agg) section_rewarded_caps sections in
  mret sections.
End Host.

(** *** What the statements measure against *)

(** The total a loop reaches that starts at 0 and adds the values in their
    order, each addition rounding. *)
Definition sum (xs : list float) : float := fold_left add xs 0.

Definition units (inventory : list InventoryProfile.t) : list AdUnitMetrics.t :=
  concat (map InventoryProfile.metrics inventory).

Definition unitsOf (f : string) (inventory : list InventoryProfile.t)
  : list AdUnitMetrics.t :=
  filter (fun m => AdUnitMetrics.format m = f) (units inventory).

Definition sumImpressions (us : list AdUnitMetrics.t) : float :=
  sum (map AdUnitMetrics.impressions us).

Definition sumRevenue (us : list AdUnitMetrics.t) : float :=
  sum (map AdUnitMetrics.revenue us).

Definition sumWeightedLatency (us : list AdUnitMetrics.t) : float :=
  sum (map (fun m => AdUnitMetrics.latency_ms m * AdUnitMetrics.impressions m)
         us).

Definition sumWeightedFill (us : list AdUnitMetrics.t) : float :=
  sum (map (fun m => AdUnitMetrics.fill_rate m * AdUnitMetrics.impressions m)
         us).

(** What the accumulation loop leaves for a format. *)
Definition bucket (inventory : list InventoryProfile.t) (f : string) : Totals.t :=
  default Totals.zero (accumulateAll inventory !! f).

(** An inventory of one profile holding the given units. *)
Definition profileOf (us : list AdUnitMetrics.t) : InventoryProfile.t :=
  InventoryProfile.mk "com.demo.puzzleplanet" "Puzzle Planet" "21.5.0"
    ["AdMob"; "UnityAds"; "ironSource"] us (Some []).

(** The end-to-end scenario of the specification. *)
Definition scenario : list InventoryProfile.t :=
  [ profileOf
      [ AdUnitMetrics.mk "pp_rewarded_global" "rewarded" "android"
          8.2 0.86 1300 240000 1968 ] ].

(** A rewarded unit earning 3 per thousand and a banner unit earning 2.7:
    the global average eCPM is 2.85. *)
Definition floor_boundary : list InventoryProfile.t :=
  [ profileOf
      [ AdUnitMetrics.mk "r" "rewarded" "android" 3 0.95 500 1000 3;
        AdUnitMetrics.mk "b" "banner" "android" 2.7 0.95 500 1000 2.7 ] ].

(** A rewarded unit earning exactly 8.55 per thousand impressions. *)
Definition bidding_boundary : list InventoryProfile.t :=
  [ profileOf
      [ AdUnitMetrics.mk "r" "rewarded" "android" 8.55 0.9 500 100000 855;
        AdUnitMetrics.mk "i" "interstitial" "android" 7 0.9 500 100000 700 ] ].

(** The demo inventory of the form. *)
Definition demo_inventory : list InventoryProfile.t :=
  [ profileOf
      [ AdUnitMetrics.mk "pp_rewarded_global" "rewarded" "android"
          8.2 0.86 1300 240000 1968;
        AdUnitMetrics.mk "pp_interstitial_global" "interstitial" "android"
          5.5 0.92 1100 300000 1650;
        AdUnitMetrics.mk "pp_banner_global" "banner" "android"
          1.1 0.95 900 1200000 1320 ] ].

(** Three rewarded units of fill rate 0.85, and the same three units with
    the last two exchanged. *)
Definition fill_order_a : list InventoryProfile.t :=
  [ profileOf
      [ AdUnitMetrics.mk "r1" "rewarded" "android" 10 0.85 500 28 0.28;
        AdUnitMetrics.mk "r2" "rewarded" "android" 10 0.85 500 13 0.13;
        AdUnitMetrics.mk "r3" "rewarded" "android" 10 0.85 500 25 0.25 ] ].

Definition fill_order_b : list InventoryProfile.t :=
  [ profileOf
      [ AdUnitMetrics.mk "r1" "rewarded" "android" 10 0.85 500 28 0.28;
        AdUnitMetrics.mk "r3" "rewarded" "android" 10 0.85 500 25 0.25;
        AdUnitMetrics.mk "r2" "rewarded" "android" 10 0.85 500 13 0.13 ] ].

Definition demo_constraints : BusinessConstraints.t :=
  BusinessConstraints.mk "maximize_revenue" 1200 "medium".

(** The ids of the rules that fire on an inventory, in the order of
    evaluation. *)
Definition fired_ids (Number_toString : float -> string)
    (inventory : list InventoryProfile.t) (now : N) : list string :=
  match
    tactics Number_toString inventory (Some demo_constraints)
      (aggregate inventory) now
  with
  | Return sections => map PlanSection.id sections
  | Throw _ => []
  end.

End F64.

(** ** Facts about the primitives *)

(** Splits a conjunction of rational equations and closes each with [ring]. *)
Ltac ring_each := repeat (apply conj); ring.

(** Closes the cases of [tactics_sections] that are about another rule: the
    ids of two rules differ. *)
Ltac other_rule :=
  match goal with
  | H : PlanSection.id ?s = _, E : ?s = _ |- _ =>
      rewrite E in H; discriminate H
  | H : _ = PlanSection.id ?s, E : ?s = _ |- _ =>
      rewrite E in H; discriminate H
  end.

Lemma Qltb_lt (x y : Q) : Qltb x y = true <-> x < y.
Proof.
  unfold Qltb. rewrite negb_true_iff.
  split.
  - intros H. apply Qnot_le_lt. intros Hle.
    apply Qle_bool_iff in Hle. congruence.
  - intros H. destruct (Qle_bool y x) eqn:E; [|reflexivity].
    apply Qle_bool_iff in E. exfalso. apply (Qlt_not_le _ _ H E).
Qed.

Lemma Qltb_nlt (x y : Q) : Qltb x y = false <-> ~ x < y.
Proof.
  rewrite <- Qltb_lt. destruct (Qltb x y); split; congruence.
Qed.

Lemma Qleb_le (x y : Q) : Qleb x y = true <-> x <= y.
Proof. apply Qle_bool_iff. Qed.

#[global] Instance Qltb_comp : Proper (Qeq ==> Qeq ==> eq) Qltb.
Proof. intros x x' Hx y y' Hy. unfold Qltb. now rewrite Hx, Hy. Qed.

#[global] Instance Math_round_comp : Proper (Qeq ==> eq) Math_round.
Proof. intros x y H. unfold Math_round. now rewrite H. Qed.

Lemma num_or_nonzero (x : Q) : ~ num_or x 1 == 0.
Proof.
  unfold num_or. destruct (Qeq_bool x 0) eqn:E.
  - discriminate.
  - now apply Qeq_bool_neq.
Qed.

Lemma num_or_of_nonzero (x d : Q) : ~ x == 0 -> num_or x d = x.
Proof.
  intros H. unfold num_or. destruct (Qeq_bool x 0) eqn:E; [|reflexivity].
  apply Qeq_bool_eq in E. contradiction.
Qed.

(** The fuel of [toString36] is enough: the conversion ends before the fuel
    does, so more fuel gives the same digits. *)
Lemma log2_div36 (n : N) : (n / 36 <> 0 -> N.log2 (n / 36) < N.log2 n)%N.
Proof.
  intros H.
  assert (Hn : (36 <= n)%N).
  { destruct (N.lt_ge_cases n 36) as [Hlt|Hge]; [|exact Hge].
    rewrite (N.div_small n 36 Hlt) in H. congruence. }
  assert (Hle : (n / 36 <= N.div2 n)%N).
  { rewrite N.div2_div. apply N.div_le_compat_l. lia. }
  apply N.le_lt_trans with (N.log2 (N.div2 n)).
  - now apply N.log2_le_mono.
  - rewrite N.div2_spec, N.log2_shiftr.
    assert (0 < N.log2 n)%N by (apply N.log2_pos; lia). lia.
Qed.

Lemma toString36_go_enough (fuel : nat) (n : N) (acc : string) :
  (N.to_nat (N.log2 n) < fuel)%nat ->
  toString36_go (S fuel) n acc = toString36_go fuel n acc.
Proof.
  revert n acc. induction fuel as [|fuel IH]; intros n acc Hf; [lia|].
  change (toString36_go (S (S fuel)) n acc) with
    (let acc' := digit36 (n mod 36)%N +:+ acc in
     if (n / 36 =? 0)%N then acc' else toString36_go (S fuel) (n / 36)%N acc').
  change (toString36_go (S fuel) n acc) with
    (let acc' := digit36 (n mod 36)%N +:+ acc in
     if (n / 36 =? 0)%N then acc' else toString36_go fuel (n / 36)%N acc').
  cbv zeta. destruct (N.eqb_spec (n / 36) 0) as [|Hne]; [reflexivity|].
  apply IH. pose proof (log2_div36 n Hne). lia.
Qed.

(** ** The aggregator: what the loops leave in the buckets *)

Lemma sumQ_nil {A} (g : A -> Q) : sumQ g [] = 0.
Proof. reflexivity. Qed.

Lemma sumQ_cons {A} (g : A -> Q) (x : A) (l : list A) :
  sumQ g (x :: l) = g x + sumQ g l.
Proof. reflexivity. Qed.

Lemma sumQ_app {A} (g : A -> Q) (l k : list A) :
  sumQ g (l ++ k) == sumQ g l + sumQ g k.
Proof.
  induction l as [|x l IH]; cbn [app].
  - rewrite sumQ_nil. ring.
  - rewrite !sumQ_cons, IH. ring.
Qed.

Lemma accumulate_lookup (p : gmap string Totals.t) (m : AdUnitMetrics.t)
    (f : string) :
  default Totals.zero (accumulate p m !! f) =
  if decide (AdUnitMetrics.format m = f)
  then addUnit (default Totals.zero (p !! f)) m
  else default Totals.zero (p !! f).
Proof.
  unfold accumulate. case_decide as Hf.
  - subst f. now rewrite lookup_insert_eq.
  - now rewrite lookup_insert_ne.
Qed.

Lemma fold_accumulate_lookup (us : list AdUnitMetrics.t)
    (p : gmap string Totals.t) (f : string) :
  default Totals.zero (fold_left accumulate us p !! f) =
  fold_left addUnit (filter (fun m => AdUnitMetrics.format m = f) us)
    (default Totals.zero (p !! f)).
Proof.
  revert p. induction us as [|m us IH]; intros p; [reflexivity|].
  cbn [fold_left]. rewrite IH, accumulate_lookup, filter_cons.
  case_decide; reflexivity.
Qed.

Lemma accumulate_profiles (inventory : list InventoryProfile.t)
    (p : gmap string Totals.t) :
  fold_left
    (fun perFormat inv =>
       fold_left accumulate (InventoryProfile.metrics inv) perFormat)
    inventory p
  = fold_left accumulate (units inventory) p.
Proof.
  revert p. induction inventory as [|inv rest IH]; intros p; [reflexivity|].
  unfold units. cbn [fold_left map concat].
  rewrite fold_left_app. apply IH.
Qed.

(** The bucket of a format holds exactly the units of that format, added in
    the order of the inventory. *)
Lemma bucket_unitsOf (inventory : list InventoryProfile.t) (f : string) :
  bucket inventory f = fold_left addUnit (unitsOf f inventory) Totals.zero.
Proof.
  unfold bucket, accumulateAll, unitsOf.
  rewrite accumulate_profiles, fold_accumulate_lookup.
  now rewrite lookup_empty.
Qed.

Lemma fold_addUnit_sums (us : list AdUnitMetrics.t) (t : Totals.t) :
  Totals.imps (fold_left addUnit us t) == Totals.imps t + sumImpressions us
  /\ Totals.revenue (fold_left addUnit us t)
     == Totals.revenue t + sumRevenue us
  /\ Totals.sumLatency (fold_left addUnit us t)
     == Totals.sumLatency t + sumWeightedLatency us
  /\ Totals.sumFillImps (fold_left addUnit us t)
     == Totals.sumFillImps t + sumWeightedFill us.
Proof.
  revert t. induction us as [|m us IH]; intros t.
  - unfold sumImpressions, sumRevenue, sumWeightedLatency, sumWeightedFill.
    cbn [fold_left]. rewrite !sumQ_nil. ring_each.
  - cbn [fold_left]. destruct (IH (addUnit t m)) as (Hi & Hr & Hl & Hf).
    rewrite Hi, Hr, Hl, Hf.
    unfold sumImpressions, sumRevenue, sumWeightedLatency, sumWeightedFill.
    rewrite !sumQ_cons. cbn [addUnit Totals.imps Totals.revenue
      Totals.sumLatency Totals.sumFillImps]. ring_each.
Qed.

Lemma bucket_sums (inventory : list InventoryProfile.t) (f : string) :
  Totals.imps (bucket inventory f) == sumImpressions (unitsOf f inventory)
  /\ Totals.revenue (bucket inventory f) == sumRevenue (unitsOf f inventory)
  /\ Totals.sumLatency (bucket inventory f)
     == sumWeightedLatency (unitsOf f inventory)
  /\ Totals.sumFillImps (bucket inventory f)
     == sumWeightedFill (unitsOf f inventory).
Proof.
  rewrite bucket_unitsOf.
  destruct (fold_addUnit_sums (unitsOf f inventory) Totals.zero)
    as (Hi & Hr & Hl & Hf).
  rewrite Hi, Hr, Hl, Hf.
  cbn [Totals.zero Totals.imps Totals.revenue Totals.sumLatency
    Totals.sumFillImps].
  ring_each.
Qed.

(** Reading an entry back from the object built by [Object.fromEntries]. *)
Lemma prop_formatEntry (p : gmap string Totals.t) (fs : list string)
    (f : string) :
  f ∈ fs -> prop (map (formatEntry p) fs) f = Some (snd (formatEntry p f)).
Proof.
  induction fs as [|g fs IH]; intros Hin.
  - now apply elem_of_nil in Hin.
  - cbn [map prop]. unfold formatEntry at 1.
    destruct (String.eqb g f) eqn:E.
    + apply String.eqb_eq in E. now subst g.
    + apply elem_of_cons in Hin as [->|Hin]; [|now apply IH].
      now rewrite String.eqb_refl in E.
Qed.

Lemma byFormat_keys (inventory : list InventoryProfile.t) :
  map fst (Aggregate.byFormat (aggregate inventory)) = formats.
Proof. reflexivity. Qed.

Lemma byFormat_lookup (inventory : list InventoryProfile.t) (f : string) :
  f ∈ formats ->
  prop (Aggregate.byFormat (aggregate inventory)) f
  = Some (snd (formatEntry (accumulateAll inventory) f)).
Proof. intros Hin. unfold aggregate. cbn [Aggregate.byFormat]. now apply prop_formatEntry. Qed.

Lemma benchmarks_lookup (f : string) :
  f ∈ formats ->
  exists b, benchmarks !! f = Some b /\ ~ Benchmark.avg_ecpm b == 0.
Proof.
  unfold formats. rewrite !elem_of_cons, elem_of_nil.
  intros [->|[->|[->|[->|[]]]]]; eexists; (split; [reflexivity|]);
    intros H; discriminate H.
Qed.

(** The entry of a format, written over its bucket. *)
Lemma formatEntry_bucket (inventory : list InventoryProfile.t) (f : string) :
  snd (formatEntry (accumulateAll inventory) f) =
  let agg := bucket inventory f in
  let avg_ecpm :=
    if Qltb 0 (Totals.imps agg)
    then Totals.revenue agg * 1000 / Totals.imps agg else 0 in
  let fill_rate :=
    if Qltb 0 (Totals.imps agg)
    then Totals.sumFillImps agg / Totals.imps agg else 0 in
  FormatAggregate.mk avg_ecpm fill_rate
    (if Qltb 0 (Totals.imps agg)
     then Math_round (Totals.sumLatency agg / Totals.imps agg) else 0%Z)
    (Totals.imps agg) (Totals.revenue agg)
    (match benchmarks !! f with
     | Some b =>
         (avg_ecpm - Benchmark.avg_ecpm b) / num_or (Benchmark.avg_ecpm b) 1
     | None => 0
     end)
    (match benchmarks !! f with
     | Some b => fill_rate - Benchmark.fill_rate b
     | None => 0
     end).
Proof. reflexivity. Qed.

(** ** The four buckets and the zero guards *)

Lemma aggregate_global (inventory : list InventoryProfile.t) :
  Aggregate.global (aggregate inventory) =
  let totals := globalTotals inventory in
  GlobalAggregate.mk
    (if Qltb 0 (Totals.imps totals)
     then Totals.revenue totals * 1000 / Totals.imps totals else 0)
    (if Qltb 0 (Totals.imps totals)
     then Totals.sumFillImps totals / Totals.imps totals else 0)
    (if Qltb 0 (Totals.imps totals)
     then Math_round (Totals.sumLatency totals / Totals.imps totals)
     else 0%Z).
Proof. reflexivity. Qed.

Lemma fold_addEntry_imps (l : list FormatAggregate.t) (acc : Totals.t) :
  Totals.imps (fold_left addEntry l acc)
  = fold_left (fun s f => s + FormatAggregate.imps f) l (Totals.imps acc).
Proof.
  revert acc. induction l as [|e l IH]; intros acc; [reflexivity|].
  cbn [fold_left]. now rewrite IH.
Qed.

(** The total the segmentation rule reads is the impression count of the
    rebuilt global totals. *)
Lemma totalImps_globalTotals (inventory : list InventoryProfile.t) :
  totalImps (aggregate inventory) = Totals.imps (globalTotals inventory).
Proof. unfold totalImps, globalTotals. now rewrite fold_addEntry_imps. Qed.

Lemma unitsOf_nil_bucket (inventory : list InventoryProfile.t) (f : string) :
  unitsOf f inventory = [] -> bucket inventory f = Totals.zero.
Proof. intros H. now rewrite bucket_unitsOf, H. Qed.

(** C8, as the code has it.  For every inventory the aggregate has one entry
    for each of banner, interstitial, rewarded, native, in that order.  The
    entry of a format without units has zero impressions, revenue, average
    eCPM, fill rate and latency; its gaps are those of a zero observation:
    eCPM gap -1 and fill-rate gap minus the benchmark fill rate.  No divisor
    is zero: the divisor of a gap is never zero, a bucket whose impressions
    are not positive yields 0 for the three rates, and so does the global
    aggregate when the total impressions are not positive. *)
Theorem aggregate_four_buckets (inventory : list InventoryProfile.t) :
  map fst (Aggregate.byFormat (aggregate inventory))
  = ["banner"; "interstitial"; "rewarded"; "native"]
  /\ (forall f, f ∈ formats ->
      exists e b,
        prop (Aggregate.byFormat (aggregate inventory)) f = Some e
        /\ benchmarks !! f = Some b
        /\ ~ num_or (Benchmark.avg_ecpm b) 1 == 0
        /\ (unitsOf f inventory = [] ->
            FormatAggregate.imps e = 0 /\ FormatAggregate.revenue e = 0
            /\ FormatAggregate.avg_ecpm e = 0
            /\ FormatAggregate.fill_rate e = 0
            /\ FormatAggregate.latency_ms e = 0%Z
            /\ FormatAggregate.avg_ecpm_gap e == - (1)
            /\ FormatAggregate.fill_rate_gap e == - Benchmark.fill_rate b)
        /\ (~ 0 < FormatAggregate.imps e ->
            FormatAggregate.avg_ecpm e = 0
            /\ FormatAggregate.fill_rate e = 0
            /\ FormatAggregate.latency_ms e = 0%Z))
  /\ (~ 0 < totalImps (aggregate inventory) ->
      GlobalAggregate.avg_ecpm (Aggregate.global (aggregate inventory)) = 0
      /\ GlobalAggregate.fill_rate (Aggregate.global (aggregate inventory)) = 0
      /\ GlobalAggregate.latency_ms (Aggregate.global (aggregate inventory))
         = 0%Z).
Proof.
  split; [reflexivity|]. split.
  - intros f Hf.
    destruct (benchmarks_lookup f Hf) as (b & Hb & Hb0).
    exists (snd (formatEntry (accumulateAll inventory) f)), b.
    split; [now apply byFormat_lookup|].
    split; [exact Hb|].
    split; [apply num_or_nonzero|].
    rewrite formatEntry_bucket. cbv zeta.
    cbn [FormatAggregate.imps FormatAggregate.revenue FormatAggregate.avg_ecpm
         FormatAggregate.fill_rate FormatAggregate.latency_ms
         FormatAggregate.avg_ecpm_gap FormatAggregate.fill_rate_gap].
    rewrite Hb. split.
    + intros Hnil. rewrite (unitsOf_nil_bucket _ _ Hnil).
      cbn [Totals.zero Totals.imps Totals.revenue].
      change (Qltb 0 0) with false. cbv iota.
      repeat apply conj; try reflexivity.
      * rewrite (num_or_of_nonzero _ 1 Hb0). now field.
      * ring.
    + intros Hn. apply Qltb_nlt in Hn. rewrite Hn. now repeat split.
  - rewrite totalImps_globalTotals, aggregate_global. cbv zeta.
    intros Hn. apply Qltb_nlt in Hn. rewrite Hn. now repeat split.
Qed.

(** C8, as the specification words it, fails.  In the scenario of the
    specification no unit is a banner, and the banner entry is not all-zero:
    its eCPM gap is -1 and its fill-rate gap is -0.95. *)
Lemma absent_format_entry_not_all_zero :
  unitsOf "banner" scenario = []
  /\ exists e,
       prop (Aggregate.byFormat (aggregate scenario)) "banner" = Some e
       /\ FormatAggregate.avg_ecpm_gap e == - (1)
       /\ FormatAggregate.fill_rate_gap e == - 0.95
       /\ ~ all_zero e.
Proof.
  split; [reflexivity|]. eexists. split; [reflexivity|].
  split; [reflexivity|]. split; [reflexivity|].
  intros (_ & _ & _ & _ & _ & Hgap & _). discriminate Hgap.
Qed.

(** ** The global aggregate against the pool *)

(** The four formats partition the pool. *)
Lemma sumQ_pool_split (g : AdUnitMetrics.t -> Q) (us : list AdUnitMetrics.t) :
  sumQ g (filter (fun m => AdUnitMetrics.format m ∈ formats) us)
  == sumQ g (filter (fun m => AdUnitMetrics.format m = "banner") us)
     + sumQ g (filter (fun m => AdUnitMetrics.format m = "interstitial") us)
     + sumQ g (filter (fun m => AdUnitMetrics.format m = "rewarded") us)
     + sumQ g (filter (fun m => AdUnitMetrics.format m = "native") us).
Proof.
  induction us as [|m us IH].
  - cbn. ring.
  - rewrite !filter_cons.
    destruct (decide (AdUnitMetrics.format m ∈ formats)) as [Hin|Hout].
    + unfold formats in Hin.
      rewrite !elem_of_cons, elem_of_nil in Hin.
      destruct Hin as [E|[E|[E|[E|[]]]]]; rewrite E;
        repeat case_decide; try discriminate; try congruence;
        rewrite !sumQ_cons, IH; ring.
    + repeat case_decide;
        try (exfalso; apply Hout; unfold formats;
             rewrite !elem_of_cons; tauto).
      exact IH.
Qed.

Lemma pool_split (g : AdUnitMetrics.t -> Q)
    (inventory : list InventoryProfile.t) :
  sumQ g (pool inventory)
  == sumQ g (unitsOf "banner" inventory)
     + sumQ g (unitsOf "interstitial" inventory)
     + sumQ g (unitsOf "rewarded" inventory)
     + sumQ g (unitsOf "native" inventory).
Proof. apply sumQ_pool_split. Qed.

Lemma sumQ_nonneg {A} (g : A -> Q) (l : list A) :
  (forall x, x ∈ l -> 0 <= g x) -> 0 <= sumQ g l.
Proof.
  induction l as [|x l IH]; intros H.
  - rewrite sumQ_nil. apply Qle_refl.
  - rewrite sumQ_cons.
    assert (0 <= g x) by (apply H; left).
    assert (0 <= sumQ g l) by (apply IH; intros y Hy; apply H; now right).
    lra.
Qed.

(** Units without impressions carry no weight. *)
Lemma sumQ_weighted_zero (g : AdUnitMetrics.t -> Q)
    (us : list AdUnitMetrics.t) :
  (forall m, m ∈ us -> 0 <= AdUnitMetrics.impressions m) ->
  ~ 0 < sumImpressions us ->
  sumQ (fun m => g m * AdUnitMetrics.impressions m) us == 0.
Proof.
  unfold sumImpressions.
  induction us as [|m us IH]; intros Hnn Hz.
  - reflexivity.
  - rewrite sumQ_cons in *.
    assert (Hm : 0 <= AdUnitMetrics.impressions m) by (apply Hnn; left).
    assert (Hrest : 0 <= sumQ AdUnitMetrics.impressions us).
    { apply sumQ_nonneg. intros y Hy. apply Hnn. now right. }
    assert (Em : AdUnitMetrics.impressions m == 0) by lra.
    rewrite IH.
    + rewrite Em. ring.
    + intros y Hy. apply Hnn. now right.
    + lra.
Qed.

(** Weighting a rate by the impressions it was divided by gives the sum
    back, as long as a bucket without impressions has an empty sum. *)
Lemma rate_times_imps (s i : Q) :
  (~ 0 < i -> s == 0) ->
  (if Qltb 0 i then s / i else 0) * i == s.
Proof.
  intros Hz. destruct (Qltb 0 i) eqn:E.
  - apply Qltb_lt in E. field. lra.
  - apply Qltb_nlt in E. rewrite (Hz E). ring.
Qed.

(** The guarded quotient respects equality of rationals. *)
Lemma guarded_ratio_comp (s s' i i' : Q) :
  s == s' -> i == i' ->
  (if Qltb 0 i then s / i else 0) == (if Qltb 0 i' then s' / i' else 0).
Proof.
  intros Hs Hi. rewrite (Qltb_comp 0 0 (Qeq_refl 0) i i' Hi).
  destruct (Qltb 0 i'); [|reflexivity]. now rewrite Hs, Hi.
Qed.

Section Pooled.
Variable inventory : list InventoryProfile.t.

Let entry (f : string) : FormatAggregate.t :=
  snd (formatEntry (accumulateAll inventory) f).

Lemma globalTotals_entries :
  globalTotals inventory
  = addEntry
      (addEntry
         (addEntry (addEntry Totals.zero (entry "banner"))
            (entry "interstitial"))
         (entry "rewarded"))
      (entry "native").
Proof. reflexivity. Qed.

Lemma entry_imps (f : string) :
  FormatAggregate.imps (entry f) == sumImpressions (unitsOf f inventory).
Proof.
  unfold entry. rewrite formatEntry_bucket. cbv zeta.
  cbn [FormatAggregate.imps]. apply bucket_sums.
Qed.

Lemma entry_revenue (f : string) :
  FormatAggregate.revenue (entry f) == sumRevenue (unitsOf f inventory).
Proof.
  unfold entry. rewrite formatEntry_bucket. cbv zeta.
  cbn [FormatAggregate.revenue]. apply bucket_sums.
Qed.

Lemma globalTotals_imps :
  Totals.imps (globalTotals inventory) == sumImpressions (pool inventory).
Proof.
  rewrite globalTotals_entries.
  cbn [addEntry Totals.imps Totals.zero].
  rewrite !entry_imps. unfold sumImpressions. rewrite pool_split. ring.
Qed.

Lemma globalTotals_revenue :
  Totals.revenue (globalTotals inventory) == sumRevenue (pool inventory).
Proof.
  rewrite globalTotals_entries.
  cbn [addEntry Totals.revenue Totals.zero].
  rewrite !entry_revenue. unfold sumRevenue. rewrite pool_split. ring.
Qed.

(** The global average eCPM is the pooled one, for every inventory. *)
Lemma global_avg_ecpm_pooled :
  GlobalAggregate.avg_ecpm (Aggregate.global (aggregate inventory))
  == pooled_avg_ecpm (pool inventory).
Proof.
  rewrite aggregate_global. cbv zeta. cbn [GlobalAggregate.avg_ecpm].
  unfold pooled_avg_ecpm. apply guarded_ratio_comp.
  - now rewrite globalTotals_revenue.
  - apply globalTotals_imps.
Qed.

Hypothesis impressions_nonneg :
  forall m, m ∈ units inventory -> 0 <= AdUnitMetrics.impressions m.

Lemma entry_weighted_fill (f : string) :
  FormatAggregate.fill_rate (entry f) * FormatAggregate.imps (entry f)
  == sumWeightedFill (unitsOf f inventory).
Proof.
  unfold entry. rewrite formatEntry_bucket. cbv zeta.
  cbn [FormatAggregate.fill_rate FormatAggregate.imps].
  destruct (bucket_sums inventory f) as (Hi & _ & _ & Hf).
  rewrite rate_times_imps; [exact Hf|].
  rewrite Hi, Hf. apply sumQ_weighted_zero.
  intros m Hm. apply impressions_nonneg.
  unfold unitsOf in Hm. now apply list_elem_of_filter in Hm.
Qed.

Lemma globalTotals_sumFillImps :
  Totals.sumFillImps (globalTotals inventory)
  == sumWeightedFill (pool inventory).
Proof.
  rewrite globalTotals_entries.
  cbn [addEntry Totals.sumFillImps Totals.zero].
  rewrite !entry_weighted_fill. unfold sumWeightedFill.
  rewrite pool_split. ring.
Qed.

(** The global fill rate is the pooled one when no unit has a negative
    impression count: re-weighting a format's fill rate by its impressions
    gives the format's weighted sum back. *)
Lemma global_fill_rate_pooled :
  GlobalAggregate.fill_rate (Aggregate.global (aggregate inventory))
  == pooled_fill_rate (pool inventory).
Proof.
  rewrite aggregate_global. cbv zeta. cbn [GlobalAggregate.fill_rate].
  unfold pooled_fill_rate. apply guarded_ratio_comp.
  - apply globalTotals_sumFillImps.
  - apply globalTotals_imps.
Qed.
End Pooled.

(** The total the segmentation rule reads is the impression count of the
    pool. *)
Lemma totalImps_pool (inventory : list InventoryProfile.t) :
  totalImps (aggregate inventory) == sumImpressions (pool inventory).
Proof. rewrite totalImps_globalTotals. apply globalTotals_imps. Qed.

(** C1.  The global latency is not the pooled latency.  On
    [rounding_inventory] the pool has 15000 impressions and a weighted
    latency sum of 1509000, so the pooled latency is round (100.6) = 101.
    The code first rounds the banner latency 100.4 to 100 and re-weights the
    rounded value, which gives round (1505000 / 15000) = 100.  The global
    eCPM and fill rate are the pooled ones, there as on every inventory
    without negative impression counts. *)
Theorem global_latency_not_pooled :
  GlobalAggregate.latency_ms (Aggregate.global (aggregate rounding_inventory))
  = 100%Z
  /\ pooled_latency_ms (pool rounding_inventory) = 101%Z
  /\ GlobalAggregate.latency_ms
       (Aggregate.global (aggregate rounding_inventory))
     <> pooled_latency_ms (pool rounding_inventory)
  /\ sumImpressions (pool rounding_inventory) == 15000
  /\ sumWeightedLatency (pool rounding_inventory) == 1509000
  /\ GlobalAggregate.avg_ecpm (Aggregate.global (aggregate rounding_inventory))
     == pooled_avg_ecpm (pool rounding_inventory)
  /\ GlobalAggregate.fill_rate (Aggregate.global (aggregate rounding_inventory))
     == pooled_fill_rate (pool rounding_inventory).
Proof.
  split; [vm_compute; reflexivity|]. split; [vm_compute; reflexivity|].
  split; [vm_compute; discriminate|]. vm_compute. tauto.
Qed.

(** ** The rule engine *)

Lemma elem_of_push_if (cond : bool) (s x : PlanSection.t)
    (l : list PlanSection.t) :
  x ∈ push_if cond s l <-> x ∈ l \/ (cond = true /\ x = s).
Proof.
  unfold push_if. destruct cond.
  - rewrite elem_of_app, list_elem_of_singleton. intuition.
  - intuition congruence.
Qed.

(** With a constraints object no read throws: every rule is evaluated, and
    the rules that hold push their section in the order of the source. *)
Lemma tactics_Some (inventory : list InventoryProfile.t)
    (c : BusinessConstraints.t) (agg : Aggregate.t) (now : N) :
  tactics inventory (Some c) agg now =
  Return
    (push_if (rewardedVolumeHigh agg) section_rewarded_caps
    (push_if (bannerWeak agg) section_banner_refresh
    (push_if (hasPolicyFlags inventory) section_policy_health
    (push_if (latencyHigh agg (BusinessConstraints.latency_budget_ms c))
       (section_latency_opt (BusinessConstraints.latency_budget_ms c))
    (push_if (Qltb 200000 (totalImps agg) && hasSingleRewardedUnit inventory)
       section_segment_units
    (push_if (floorsNeeded agg) section_geo_floors
    (push_if (biddingNeeded agg)
       (section_enable_bidding (BusinessConstraints.developer_capacity c)
          (BusinessConstraints.latency_budget_ms c) now)
       []))))))).
Proof. unfold tactics. destruct (biddingNeeded agg); reflexivity. Qed.

(** Without a constraints object the call throws, whatever the inventory:
    at the bidding rule if it holds, at the latency rule if not. *)
Lemma tactics_None (inventory : list InventoryProfile.t) (agg : Aggregate.t)
    (now : N) :
  tactics inventory None agg now =
  Throw
    (TypeError
       ("Cannot read properties of undefined (reading '"
        +:+ (if biddingNeeded agg then "developer_capacity"
             else "latency_budget_ms")
        +:+ "')")).
Proof. unfold tactics. destruct (biddingNeeded agg); reflexivity. Qed.

(** The sections of a call, one disjunct per rule. *)
Lemma tactics_sections (inventory : list InventoryProfile.t)
    (c : BusinessConstraints.t) (agg : Aggregate.t) (now : N) :
  exists sections,
    tactics inventory (Some c) agg now = Return sections
    /\ forall s,
         s ∈ sections <->
         (biddingNeeded agg = true
          /\ s = section_enable_bidding
                   (BusinessConstraints.developer_capacity c)
                   (BusinessConstraints.latency_budget_ms c) now)
         \/ (floorsNeeded agg = true /\ s = section_geo_floors)
         \/ (Qltb 200000 (totalImps agg) && hasSingleRewardedUnit inventory
             = true /\ s = section_segment_units)
         \/ (latencyHigh agg (BusinessConstraints.latency_budget_ms c) = true
             /\ s = section_latency_opt
                      (BusinessConstraints.latency_budget_ms c))
         \/ (hasPolicyFlags inventory = true /\ s = section_policy_health)
         \/ (bannerWeak agg = true /\ s = section_banner_refresh)
         \/ (rewardedVolumeHigh agg = true /\ s = section_rewarded_caps).
Proof.
  eexists. split; [apply tactics_Some|].
  intros s. rewrite !elem_of_push_if, elem_of_nil. tauto.
Qed.

Lemma hasSingleRewardedUnit_spec (inventory : list InventoryProfile.t) :
  hasSingleRewardedUnit inventory = true <->
  exists inv,
    inv ∈ inventory
    /\ (length
          (filter (fun m => AdUnitMetrics.format m = "rewarded")
             (InventoryProfile.metrics inv)) <= 1)%nat.
Proof.
  unfold hasSingleRewardedUnit. rewrite existsb_exists.
  split; intros (inv & Hin & H); exists inv.
  - split; [now apply list_elem_of_In|now apply Nat.leb_le].
  - split; [now apply list_elem_of_In|now apply Nat.leb_le].
Qed.

Lemma biddingNeeded_spec (agg : Aggregate.t) :
  biddingNeeded agg = true <->
  0.85 <= GlobalAggregate.fill_rate (Aggregate.global agg)
  /\ (match prop (Aggregate.byFormat agg) "rewarded" with
      | Some r => FormatAggregate.avg_ecpm_gap r
      | None => 0
      end <= - 0.10
      \/ match prop (Aggregate.byFormat agg) "interstitial" with
         | Some i => FormatAggregate.avg_ecpm_gap i
         | None => 0
         end <= - 0.10).
Proof.
  unfold biddingNeeded, field_or, from_option.
  now rewrite andb_true_iff, orb_true_iff, !Qleb_le.
Qed.

(** C6.  With a constraints object, the enable_bidding rule fires if and
    only if the global fill rate is at least 0.85 and the rewarded eCPM gap
    or the interstitial eCPM gap is at most -0.10 (a gap the aggregate does
    not carry counts as 0).  Its section has impact 5, and effort 4 when the
    developer capacity is low and 3 otherwise. *)
Theorem enable_bidding_rule (inventory : list InventoryProfile.t)
    (c : BusinessConstraints.t) (agg : Aggregate.t) (now : N) :
  exists sections,
    tactics inventory (Some c) agg now = Return sections
    /\ (fires "enable_bidding" sections <->
        0.85 <= GlobalAggregate.fill_rate (Aggregate.global agg)
        /\ (match prop (Aggregate.byFormat agg) "rewarded" with
            | Some r => FormatAggregate.avg_ecpm_gap r
            | None => 0
            end <= - 0.10
            \/ match prop (Aggregate.byFormat agg) "interstitial" with
               | Some i => FormatAggregate.avg_ecpm_gap i
               | None => 0
               end <= - 0.10))
    /\ (forall s,
          s ∈ sections -> PlanSection.id s = "enable_bidding" ->
          PlanSection.impact_score s = 5%Z
          /\ (BusinessConstraints.developer_capacity c = "low" ->
              PlanSection.effort_score s = 4%Z)
          /\ (BusinessConstraints.developer_capacity c <> "low" ->
              PlanSection.effort_score s = 3%Z)).
Proof.
  destruct (tactics_sections inventory c agg now) as (sections & Ht & Hs).
  exists sections. split; [exact Ht|]. split.
  - rewrite <- biddingNeeded_spec. unfold fires. split.
    + intros (s & Hin & Hid). apply Hs in Hin.
      destruct Hin as
        [[Hc E]|[[Hc E]|[[Hc E]|[[Hc E]|[[Hc E]|[[Hc E]|[Hc E]]]]]]];
        try other_rule.
      exact Hc.
    + intros Hc. eexists. split; [apply Hs; left; split; [exact Hc|]|];
        reflexivity.
  - intros s Hin Hid. apply Hs in Hin.
    destruct Hin as
      [[Hc E]|[[Hc E]|[[Hc E]|[[Hc E]|[[Hc E]|[[Hc E]|[Hc E]]]]]]];
      try other_rule.
    subst s. cbn [section_enable_bidding PlanSection.impact_score
                  PlanSection.effort_score].
    split; [reflexivity|]. split.
    + intros ->. reflexivity.
    + intros Hne. apply String.eqb_neq in Hne. now rewrite Hne.
Qed.

(** C5.  With a constraints object, the segment_units rule fires if and
    only if the impressions summed over the format entries are strictly
    above 200000 and some profile has at most one rewarded unit.  With such
    a profile present, a total of exactly 200000 does not fire the rule and
    a total of 200001 does.  For the aggregate of the inventory the total is
    the impression count of the units of the four formats. *)
Theorem segment_units_rule (inventory : list InventoryProfile.t)
    (c : BusinessConstraints.t) (agg : Aggregate.t) (now : N) :
  exists sections,
    tactics inventory (Some c) agg now = Return sections
    /\ (fires "segment_units" sections <->
        200000 < totalImps agg
        /\ exists inv,
             inv ∈ inventory
             /\ (length
                   (filter (fun m => AdUnitMetrics.format m = "rewarded")
                      (InventoryProfile.metrics inv)) <= 1)%nat)
    /\ (hasSingleRewardedUnit inventory = true ->
        (totalImps agg == 200000 -> ~ fires "segment_units" sections)
        /\ (totalImps agg == 200001 -> fires "segment_units" sections))
    /\ (agg = aggregate inventory ->
        totalImps agg == sumImpressions (pool inventory)).
Proof.
  destruct (tactics_sections inventory c agg now) as (sections & Ht & Hs).
  exists sections. split; [exact Ht|].
  assert (Hiff : fires "segment_units" sections <->
                 200000 < totalImps agg
                 /\ hasSingleRewardedUnit inventory = true).
  { rewrite <- Qltb_lt, <- andb_true_iff. unfold fires. split.
    - intros (s & Hin & Hid). apply Hs in Hin.
      destruct Hin as
        [[Hc E]|[[Hc E]|[[Hc E]|[[Hc E]|[[Hc E]|[[Hc E]|[Hc E]]]]]]];
        try other_rule.
      exact Hc.
    - intros Hc. exists section_segment_units.
      split; [apply Hs; right; right; left; now split|reflexivity]. }
  split; [now rewrite Hiff, hasSingleRewardedUnit_spec|]. split.
  - intros Hone. rewrite Hiff. split.
    + intros E [Hlt _]. rewrite E in Hlt. discriminate Hlt.
    + intros E. split; [|exact Hone]. rewrite E. reflexivity.
  - intros ->. apply totalImps_pool.
Qed.

(** The boundary of the segmentation rule, by evaluation of the aggregator
    and the rules: 200000 impressions do not fire it, 200001 do. *)
Example segment_units_boundary :
  fired_ids (boundary_inventory 200000) 0
  = ["enable_bidding"; "latency_opt"; "rewarded_caps"]
  /\ fired_ids (boundary_inventory 200001) 0
     = ["enable_bidding"; "segment_units"; "latency_opt"; "rewarded_caps"].
Proof. split; vm_compute; reflexivity. Qed.

(** ** The sort *)

Section Sort.
Context {A : Type}.
Variable cmp : A -> A -> Z.

(** [x] may stay in front of [y]. *)
Let before (x y : A) : Prop := (cmp x y <= 0)%Z.

Lemma insert_sorted_perm (x : A) (l : list A) :
  insert_sorted cmp x l ≡ₚ x :: l.
Proof.
  induction l as [|y l IH]; cbn [insert_sorted]; [reflexivity|].
  destruct (cmp x y <=? 0)%Z; [reflexivity|].
  rewrite IH. apply perm_swap.
Qed.

Lemma Array_sort_perm (l : list A) : Array_sort cmp l ≡ₚ l.
Proof.
  induction l as [|x l IH]; [reflexivity|].
  unfold Array_sort in *. cbn [foldr].
  now rewrite insert_sorted_perm, IH.
Qed.

(** A sorted array is left as it is: this is where stability shows. *)
Lemma Array_sort_fixed (l : list A) :
  StronglySorted before l -> Array_sort cmp l = l.
Proof.
  induction 1 as [|x l Hl IH Hx]; [reflexivity|].
  unfold Array_sort in *. cbn [foldr]. rewrite IH.
  destruct Hx as [|y l Hxy _]; [reflexivity|].
  cbn [insert_sorted]. unfold before in Hxy.
  apply Z.leb_le in Hxy. now rewrite Hxy.
Qed.

Hypothesis before_total : forall x y, before x y \/ before y x.
Hypothesis before_trans :
  forall x y z, before x y -> before y z -> before x z.

Lemma insert_sorted_sorted (x : A) (l : list A) :
  StronglySorted before l -> StronglySorted before (insert_sorted cmp x l).
Proof.
  induction 1 as [|y l Hl IH Hy]; cbn [insert_sorted].
  - repeat constructor.
  - destruct (cmp x y <=? 0)%Z eqn:E.
    + apply Z.leb_le in E. constructor; [now constructor|].
      constructor; [exact E|].
      eapply Forall_impl; [exact Hy|]. intros z Hz. now apply (before_trans x y z).
    + apply Z.leb_gt in E. constructor; [exact IH|].
      apply Forall_forall. intros z Hz.
      apply (elem_of_Permutation_proper z _ _ (insert_sorted_perm x l)) in Hz.
      apply elem_of_cons in Hz as [->|Hz].
      * destruct (before_total x y) as [H|H]; [unfold before in H; lia|exact H].
      * revert z Hz. now apply Forall_forall.
Qed.

Lemma Array_sort_sorted (l : list A) :
  StronglySorted before (Array_sort cmp l).
Proof.
  induction l as [|x l IH]; [constructor|].
  unfold Array_sort in *. cbn [foldr]. now apply insert_sorted_sorted.
Qed.
End Sort.

(** Two arrays whose elements are pairwise related come out of the sort
    pairwise related, when the comparator cannot tell related elements
    apart. *)
Lemma Array_sort_Forall2 {A} (cmp : A -> A -> Z) (R : A -> A -> Prop)
    (l k : list A) :
  (forall x x' y y', R x x' -> R y y' -> cmp x y = cmp x' y') ->
  Forall2 R l k -> Forall2 R (Array_sort cmp l) (Array_sort cmp k).
Proof.
  intros Hcmp. induction 1 as [|x x' l k Hx Hl IH]; [constructor|].
  unfold Array_sort in *. cbn [foldr].
  induction IH as [|y y' s s' Hy Hs IHs]; cbn [insert_sorted].
  - repeat constructor. exact Hx.
  - rewrite (Hcmp x x' y y' Hx Hy).
    destruct (cmp x' y' <=? 0)%Z.
    + repeat (constructor; try assumption).
    + constructor; assumption.
Qed.

Lemma StronglySorted_impl {A} (R R' : A -> A -> Prop) (l : list A) :
  (forall a b, R a b -> R' a b) -> StronglySorted R l -> StronglySorted R' l.
Proof.
  intros HR. induction 1 as [|x l Hl IH Hx]; constructor; [exact IH|].
  eapply Forall_impl; [exact Hx|]. intros y. apply HR.
Qed.

Lemma compareSections_ranks (a b : PlanSection.t) :
  (compareSections a b <= 0)%Z <-> ranks_before a b.
Proof.
  unfold compareSections, int_or, ranks_before.
  destruct (Z.eqb_spec
              (PlanSection.impact_score b - PlanSection.impact_score a) 0);
    lia.
Qed.

Lemma sorted_sections (l : list PlanSection.t) :
  StronglySorted ranks_before (Array_sort compareSections l).
Proof.
  apply (StronglySorted_impl (fun a b => (compareSections a b <= 0)%Z)).
  - intros a b. apply compareSections_ranks.
  - apply Array_sort_sorted.
    + intros a b. rewrite !compareSections_ranks. unfold ranks_before. lia.
    + intros a b d. rewrite !compareSections_ranks. unfold ranks_before. lia.
Qed.

Lemma sorted_sections_fixed (l : list PlanSection.t) :
  StronglySorted ranks_before l -> Array_sort compareSections l = l.
Proof.
  intros H. apply Array_sort_fixed.
  apply (StronglySorted_impl ranks_before); [|exact H].
  intros a b. apply compareSections_ranks.
Qed.

(** ** The route *)

Lemma validated_Some (body : PlanCreateRequest.t) (name : string)
    (inventory : list InventoryProfile.t) :
  validated body = Some (name, inventory) <->
  PlanCreateRequest.account_name body = Some name /\ name <> ""
  /\ PlanCreateRequest.inventory body = Some inventory /\ inventory <> [].
Proof.
  unfold validated.
  destruct (PlanCreateRequest.account_name body) as [n|];
    destruct (PlanCreateRequest.inventory body) as [i|];
    try (split; [discriminate|intros (? & ? & ? & ?); discriminate]).
  destruct (String.eqb_spec n "") as [->|Hn]; cbn [orb].
  - split; [discriminate|]. intros (E & Hne & _). congruence.
  - destruct i as [|p i]; cbn [length Nat.eqb].
    + split; [discriminate|]. intros (_ & _ & E & Hne). congruence.
    + split.
      * intros E. inversion E. subst. repeat split; congruence.
      * intros (E1 & _ & E2 & _). congruence.
Qed.

Lemma validated_None (body : PlanCreateRequest.t) :
  validated body = None <->
  PlanCreateRequest.account_name body = None
  \/ PlanCreateRequest.account_name body = Some ""
  \/ PlanCreateRequest.inventory body = None
  \/ PlanCreateRequest.inventory body = Some [].
Proof.
  unfold validated.
  destruct (PlanCreateRequest.account_name body) as [n|];
    destruct (PlanCreateRequest.inventory body) as [i|];
    try tauto.
  destruct (String.eqb_spec n "") as [->|Hn]; cbn [orb]; [tauto|].
  destruct i as [|p i]; cbn [length Nat.eqb]; [tauto|].
  split; [discriminate|].
  intros [H|[H|[H|H]]]; try discriminate; congruence.
Qed.

(** The route on a request that passes the guard. *)
Lemma handle_valid (body : PlanCreateRequest.t) (now : N) (name : string)
    (inventory : list InventoryProfile.t) :
  validated body = Some (name, inventory) ->
  handle body now =
  sections ←
    tactics inventory (PlanCreateRequest.constraints body)
      (aggregate inventory) now;
  let sorted :=
    Array_sort compareSections (Array_sort compareSections sections) in
  mret
    (Response.mk
       (Response.Plan
          (PlanResponse.mk name
             (join LF
                (snapshotLines name (aggregate inventory)
                 ++ imap priorityLine sorted ++ [ "" ]))
             sorted (PlanCreateRequest.constraints body)))
       200).
Proof. intros H. unfold handle. rewrite H. reflexivity. Qed.

(** C7.  A request whose account name is missing or empty, or whose
    inventory is missing (or no array) or empty, gets the 400 response with
    the fixed diagnostic, whatever else it carries and whatever the clock
    reads: the response holds no plan, and a missing constraints object,
    which makes rule evaluation throw, does not change it. *)
Theorem invalid_request_rejected (body : PlanCreateRequest.t) (now : N) :
  PlanCreateRequest.account_name body = None
  \/ PlanCreateRequest.account_name body = Some ""
  \/ PlanCreateRequest.inventory body = None
  \/ PlanCreateRequest.inventory body = Some [] ->
  handle body now
  = Return
      (Response.mk (Response.Detail "Missing account_name or inventory") 400)
  /\ POST body now
     = Response.mk (Response.Detail "Missing account_name or inventory") 400.
Proof.
  intros H. apply validated_None in H.
  unfold POST, handle. rewrite H. split; reflexivity.
Qed.

Lemma invalid_request_rejected_witness :
  (PlanCreateRequest.account_name nameless_request = None
   \/ PlanCreateRequest.account_name nameless_request = Some ""
   \/ PlanCreateRequest.inventory nameless_request = None
   \/ PlanCreateRequest.inventory nameless_request = Some [])
  /\ handle nameless_request 0
     = Return
         (Response.mk (Response.Detail "Missing account_name or inventory")
            400)
  /\ POST nameless_request 0
     = Response.mk (Response.Detail "Missing account_name or inventory") 400.
Proof.
  split.
  - right. left. reflexivity.
  - apply (invalid_request_rejected nameless_request 0).
    right. left. reflexivity.
Defined.

(** C10.  A request with a non-empty account name and a non-empty inventory
    but no constraints object passes the guard, which looks at the name and
    the inventory only; rule evaluation then reads a property of the missing
    object, and the call ends in the 500 response that carries the message
    of that exception, not in the 400 response of input validation. *)
Theorem missing_constraints_server_error (body : PlanCreateRequest.t)
    (now : N) (name : string) (inventory : list InventoryProfile.t) :
  PlanCreateRequest.account_name body = Some name -> name <> "" ->
  PlanCreateRequest.inventory body = Some inventory -> inventory <> [] ->
  PlanCreateRequest.constraints body = None ->
  validated body = Some (name, inventory)
  /\ Response.status (POST body now) = 500%Z
  /\ Response.status (POST body now) <> 400%Z
  /\ exists property,
       (property = "developer_capacity" \/ property = "latency_budget_ms")
       /\ handle body now
          = Throw
              (TypeError
                 ("Cannot read properties of undefined (reading '"
                  +:+ property +:+ "')"))
       /\ Response.json (POST body now)
          = Response.Detail
              ("Cannot read properties of undefined (reading '"
               +:+ property +:+ "')").
Proof.
  intros Hn Hne Hi Hine Hc.
  assert (Hv : validated body = Some (name, inventory)).
  { apply validated_Some. tauto. }
  split; [exact Hv|].
  unfold POST. rewrite (handle_valid body now name inventory Hv).
  rewrite Hc, tactics_None. cbn [mbind Except_bind Response.status
    Response.json message].
  split; [reflexivity|]. split; [discriminate|].
  destruct (biddingNeeded (aggregate inventory)); eexists;
    (split; [|split; reflexivity]); tauto.
Qed.

Lemma missing_constraints_server_error_witness :
  validated unconstrained_request = Some ("Demo Publisher Inc", scenario)
  /\ Response.status (POST unconstrained_request 0) = 500%Z
  /\ Response.status (POST unconstrained_request 0) <> 400%Z
  /\ exists property,
       (property = "developer_capacity" \/ property = "latency_budget_ms")
       /\ handle unconstrained_request 0
          = Throw
              (TypeError
                 ("Cannot read properties of undefined (reading '"
                  +:+ property +:+ "')"))
       /\ Response.json (POST unconstrained_request 0)
          = Response.Detail
              ("Cannot read properties of undefined (reading '"
               +:+ property +:+ "')").
Proof.
  apply (missing_constraints_server_error unconstrained_request 0
           "Demo Publisher Inc" scenario).
  - reflexivity.
  - discriminate.
  - reflexivity.
  - discriminate.
  - reflexivity.
Defined.

(** What a plan response is made of: the sections the rules fired, sorted
    once (the second sort finds them sorted), and the summary over them. *)
Lemma POST_plan (body : PlanCreateRequest.t) (now : N) (r : PlanResponse.t) :
  Response.json (POST body now) = Response.Plan r ->
  exists name inventory fired,
    validated body = Some (name, inventory)
    /\ tactics inventory (PlanCreateRequest.constraints body)
         (aggregate inventory) now = Return fired
    /\ r = PlanResponse.mk name
             (join LF
                (snapshotLines name (aggregate inventory)
                 ++ imap priorityLine (Array_sort compareSections fired)
                 ++ [ "" ]))
             (Array_sort compareSections fired)
             (PlanCreateRequest.constraints body).
Proof.
  unfold POST. destruct (validated body) as [[name inventory]|] eqn:Hv.
  - rewrite (handle_valid body now name inventory Hv).
    destruct (tactics inventory (PlanCreateRequest.constraints body)
                (aggregate inventory) now) as [e|fired] eqn:Ht;
      cbn [mbind Except_bind mret Except_ret Response.json];
      [discriminate|].
    intros E. injection E as <-.
    rewrite (sorted_sections_fixed _ (sorted_sections fired)).
    now exists name, inventory, fired.
  - unfold handle. rewrite Hv. discriminate.
Qed.

(** A rule fired in the response exactly when the rule engine fired it. *)
Lemma POST_fires (body : PlanCreateRequest.t) (now : N) (r : PlanResponse.t) :
  Response.json (POST body now) = Response.Plan r ->
  exists name inventory c fired,
    validated body = Some (name, inventory)
    /\ PlanCreateRequest.constraints body = Some c
    /\ tactics inventory (Some c) (aggregate inventory) now = Return fired
    /\ forall rule, fires rule (PlanResponse.sections r) <-> fires rule fired.
Proof.
  intros H. destruct (POST_plan body now r H)
    as (name & inventory & fired & Hv & Ht & ->).
  destruct (PlanCreateRequest.constraints body) as [c|] eqn:Hc.
  - exists name, inventory, c, fired. repeat (split; [assumption || reflexivity|]).
    intros rule. unfold fires. cbn [PlanResponse.sections].
    split; intros (x & Hin & Hid); exists x; (split; [|exact Hid]).
    + now rewrite <- (Array_sort_perm compareSections fired).
    + now rewrite (Array_sort_perm compareSections fired).
  - rewrite tactics_None in Ht. discriminate Ht.
Qed.

(** C2.  In every plan response the sections are sorted by descending
    impact score, ties by ascending effort score; they are the sections the
    rules produced, reordered; and the summary ends with the heading of the
    priority list, one line per section of the response and an empty line,
    where the line at position [i] reads: the number [i + 1], a full stop,
    the title of the section at position [i] of the response, and its
    impact and effort scores. *)
Theorem sections_ranked (body : PlanCreateRequest.t) (now : N)
    (r : PlanResponse.t) :
  Response.json (POST body now) = Response.Plan r ->
  StronglySorted ranks_before (PlanResponse.sections r)
  /\ (exists name inventory fired,
        validated body = Some (name, inventory)
        /\ tactics inventory (PlanCreateRequest.constraints body)
             (aggregate inventory) now = Return fired
        /\ PlanResponse.sections r ≡ₚ fired)
  /\ exists head lines,
       PlanResponse.summary r = join LF (head ++ lines ++ [ "" ])
       /\ last head = Some "## Priority Summary"
       /\ length lines = length (PlanResponse.sections r)
       /\ forall (i : nat) (s : PlanSection.t),
            PlanResponse.sections r !! i = Some s ->
            lines !! i
            = Some
                (pretty (i + 1)%nat +:+ ". " +:+ PlanSection.title s
                 +:+ " (Impact " +:+ pretty (PlanSection.impact_score s)
                 +:+ " / Effort " +:+ pretty (PlanSection.effort_score s)
                 +:+ ")").
Proof.
  intros H. destruct (POST_plan body now r H)
    as (name & inventory & fired & Hv & Ht & ->).
  cbn [PlanResponse.sections PlanResponse.summary].
  split; [apply sorted_sections|]. split.
  - exists name, inventory, fired.
    split; [exact Hv|]. split; [exact Ht|]. apply Array_sort_perm.
  - exists (snapshotLines name (aggregate inventory)),
      (imap priorityLine (Array_sort compareSections fired)).
    split; [reflexivity|]. split; [reflexivity|].
    split; [apply length_imap|].
    intros i s Hs. rewrite list_lookup_imap, Hs. reflexivity.
Qed.

Lemma sections_ranked_witness :
  Response.json (POST demo_request_tight 1730548800000)
  = Response.Plan (plan_of (POST demo_request_tight 1730548800000))
  /\ StronglySorted ranks_before
       (PlanResponse.sections
          (plan_of (POST demo_request_tight 1730548800000)))
  /\ (exists name inventory fired,
        validated demo_request_tight = Some (name, inventory)
        /\ tactics inventory (PlanCreateRequest.constraints demo_request_tight)
             (aggregate inventory) 1730548800000 = Return fired
        /\ PlanResponse.sections
             (plan_of (POST demo_request_tight 1730548800000))
           ≡ₚ fired)
  /\ exists head lines,
       PlanResponse.summary (plan_of (POST demo_request_tight 1730548800000))
       = join LF (head ++ lines ++ [ "" ])
       /\ last head = Some "## Priority Summary"
       /\ length lines
          = length
              (PlanResponse.sections
                 (plan_of (POST demo_request_tight 1730548800000)))
       /\ forall (i : nat) (s : PlanSection.t),
            PlanResponse.sections
              (plan_of (POST demo_request_tight 1730548800000)) !! i
            = Some s ->
            lines !! i
            = Some
                (pretty (i + 1)%nat +:+ ". " +:+ PlanSection.title s
                 +:+ " (Impact " +:+ pretty (PlanSection.impact_score s)
                 +:+ " / Effort " +:+ pretty (PlanSection.effort_score s)
                 +:+ ")").
Proof.
  assert (H : Response.json (POST demo_request_tight 1730548800000)
              = Response.Plan
                  (plan_of (POST demo_request_tight 1730548800000))).
  { vm_compute. reflexivity. }
  split; [exact H|].
  exact (sections_ranked demo_request_tight 1730548800000 _ H).
Defined.

(** The demo request with the tight latency budget, by evaluation: the
    rules fire latency_opt before banner_refresh, the response carries them
    the other way round, and the summary ends with the numbered lines in
    the order of the response. *)
Example reordered_priority_list :
  (exists fired,
     tactics demo_inventory (PlanCreateRequest.constraints demo_request_tight)
       (aggregate demo_inventory) 1730548800000 = Return fired
     /\ map PlanSection.id fired
        = ["enable_bidding"; "geo_floors"; "segment_units"; "latency_opt";
           "banner_refresh"; "rewarded_caps"])
  /\ map PlanSection.id
       (PlanResponse.sections
          (plan_of (POST demo_request_tight 1730548800000)))
     = ["enable_bidding"; "geo_floors"; "segment_units"; "banner_refresh";
        "latency_opt"; "rewarded_caps"]
  /\ exists head,
       PlanResponse.summary (plan_of (POST demo_request_tight 1730548800000))
       = join LF
           (head ++
            [ "## Priority Summary";
              "1. Enable AdMob Bidding for High-Volume Partners (Impact 5 / Effort 3)";
              "2. Introduce Dynamic eCPM Floors by Geo and Format (Impact 4 / Effort 2)";
              "3. Segment Ad Units by User Value and Session Depth (Impact 4 / Effort 3)";
              "4. Tune Banner Refresh and Viewability (Impact 3 / Effort 1)";
              "5. Optimize Latency and SDK Load (Impact 3 / Effort 2)";
              "6. Apply Rewarded Frequency Caps and Placement Strategy (Impact 3 / Effort 2)";
              "" ]).
Proof.
  split; [eexists; split; [reflexivity|]; vm_compute; reflexivity|].
  split; [vm_compute; reflexivity|].
  exists
    (removelast
       (snapshotLines "Demo Publisher Inc" (aggregate demo_inventory))).
  vm_compute. reflexivity.
Qed.

(** The demo request, by evaluation: the order of the response and the
    numbered lines of its summary. *)
Example demo_priority_list :
  map PlanSection.id
    (PlanResponse.sections (plan_of (POST demo_request 1730548800000)))
  = ["enable_bidding"; "geo_floors"; "segment_units"; "banner_refresh";
     "rewarded_caps"]
  /\ imap priorityLine
       (PlanResponse.sections (plan_of (POST demo_request 1730548800000)))
     = [ "1. Enable AdMob Bidding for High-Volume Partners (Impact 5 / Effort 3)";
         "2. Introduce Dynamic eCPM Floors by Geo and Format (Impact 4 / Effort 2)";
         "3. Segment Ad Units by User Value and Session Depth (Impact 4 / Effort 3)";
         "4. Tune Banner Refresh and Viewability (Impact 3 / Effort 1)";
         "5. Apply Rewarded Frequency Caps and Placement Strategy (Impact 3 / Effort 2)" ].
Proof. split; vm_compute; reflexivity. Qed.

(** ** Determinism up to the clock *)

Lemma append_assoc (s t u : string) : (s +:+ t) +:+ u = s +:+ (t +:+ u).
Proof.
  induction s as [|c s IH]; [reflexivity|].
  change ((String c s +:+ t) +:+ u) with (String c ((s +:+ t) +:+ u)).
  now rewrite IH.
Qed.

(** The guidance text of the bidding rule around the token. *)
Lemma enable_bidding_markdown_token (latency_budget_ms : Q) :
  exists pre post,
    forall now,
      enable_bidding_markdown now latency_budget_ms
      = pre +:+ toString36 now +:+ post.
Proof.
  exists
    (join LF
       [ "- Upgrade Google Mobile Ads SDK to version " +:+ sdkTarget
           +:+ " for Android/iOS.";
         "- In AdMob → Mediation → Ad sources, enable bidding for "
           +:+ join ", " biddingPartners +:+ ".";
         "- Migrate top waterfall instances to bidding; keep a Tier-3 fallback waterfall.";
         "- Set up Firebase Remote Config experiment: `bidding_migration_" ]),
    ("`." +:+ LF +:+
     join LF
       [ "";
         "**Metrics to monitor:**";
         "- Target eCPM uplift: +15–25%";
         "- Latency: keep below " +:+ Number_toString latency_budget_ms
           +:+ " ms" ]).
  intros now. unfold enable_bidding_markdown, join.
  cbn [String.concat]. rewrite !append_assoc. reflexivity.
Qed.

Lemma same_up_to_token_refl (now1 now2 : N) (s : PlanSection.t) :
  same_up_to_token now1 now2 s s.
Proof. unfold same_up_to_token. tauto. Qed.

Lemma same_up_to_token_bidding (now1 now2 : N) (capacity : string)
    (budget : Q) :
  same_up_to_token now1 now2
    (section_enable_bidding capacity budget now1)
    (section_enable_bidding capacity budget now2).
Proof.
  unfold same_up_to_token.
  repeat (split; [reflexivity|]). right. split; [reflexivity|].
  destruct (enable_bidding_markdown_token budget) as (pre & post & H).
  exists pre, post. cbn [section_enable_bidding PlanSection.markdown].
  now rewrite !H.
Qed.

Lemma same_up_to_token_compare (now1 now2 : N) (x x' y y' : PlanSection.t) :
  same_up_to_token now1 now2 x x' -> same_up_to_token now1 now2 y y' ->
  compareSections x y = compareSections x' y'.
Proof.
  intros (_ & _ & Hi & He & _) (_ & _ & Hi' & He' & _).
  unfold compareSections. now rewrite Hi, He, Hi', He'.
Qed.

Lemma push_if_Forall2 (R : PlanSection.t -> PlanSection.t -> Prop)
    (cond : bool) (s s' : PlanSection.t) (l l' : list PlanSection.t) :
  R s s' -> Forall2 R l l' -> Forall2 R (push_if cond s l) (push_if cond s' l').
Proof.
  intros Hs Hl. unfold push_if. destruct cond; [|exact Hl].
  apply Forall2_app; [exact Hl|]. now repeat constructor.
Qed.

(** The sections of two calls that differ in the clock only. *)
Lemma tactics_same_up_to_token (inventory : list InventoryProfile.t)
    (constraints : option BusinessConstraints.t) (agg : Aggregate.t)
    (now1 now2 : N) :
  match
    tactics inventory constraints agg now1,
    tactics inventory constraints agg now2
  with
  | Return l1, Return l2 => Forall2 (same_up_to_token now1 now2) l1 l2
  | Throw e1, Throw e2 => e1 = e2
  | _, _ => False
  end.
Proof.
  destruct constraints as [c|].
  - rewrite !tactics_Some.
    repeat (apply push_if_Forall2; [apply same_up_to_token_refl|]).
    apply push_if_Forall2; [apply same_up_to_token_bidding|constructor].
  - rewrite !tactics_None. reflexivity.
Qed.

(** C9.  Two evaluations of the engine on the same request, at any two
    readings of the clock, end alike: either both are the same error
    response, or both are plans whose sections are, in the same order, equal
    in id, title, impact score, effort score and guidance text, except for
    the token of the clock inside the guidance text of the bidding rule.
    With the same reading the two responses are equal. *)
Theorem engine_deterministic_up_to_token (body : PlanCreateRequest.t)
    (now1 now2 : N) :
  Response.status (POST body now1) = Response.status (POST body now2)
  /\ match
       Response.json (POST body now1), Response.json (POST body now2)
     with
     | Response.Plan r1, Response.Plan r2 =>
         Forall2 (same_up_to_token now1 now2)
           (PlanResponse.sections r1) (PlanResponse.sections r2)
         /\ PlanResponse.account_name r1 = PlanResponse.account_name r2
         /\ PlanResponse.constraints r1 = PlanResponse.constraints r2
     | Response.Detail d1, Response.Detail d2 => d1 = d2
     | _, _ => False
     end
  /\ (now1 = now2 -> POST body now1 = POST body now2).
Proof.
  split; [|split; [|now intros ->]].
  - unfold POST. destruct (validated body) as [[name inventory]|] eqn:Hv.
    + rewrite !(handle_valid body _ name inventory Hv).
      pose proof (tactics_same_up_to_token inventory
                    (PlanCreateRequest.constraints body)
                    (aggregate inventory) now1 now2) as H.
      destruct (tactics inventory _ _ now1), (tactics inventory _ _ now2);
        try contradiction; reflexivity.
    + unfold handle. rewrite Hv. reflexivity.
  - unfold POST. destruct (validated body) as [[name inventory]|] eqn:Hv.
    + rewrite !(handle_valid body _ name inventory Hv).
      pose proof (tactics_same_up_to_token inventory
                    (PlanCreateRequest.constraints body)
                    (aggregate inventory) now1 now2) as H.
      destruct (tactics inventory _ _ now1) as [e1|l1],
               (tactics inventory _ _ now2) as [e2|l2];
        try contradiction;
        cbn [mbind Except_bind mret Except_ret Response.json message
             PlanResponse.sections PlanResponse.account_name
             PlanResponse.constraints].
      * now subst e2.
      * split; [|split; reflexivity].
        do 2 (apply Array_sort_Forall2;
              [intros x x' y y'; apply same_up_to_token_compare|]).
        exact H.
    + unfold handle. rewrite Hv. reflexivity.
Qed.

(** ** The remaining rules *)

Lemma hasPolicyFlags_spec (inventory : list InventoryProfile.t) :
  hasPolicyFlags inventory = true <->
  exists inv flag flags,
    inv ∈ inventory /\ InventoryProfile.policy_flags inv = Some (flag :: flags).
Proof.
  unfold hasPolicyFlags. rewrite existsb_exists. split.
  - intros (inv & Hin & H). apply list_elem_of_In in Hin.
    destruct (InventoryProfile.policy_flags inv) as [[|flag flags]|] eqn:E;
      try discriminate H.
    now exists inv, flag, flags.
  - intros (inv & flag & flags & Hin & E). exists inv.
    split; [now apply list_elem_of_In|]. now rewrite E.
Qed.

Lemma banner_benchmark :
  Benchmark.avg_ecpm (benchmarks !!! "banner") = 1.2.
Proof. reflexivity. Qed.

Lemma bannerWeak_spec (agg : Aggregate.t) :
  bannerWeak agg = true <->
  match prop (Aggregate.byFormat agg) "banner" with
  | Some b => FormatAggregate.avg_ecpm b
  | None => 0
  end < 1.2
  /\ 0.9 <= match prop (Aggregate.byFormat agg) "banner" with
            | Some b => FormatAggregate.fill_rate b
            | None => 0
            end.
Proof.
  unfold bannerWeak, field_or, from_option.
  now rewrite andb_true_iff, Qltb_lt, Qleb_le, banner_benchmark.
Qed.

Lemma rewardedVolumeHigh_spec (agg : Aggregate.t) :
  rewardedVolumeHigh agg = true <->
  150000 < match prop (Aggregate.byFormat agg) "rewarded" with
           | Some r => FormatAggregate.imps r
           | None => 0
           end.
Proof. unfold rewardedVolumeHigh, field_or, from_option. apply Qltb_lt. Qed.

(** X1.  With a constraints object, the latency_opt rule fires if and only
    if the global latency is strictly above the latency budget of the
    constraints; a latency equal to the budget does not fire it.  Its
    section has impact 3 and effort 2. *)
Theorem latency_opt_rule (inventory : list InventoryProfile.t)
    (c : BusinessConstraints.t) (agg : Aggregate.t) (now : N) :
  exists sections,
    tactics inventory (Some c) agg now = Return sections
    /\ (fires "latency_opt" sections <->
        BusinessConstraints.latency_budget_ms c
        < inject_Z (GlobalAggregate.latency_ms (Aggregate.global agg)))
    /\ (inject_Z (GlobalAggregate.latency_ms (Aggregate.global agg))
        == BusinessConstraints.latency_budget_ms c ->
        ~ fires "latency_opt" sections)
    /\ (forall s,
          s ∈ sections -> PlanSection.id s = "latency_opt" ->
          PlanSection.impact_score s = 3%Z
          /\ PlanSection.effort_score s = 2%Z).
Proof.
  destruct (tactics_sections inventory c agg now) as (sections & Ht & Hs).
  exists sections. split; [exact Ht|].
  assert (Hiff : fires "latency_opt" sections <->
                 BusinessConstraints.latency_budget_ms c
                 < inject_Z (GlobalAggregate.latency_ms (Aggregate.global agg))).
  { rewrite <- Qltb_lt. unfold fires. split.
    - intros (s & Hin & Hid). apply Hs in Hin.
      destruct Hin as
        [[Hc E]|[[Hc E]|[[Hc E]|[[Hc E]|[[Hc E]|[[Hc E]|[Hc E]]]]]]];
        try other_rule.
      exact Hc.
    - intros Hc. eexists.
      split; [apply Hs; do 3 right; left; split; [exact Hc|]|]; reflexivity. }
  split; [exact Hiff|]. split.
  - intros E. rewrite Hiff, E. apply Qlt_irrefl.
  - intros s Hin Hid. apply Hs in Hin.
    destruct Hin as
      [[Hc E]|[[Hc E]|[[Hc E]|[[Hc E]|[[Hc E]|[[Hc E]|[Hc E]]]]]]];
      try other_rule.
    subst s. split; reflexivity.
Qed.

(** X2.  With a constraints object, the policy_health rule fires if and
    only if some profile carries a non-empty list of policy flags; a profile
    without the property counts as one with an empty list.  Its section has
    impact 3 and effort 2. *)
Theorem policy_health_rule (inventory : list InventoryProfile.t)
    (c : BusinessConstraints.t) (agg : Aggregate.t) (now : N) :
  exists sections,
    tactics inventory (Some c) agg now = Return sections
    /\ (fires "policy_health" sections <->
        exists inv flag flags,
          inv ∈ inventory
          /\ InventoryProfile.policy_flags inv = Some (flag :: flags))
    /\ (forall s,
          s ∈ sections -> PlanSection.id s = "policy_health" ->
          PlanSection.impact_score s = 3%Z
          /\ PlanSection.effort_score s = 2%Z).
Proof.
  destruct (tactics_sections inventory c agg now) as (sections & Ht & Hs).
  exists sections. split; [exact Ht|]. split.
  - rewrite <- hasPolicyFlags_spec. unfold fires. split.
    + intros (s & Hin & Hid). apply Hs in Hin.
      destruct Hin as
        [[Hc E]|[[Hc E]|[[Hc E]|[[Hc E]|[[Hc E]|[[Hc E]|[Hc E]]]]]]];
        try other_rule.
      exact Hc.
    + intros Hc. exists section_policy_health.
      split; [apply Hs; do 4 right; left; now split|reflexivity].
  - intros s Hin Hid. apply Hs in Hin.
    destruct Hin as
      [[Hc E]|[[Hc E]|[[Hc E]|[[Hc E]|[[Hc E]|[[Hc E]|[Hc E]]]]]]];
      try other_rule.
    subst s. split; reflexivity.
Qed.

(** X3.  With a constraints object, the banner_refresh rule fires if and
    only if the banner average eCPM is strictly below the banner benchmark
    1.2 and the banner fill rate is at least 0.9 (both count as 0 when the
    aggregate has no banner entry).  Its section has impact 3 and effort 1.
    On the aggregate of the inventory the rule cannot fire unless the banner
    units have impressions: without them the banner fill rate is 0. *)
Theorem banner_refresh_rule (inventory : list InventoryProfile.t)
    (c : BusinessConstraints.t) (agg : Aggregate.t) (now : N) :
  exists sections,
    tactics inventory (Some c) agg now = Return sections
    /\ (fires "banner_refresh" sections <->
        match prop (Aggregate.byFormat agg) "banner" with
        | Some b => FormatAggregate.avg_ecpm b
        | None => 0
        end < 1.2
        /\ 0.9 <= match prop (Aggregate.byFormat agg) "banner" with
                  | Some b => FormatAggregate.fill_rate b
                  | None => 0
                  end)
    /\ (forall s,
          s ∈ sections -> PlanSection.id s = "banner_refresh" ->
          PlanSection.impact_score s = 3%Z
          /\ PlanSection.effort_score s = 1%Z)
    /\ (agg = aggregate inventory ->
        fires "banner_refresh" sections ->
        0 < sumImpressions (unitsOf "banner" inventory)).
Proof.
  destruct (tactics_sections inventory c agg now) as (sections & Ht & Hs).
  exists sections. split; [exact Ht|].
  assert (Hiff : fires "banner_refresh" sections <-> bannerWeak agg = true).
  { unfold fires. split.
    - intros (s & Hin & Hid). apply Hs in Hin.
      destruct Hin as
        [[Hc E]|[[Hc E]|[[Hc E]|[[Hc E]|[[Hc E]|[[Hc E]|[Hc E]]]]]]];
        try other_rule.
      exact Hc.
    - intros Hc. exists section_banner_refresh.
      split; [apply Hs; do 5 right; left; now split|reflexivity]. }
  split; [now rewrite Hiff, bannerWeak_spec|]. split.
  - intros s Hin Hid. apply Hs in Hin.
    destruct Hin as
      [[Hc E]|[[Hc E]|[[Hc E]|[[Hc E]|[[Hc E]|[[Hc E]|[Hc E]]]]]]];
      try other_rule.
    subst s. split; reflexivity.
  - intros -> Hf. apply Hiff, bannerWeak_spec in Hf as [_ Hfill].
    rewrite byFormat_lookup in Hfill by (apply (bool_decide_unpack _); exact I).
    rewrite formatEntry_bucket in Hfill. cbv zeta in Hfill.
    cbn [FormatAggregate.fill_rate] in Hfill.
    destruct (bucket_sums inventory "banner") as (Hi & _).
    rewrite <- Hi.
    destruct (Qltb 0 (Totals.imps (bucket inventory "banner"))) eqn:E.
    + now apply Qltb_lt.
    + exfalso. revert Hfill. apply Qlt_not_le. reflexivity.
Qed.

(** X4.  With a constraints object, the rewarded_caps rule fires if and
    only if the impressions of the rewarded entry are strictly above 150000
    (0 when the aggregate has no rewarded entry).  Its section has impact 3
    and effort 2.  On the aggregate of the inventory the count is the sum of
    the impressions of the rewarded units. *)
Theorem rewarded_caps_rule (inventory : list InventoryProfile.t)
    (c : BusinessConstraints.t) (agg : Aggregate.t) (now : N) :
  exists sections,
    tactics inventory (Some c) agg now = Return sections
    /\ (fires "rewarded_caps" sections <->
        150000 < match prop (Aggregate.byFormat agg) "rewarded" with
                 | Some r => FormatAggregate.imps r
                 | None => 0
                 end)
    /\ (forall s,
          s ∈ sections -> PlanSection.id s = "rewarded_caps" ->
          PlanSection.impact_score s = 3%Z
          /\ PlanSection.effort_score s = 2%Z)
    /\ (agg = aggregate inventory ->
        (fires "rewarded_caps" sections <->
         150000 < sumImpressions (unitsOf "rewarded" inventory))).
Proof.
  destruct (tactics_sections inventory c agg now) as (sections & Ht & Hs).
  exists sections. split; [exact Ht|].
  assert (Hiff : fires "rewarded_caps" sections <->
                 rewardedVolumeHigh agg = true).
  { unfold fires. split.
    - intros (s & Hin & Hid). apply Hs in Hin.
      destruct Hin as
        [[Hc E]|[[Hc E]|[[Hc E]|[[Hc E]|[[Hc E]|[[Hc E]|[Hc E]]]]]]];
        try other_rule.
      exact Hc.
    - intros Hc. exists section_rewarded_caps.
      split; [apply Hs; do 6 right; now split|reflexivity]. }
  split; [now rewrite Hiff, rewardedVolumeHigh_spec|]. split.
  - intros s Hin Hid. apply Hs in Hin.
    destruct Hin as
      [[Hc E]|[[Hc E]|[[Hc E]|[[Hc E]|[[Hc E]|[[Hc E]|[Hc E]]]]]]];
      try other_rule.
    subst s. split; reflexivity.
  - intros ->. rewrite Hiff, rewardedVolumeHigh_spec.
    rewrite byFormat_lookup by (apply (bool_decide_unpack _); exact I).
    rewrite formatEntry_bucket. cbv zeta. cbn [FormatAggregate.imps].
    destruct (bucket_sums inventory "rewarded") as (Hi & _).
    now rewrite Hi.
Qed.

(** ** The order of the sections *)

Lemma push_if_sublist (cond : bool) (s : PlanSection.t)
    (l : list PlanSection.t) (ids : list string) :
  map PlanSection.id l `sublist_of` ids ->
  map PlanSection.id (push_if cond s l)
    `sublist_of` ids ++ [PlanSection.id s].
Proof.
  intros H. unfold push_if. destruct cond.
  - rewrite map_app. now apply sublist_app.
  - now apply sublist_inserts_r.
Qed.

(** X5.  The rules are evaluated in a fixed order and each pushes at most
    one section: the ids of the sections [tactics] returns are a sublist of
    enable_bidding, geo_floors, segment_units, latency_opt, policy_health,
    banner_refresh, rewarded_caps.  So no id occurs twice and there are at
    most seven sections. *)
Theorem tactics_ids_in_evaluation_order (inventory : list InventoryProfile.t)
    (c : BusinessConstraints.t) (agg : Aggregate.t) (now : N) :
  exists sections,
    tactics inventory (Some c) agg now = Return sections
    /\ map PlanSection.id sections `sublist_of` evaluation_order
    /\ NoDup (map PlanSection.id sections)
    /\ (length sections <= 7)%nat.
Proof.
  eexists. split; [apply tactics_Some|].
  match goal with
  | |- ?S `sublist_of` _ /\ _ =>
      assert (Hsub : S `sublist_of` evaluation_order)
  end.
  { change evaluation_order with
      ((((((([] ++ ["enable_bidding"]) ++ ["geo_floors"])
            ++ ["segment_units"]) ++ ["latency_opt"]) ++ ["policy_health"])
         ++ ["banner_refresh"]) ++ ["rewarded_caps"]).
    repeat apply push_if_sublist. constructor. }
  split; [exact Hsub|]. split.
  - eapply sublist_NoDup; [|exact Hsub].
    apply (bool_decide_unpack _). vm_compute. exact I.
  - apply sublist_length in Hsub. now rewrite length_map in Hsub.
Qed.

(** The sort on what the rules can push, condition by condition: the tie
    between latency_opt, policy_health and rewarded_caps is settled by the
    order of evaluation, since the sort is stable. *)
Lemma sort_fired (cEB cGF cSU cLO cPH cBR cRC : bool) (capacity : string)
    (budget : Q) (now : N) :
  Array_sort compareSections
    (push_if cRC section_rewarded_caps
    (push_if cBR section_banner_refresh
    (push_if cPH section_policy_health
    (push_if cLO (section_latency_opt budget)
    (push_if cSU section_segment_units
    (push_if cGF section_geo_floors
    (push_if cEB (section_enable_bidding capacity budget now) [])))))))
  = push_if cRC section_rewarded_caps
    (push_if cPH section_policy_health
    (push_if cLO (section_latency_opt budget)
    (push_if cBR section_banner_refresh
    (push_if cSU section_segment_units
    (push_if cGF section_geo_floors
    (push_if cEB (section_enable_bidding capacity budget now) [])))))).
Proof.
  destruct cEB, cGF, cSU, cLO, cPH, cBR, cRC; reflexivity.
Qed.

(** X6.  The order of the sections in a plan response is fixed: the rules
    that fired, listed as enable_bidding, geo_floors, segment_units,
    banner_refresh, latency_opt, policy_health, rewarded_caps.  The banner
    rule moves in front of the latency rule (lower effort), and the three
    rules of impact 3 and effort 2 keep their order of evaluation. *)
Theorem response_sections_order (body : PlanCreateRequest.t) (now : N)
    (r : PlanResponse.t) :
  Response.json (POST body now) = Response.Plan r ->
  exists name inventory c,
    validated body = Some (name, inventory)
    /\ PlanCreateRequest.constraints body = Some c
    /\ PlanResponse.sections r
       = let agg := aggregate inventory in
         push_if (rewardedVolumeHigh agg) section_rewarded_caps
         (push_if (hasPolicyFlags inventory) section_policy_health
         (push_if (latencyHigh agg (BusinessConstraints.latency_budget_ms c))
            (section_latency_opt (BusinessConstraints.latency_budget_ms c))
         (push_if (bannerWeak agg) section_banner_refresh
         (push_if
            (Qltb 200000 (totalImps agg) && hasSingleRewardedUnit inventory)
            section_segment_units
         (push_if (floorsNeeded agg) section_geo_floors
         (push_if (biddingNeeded agg)
            (section_enable_bidding (BusinessConstraints.developer_capacity c)
               (BusinessConstraints.latency_budget_ms c) now)
            [])))))).
Proof.
  intros H. destruct (POST_plan body now r H)
    as (name & inventory & fired & Hv & Ht & ->).
  destruct (PlanCreateRequest.constraints body) as [c|] eqn:Hc.
  - exists name, inventory, c. split; [exact Hv|]. split; [reflexivity|].
    rewrite tactics_Some in Ht. injection Ht as <-.
    cbn [PlanResponse.sections]. cbv zeta. apply sort_fired.
  - rewrite tactics_None in Ht. discriminate Ht.
Qed.

Lemma response_sections_order_witness :
  Response.json (POST demo_request 1730548800000)
  = Response.Plan (plan_of (POST demo_request 1730548800000))
  /\ exists name inventory c,
       validated demo_request = Some (name, inventory)
       /\ PlanCreateRequest.constraints demo_request = Some c
       /\ PlanResponse.sections (plan_of (POST demo_request 1730548800000))
          = let agg := aggregate inventory in
            push_if (rewardedVolumeHigh agg) section_rewarded_caps
            (push_if (hasPolicyFlags inventory) section_policy_health
            (push_if
               (latencyHigh agg (BusinessConstraints.latency_budget_ms c))
               (section_latency_opt (BusinessConstraints.latency_budget_ms c))
            (push_if (bannerWeak agg) section_banner_refresh
            (push_if
               (Qltb 200000 (totalImps agg)
                && hasSingleRewardedUnit inventory)
               section_segment_units
            (push_if (floorsNeeded agg) section_geo_floors
            (push_if (biddingNeeded agg)
               (section_enable_bidding
                  (BusinessConstraints.developer_capacity c)
                  (BusinessConstraints.latency_budget_ms c) 1730548800000)
               [])))))).
Proof.
  assert (H : Response.json (POST demo_request 1730548800000)
              = Response.Plan (plan_of (POST demo_request 1730548800000))).
  { vm_compute. reflexivity. }
  split; [exact H|].
  exact (response_sections_order demo_request 1730548800000 _ H).
Defined.

(** Sections that tie with each other: the elements of a class [P] whose
    members the comparator never orders strictly keep their order. *)
Lemma insert_sorted_filter {A} (cmp : A -> A -> Z) (P : A -> Prop)
    `{!forall x, Decision (P x)} (x : A) (l : list A) :
  (forall a b, P a -> P b -> (cmp a b <= 0)%Z) ->
  filter P (insert_sorted cmp x l) = filter P (x :: l).
Proof.
  intros Htie. induction l as [|y l IH]; cbn [insert_sorted]; [reflexivity|].
  destruct (cmp x y <=? 0)%Z eqn:E; [reflexivity|].
  apply Z.leb_gt in E.
  rewrite (filter_cons P y), IH, !(filter_cons P x), (filter_cons P y).
  destruct (decide (P x)) as [Hx|Hx]; [|reflexivity].
  destruct (decide (P y)) as [Hy|Hy]; [|reflexivity].
  specialize (Htie x y Hx Hy). lia.
Qed.

Lemma Array_sort_filter {A} (cmp : A -> A -> Z) (P : A -> Prop)
    `{!forall x, Decision (P x)} (l : list A) :
  (forall a b, P a -> P b -> (cmp a b <= 0)%Z) ->
  filter P (Array_sort cmp l) = filter P l.
Proof.
  intros Htie. induction l as [|x l IH]; [reflexivity|].
  unfold Array_sort in *. cbn [foldr].
  rewrite (insert_sorted_filter cmp P _ _ Htie), !filter_cons, IH.
  reflexivity.
Qed.

(** X7.  The ranking is stable: whatever list is sorted, the sections of
    one impact score and one effort score come out in the order they went
    in. *)
Theorem ranking_stable (l : list PlanSection.t) (impact effort : Z) :
  filter
    (fun s =>
       PlanSection.impact_score s = impact
       /\ PlanSection.effort_score s = effort)
    (Array_sort compareSections l)
  = filter
      (fun s =>
         PlanSection.impact_score s = impact
         /\ PlanSection.effort_score s = effort)
      l.
Proof.
  apply Array_sort_filter. intros a b [Ha Ha'] [Hb Hb'].
  apply compareSections_ranks. unfold ranks_before. lia.
Qed.

(** ** The three outcomes of the route *)

(** Closes one side of a statement about a response that has been computed:
    the hypotheses are equations between distinct constructors or numbers,
    or the goal holds by reflexivity. *)
Ltac route_case :=
  intros;
  repeat match goal with
         | H : _ /\ _ |- _ => destruct H
         | H : exists _, _ |- _ => destruct H
         end;
  first [ discriminate | congruence | reflexivity
        | eexists; reflexivity | tauto ].

(** X8.  The outcomes of the route on the parsed object of a request.  It
    answers 400, with the fixed diagnostic, exactly when the guard rejects
    the request.  It answers 200 exactly when what it sends is a plan, and
    only to a request that passed the guard and carries a constraints
    object.  A request that passes the guard without a constraints object is
    answered 500.  No other status is ever returned. *)
Theorem POST_outcomes (body : PlanCreateRequest.t) (now : N) :
  (Response.status (POST body now) = 400%Z <-> validated body = None)
  /\ (Response.status (POST body now) = 200%Z ->
      validated body <> None /\ PlanCreateRequest.constraints body <> None)
  /\ (validated body <> None ->
      PlanCreateRequest.constraints body = None ->
      Response.status (POST body now) = 500%Z)
  /\ (Response.status (POST body now) = 200%Z <->
      exists r, Response.json (POST body now) = Response.Plan r)
  /\ (Response.status (POST body now) = 400%Z ->
      Response.json (POST body now)
      = Response.Detail "Missing account_name or inventory")
  /\ (Response.status (POST body now) = 200%Z
      \/ Response.status (POST body now) = 400%Z
      \/ Response.status (POST body now) = 500%Z).
Proof.
  unfold POST. destruct (validated body) as [[name inventory]|] eqn:Hv.
  - rewrite (handle_valid body now name inventory Hv).
    destruct (PlanCreateRequest.constraints body) as [c|].
    + rewrite tactics_Some.
      cbn [mbind Except_bind mret Except_ret Response.status Response.json].
      repeat apply conj; try split; route_case.
    + rewrite tactics_None.
      cbn [mbind Except_bind mret Except_ret Response.status Response.json].
      repeat apply conj; try split; route_case.
  - unfold handle. rewrite Hv.
    cbn [mret Except_ret Response.status Response.json].
    repeat apply conj; try split; route_case.
Qed.

(** X9.  A plan response echoes the request: its account name is the
    account name of the request, its constraints are the constraints of the
    request, and its summary opens with the title line that carries the
    account name. *)
Theorem POST_echo (body : PlanCreateRequest.t) (now : N)
    (r : PlanResponse.t) :
  Response.json (POST body now) = Response.Plan r ->
  PlanCreateRequest.account_name body = Some (PlanResponse.account_name r)
  /\ PlanResponse.constraints r = PlanCreateRequest.constraints body
  /\ exists rest,
       PlanResponse.summary r
       = "# Technical Monetization Plan — " +:+ PlanResponse.account_name r
         +:+ LF +:+ rest.
Proof.
  intros H. destruct (POST_plan body now r H)
    as (name & inventory & fired & Hv & Ht & ->).
  apply validated_Some in Hv as (Hn & _).
  cbn [PlanResponse.account_name PlanResponse.constraints
       PlanResponse.summary].
  split; [exact Hn|]. split; [reflexivity|].
  eexists. unfold join, snapshotLines. cbn [app String.concat].
  rewrite append_assoc. reflexivity.
Qed.

Lemma POST_echo_witness :
  Response.json (POST demo_request 1730548800000)
  = Response.Plan (plan_of (POST demo_request 1730548800000))
  /\ PlanCreateRequest.account_name demo_request
     = Some (PlanResponse.account_name
               (plan_of (POST demo_request 1730548800000)))
  /\ PlanResponse.constraints (plan_of (POST demo_request 1730548800000))
     = PlanCreateRequest.constraints demo_request
  /\ exists rest,
       PlanResponse.summary (plan_of (POST demo_request 1730548800000))
       = "# Technical Monetization Plan — "
         +:+ PlanResponse.account_name
               (plan_of (POST demo_request 1730548800000))
         +:+ LF +:+ rest.
Proof.
  assert (H : Response.json (POST demo_request 1730548800000)
              = Response.Plan (plan_of (POST demo_request 1730548800000))).
  { vm_compute. reflexivity. }
  split; [exact H|].
  exact (POST_echo demo_request 1730548800000 _ H).
Defined.

(** ** What the aggregate depends on *)

Lemma formatEntry_ext (p q : gmap string Totals.t) (f : string) :
  default Totals.zero (p !! f) = default Totals.zero (q !! f) ->
  formatEntry p f = formatEntry q f.
Proof. intros H. unfold formatEntry. now rewrite H. Qed.

Lemma unitsOf_pool (f : string) (inventory : list InventoryProfile.t) :
  f ∈ formats ->
  unitsOf f inventory
  = filter (fun m => AdUnitMetrics.format m = f) (pool inventory).
Proof.
  intros Hf. unfold unitsOf, pool.
  induction (units inventory) as [|m us IH]; [reflexivity|].
  rewrite !filter_cons.
  destruct (decide (AdUnitMetrics.format m = f)) as [E|E].
  - rewrite decide_True by now rewrite E.
    rewrite filter_cons, decide_True by exact E. now rewrite IH.
  - destruct (decide (AdUnitMetrics.format m ∈ formats)); [|exact IH].
    rewrite filter_cons, decide_False by exact E. exact IH.
Qed.

(** X10.  The aggregate looks at nothing but the units of the four formats,
    in their order: two inventories with the same pool have the same
    aggregate.  How the units are grouped into profiles, what else the
    profiles carry, and units whose format is none of the four make no
    difference. *)
Theorem aggregate_of_pool (inventory1 inventory2 : list InventoryProfile.t) :
  pool inventory1 = pool inventory2 ->
  aggregate inventory1 = aggregate inventory2.
Proof.
  intros Hp.
  assert (Hb : forall f, f ∈ formats ->
                 formatEntry (accumulateAll inventory1) f
                 = formatEntry (accumulateAll inventory2) f).
  { intros f Hf. apply formatEntry_ext.
    change (bucket inventory1 f = bucket inventory2 f).
    now rewrite !bucket_unitsOf, !unitsOf_pool, Hp by exact Hf. }
  assert (Hm : map (formatEntry (accumulateAll inventory1)) formats
               = map (formatEntry (accumulateAll inventory2)) formats).
  { apply map_ext_in. intros f Hf. apply Hb. now apply list_elem_of_In. }
  unfold aggregate. cbv zeta. now rewrite Hm.
Qed.

Lemma aggregate_of_pool_witness :
  pool scenario_regrouped = pool scenario
  /\ aggregate scenario_regrouped = aggregate scenario.
Proof.
  split.
  - vm_compute. reflexivity.
  - apply (aggregate_of_pool scenario_regrouped scenario).
    vm_compute. reflexivity.
Defined.

Lemma guarded_round_comp (s s' i i' : Q) :
  s == s' -> i == i' ->
  (if Qltb 0 i then Math_round (s / i) else 0%Z)
  = (if Qltb 0 i' then Math_round (s' / i') else 0%Z).
Proof.
  intros Hs Hi. rewrite (Qltb_comp 0 0 (Qeq_refl 0) i i' Hi).
  destruct (Qltb 0 i'); [|reflexivity]. now rewrite Hs, Hi.
Qed.

(** ** Bounds on the aggregate *)

Lemma sumQ_le {A} (g h : A -> Q) (l : list A) :
  (forall x, x ∈ l -> g x <= h x) -> sumQ g l <= sumQ h l.
Proof.
  induction l as [|x l IH]; intros H.
  - apply Qle_refl.
  - rewrite !sumQ_cons.
    assert (g x <= h x) by (apply H; left).
    assert (sumQ g l <= sumQ h l) by (apply IH; intros y Hy; apply H; now right).
    lra.
Qed.

(** A guarded quotient of a part by the whole lies between 0 and 1. *)
Lemma guarded_ratio_unit (s i : Q) :
  0 <= s -> s <= i -> 0 <= (if Qltb 0 i then s / i else 0) <= 1.
Proof.
  intros Hs Hi. destruct (Qltb 0 i) eqn:E; [|lra].
  apply Qltb_lt in E. split.
  - apply Qle_shift_div_l; [exact E|]. lra.
  - apply Qle_shift_div_r; [exact E|]. lra.
Qed.

Lemma guarded_ratio_nonneg (s i : Q) :
  0 <= s -> 0 <= (if Qltb 0 i then s / i else 0).
Proof.
  intros Hs. destruct (Qltb 0 i) eqn:E; [|lra].
  apply Qltb_lt in E. apply Qle_shift_div_l; [exact E|]. lra.
Qed.

Lemma weighted_fill_bounds (us : list AdUnitMetrics.t) :
  (forall m, m ∈ us ->
     0 <= AdUnitMetrics.impressions m
     /\ 0 <= AdUnitMetrics.fill_rate m <= 1) ->
  0 <= sumWeightedFill us <= sumImpressions us.
Proof.
  intros H. unfold sumWeightedFill, sumImpressions. split.
  - apply sumQ_nonneg. intros m Hm. destruct (H m Hm) as (? & ? & ?).
    now apply Qmult_le_0_compat.
  - apply sumQ_le. intros m Hm. destruct (H m Hm) as (? & ? & ?). nra.
Qed.

Lemma benchmarks_positive (f : string) (b : Benchmark.t) :
  benchmarks !! f = Some b -> 0 < Benchmark.avg_ecpm b.
Proof.
  intros H. apply elem_of_list_to_map_2 in H.
  rewrite !elem_of_cons, elem_of_nil in H.
  destruct H as [E|[E|[E|[E|[]]]]]; injection E as _ ->; reflexivity.
Qed.

(** The entry of a format in terms of the pool of its units. *)
Lemma entry_pooled (inventory : list InventoryProfile.t) (f : string) :
  FormatAggregate.avg_ecpm (snd (formatEntry (accumulateAll inventory) f))
  == pooled_avg_ecpm (unitsOf f inventory)
  /\ FormatAggregate.fill_rate (snd (formatEntry (accumulateAll inventory) f))
     == pooled_fill_rate (unitsOf f inventory)
  /\ FormatAggregate.latency_ms (snd (formatEntry (accumulateAll inventory) f))
     = pooled_latency_ms (unitsOf f inventory).
Proof.
  rewrite formatEntry_bucket. cbv zeta.
  cbn [FormatAggregate.avg_ecpm FormatAggregate.fill_rate
       FormatAggregate.latency_ms].
  destruct (bucket_sums inventory f) as (Hi & Hr & Hl & Hf).
  unfold pooled_avg_ecpm, pooled_fill_rate, pooled_latency_ms.
  repeat apply conj.
  - apply guarded_ratio_comp; [now rewrite Hr|exact Hi].
  - now apply guarded_ratio_comp.
  - now apply guarded_round_comp.
Qed.

(** X12.  When no unit has a negative impression count, a fill rate outside
    [0, 1] or a negative revenue, the aggregate stays in range: every format
    entry and the global aggregate have a fill rate between 0 and 1 and an
    average eCPM that is not negative, and no eCPM gap is below -1. *)
Theorem aggregate_in_range (inventory : list InventoryProfile.t) :
  (forall m, m ∈ units inventory ->
     0 <= AdUnitMetrics.impressions m
     /\ 0 <= AdUnitMetrics.fill_rate m <= 1
     /\ 0 <= AdUnitMetrics.revenue m) ->
  (forall f e,
     prop (Aggregate.byFormat (aggregate inventory)) f = Some e ->
     0 <= FormatAggregate.fill_rate e <= 1
     /\ 0 <= FormatAggregate.avg_ecpm e
     /\ - (1) <= FormatAggregate.avg_ecpm_gap e)
  /\ 0 <= GlobalAggregate.fill_rate (Aggregate.global (aggregate inventory))
     <= 1
  /\ 0 <= GlobalAggregate.avg_ecpm (Aggregate.global (aggregate inventory)).
Proof.
  intros H.
  assert (Hfill : forall us, (forall m, m ∈ us -> m ∈ units inventory) ->
                    0 <= pooled_fill_rate us <= 1).
  { intros us Hus. unfold pooled_fill_rate.
    assert (Hb : 0 <= sumWeightedFill us <= sumImpressions us).
    { apply weighted_fill_bounds. intros m Hm.
      destruct (H m (Hus m Hm)) as (? & ? & _). tauto. }
    now apply guarded_ratio_unit. }
  assert (Hecpm : forall us, (forall m, m ∈ us -> m ∈ units inventory) ->
                    0 <= pooled_avg_ecpm us).
  { intros us Hus. unfold pooled_avg_ecpm. apply guarded_ratio_nonneg.
    assert (0 <= sumRevenue us).
    { apply sumQ_nonneg. intros m Hm. now destruct (H m (Hus m Hm)) as (_ & _ & ?). }
    lra. }
  assert (Hsub : forall (P : AdUnitMetrics.t -> Prop)
                   `{!forall m, Decision (P m)} m,
                   m ∈ filter P (units inventory) -> m ∈ units inventory).
  { intros P ? m Hm. now apply list_elem_of_filter in Hm. }
  split.
  - intros f e He.
    assert (Hf : f ∈ formats).
    { destruct (decide (f ∈ formats)) as [Hf|Hf]; [exact Hf|exfalso].
      unfold aggregate in He. cbn [Aggregate.byFormat] in He.
      revert He. generalize (accumulateAll inventory). intros p.
      induction formats as [|g fs IH]; cbn [map prop]; [discriminate|].
      unfold formatEntry at 1. destruct (String.eqb_spec g f) as [->|Hne].
      - exfalso. apply Hf. left.
      - apply IH. intros Hin. apply Hf. now right. }
    rewrite (byFormat_lookup inventory f Hf) in He.
    assert (Ee : e = snd (formatEntry (accumulateAll inventory) f))
      by congruence.
    subst e. clear He.
    destruct (entry_pooled inventory f) as (He & Hfr & _).
    destruct (benchmarks_lookup f Hf) as (b & Hb & Hb0).
    pose proof (benchmarks_positive f b Hb) as Hpos.
    assert (Hgap : FormatAggregate.avg_ecpm_gap
                     (snd (formatEntry (accumulateAll inventory) f))
                   == (FormatAggregate.avg_ecpm
                         (snd (formatEntry (accumulateAll inventory) f))
                       - Benchmark.avg_ecpm b) / Benchmark.avg_ecpm b).
    { rewrite formatEntry_bucket. cbv zeta.
      cbn [FormatAggregate.avg_ecpm_gap FormatAggregate.avg_ecpm].
      rewrite Hb. now rewrite (num_or_of_nonzero _ 1 Hb0). }
    rewrite Hgap, He, Hfr.
    pose proof (Hfill (unitsOf f inventory) (Hsub _ _)) as ?.
    pose proof (Hecpm (unitsOf f inventory) (Hsub _ _)) as ?.
    split; [assumption|]. split; [assumption|].
    apply Qle_shift_div_l; [exact Hpos|]. lra.
  - assert (Hnn : forall m, m ∈ units inventory ->
                    0 <= AdUnitMetrics.impressions m).
    { intros m Hm. now destruct (H m Hm). }
    rewrite (global_fill_rate_pooled inventory Hnn).
    rewrite (global_avg_ecpm_pooled inventory).
    split; [apply Hfill, Hsub|apply Hecpm, Hsub].
Qed.

Lemma aggregate_in_range_witness :
  (forall f e,
     prop (Aggregate.byFormat (aggregate demo_inventory)) f = Some e ->
     0 <= FormatAggregate.fill_rate e <= 1
     /\ 0 <= FormatAggregate.avg_ecpm e
     /\ - (1) <= FormatAggregate.avg_ecpm_gap e)
  /\ 0 <= GlobalAggregate.fill_rate
            (Aggregate.global (aggregate demo_inventory)) <= 1
  /\ 0 <= GlobalAggregate.avg_ecpm
            (Aggregate.global (aggregate demo_inventory)).
Proof.
  apply (aggregate_in_range demo_inventory).
  intros m Hm. unfold units, demo_inventory, profileOf in Hm. simpl in Hm.
  rewrite !elem_of_cons, elem_of_nil in Hm.
  destruct Hm as [->|[->|[->|[]]]]; vm_compute; intuition discriminate.
Defined.

(** ** How far the global latency is from the pooled one *)

Lemma Math_round_bounds (x : Q) :
  x - (1 # 2) < inject_Z (Math_round x) /\ inject_Z (Math_round x) <= x + (1 # 2).
Proof.
  unfold Math_round.
  pose proof (Qfloor_le (x + (1 # 2))) as Hle.
  pose proof (Qlt_floor (x + (1 # 2))) as Hlt.
  rewrite inject_Z_plus in Hlt. change (inject_Z 1) with 1 in Hlt.
  split; lra.
Qed.

(** Two numbers at most a half apart round to integers at most one apart. *)
Lemma Math_round_close (x y : Q) :
  x <= y + (1 # 2) -> y <= x + (1 # 2) ->
  (Z.abs (Math_round x - Math_round y) <= 1)%Z.
Proof.
  intros Hxy Hyx.
  destruct (Math_round_bounds x) as (Hx1 & Hx2).
  destruct (Math_round_bounds y) as (Hy1 & Hy2).
  assert (H1 : (Math_round x < Math_round y + 2)%Z).
  { rewrite Zlt_Qlt, inject_Z_plus. change (inject_Z 2) with 2. lra. }
  assert (H2 : (Math_round y < Math_round x + 2)%Z).
  { rewrite Zlt_Qlt, inject_Z_plus. change (inject_Z 2) with 2. lra. }
  lia.
Qed.

(** Re-weighting the rounded latency of a set of units by their impressions
    misses their weighted latency sum by at most half their impressions. *)
Lemma pooled_latency_reweighted (us : list AdUnitMetrics.t) :
  (forall m, m ∈ us -> 0 <= AdUnitMetrics.impressions m) ->
  sumWeightedLatency us - sumImpressions us * (1 # 2)
  <= inject_Z (pooled_latency_ms us) * sumImpressions us
  /\ inject_Z (pooled_latency_ms us) * sumImpressions us
     <= sumWeightedLatency us + sumImpressions us * (1 # 2).
Proof.
  intros Hnn. unfold pooled_latency_ms.
  destruct (Qltb 0 (sumImpressions us)) eqn:E.
  - apply Qltb_lt in E.
    destruct (Math_round_bounds (sumWeightedLatency us / sumImpressions us))
      as (H1 & H2).
    set (r := inject_Z
                (Math_round (sumWeightedLatency us / sumImpressions us))) in *.
    assert (Hq : sumWeightedLatency us / sumImpressions us
                 * sumImpressions us == sumWeightedLatency us)
      by (field; lra).
    set (q := sumWeightedLatency us / sumImpressions us) in *.
    split; nra.
  - apply Qltb_nlt in E.
    assert (Hz : sumWeightedLatency us == 0)
      by (now apply sumQ_weighted_zero).
    assert (H0 : 0 <= sumImpressions us) by (now apply sumQ_nonneg).
    change (inject_Z 0) with 0. split; lra.
Qed.

Section LatencyDrift.
Variable inventory : list InventoryProfile.t.
Hypothesis impressions_nonneg :
  forall m, m ∈ units inventory -> 0 <= AdUnitMetrics.impressions m.

Lemma entry_reweighted_latency (f : string) :
  sumWeightedLatency (unitsOf f inventory)
  - sumImpressions (unitsOf f inventory) * (1 # 2)
  <= inject_Z
       (FormatAggregate.latency_ms
          (snd (formatEntry (accumulateAll inventory) f)))
     * FormatAggregate.imps (snd (formatEntry (accumulateAll inventory) f))
  /\ inject_Z
       (FormatAggregate.latency_ms
          (snd (formatEntry (accumulateAll inventory) f)))
     * FormatAggregate.imps (snd (formatEntry (accumulateAll inventory) f))
     <= sumWeightedLatency (unitsOf f inventory)
        + sumImpressions (unitsOf f inventory) * (1 # 2).
Proof.
  destruct (entry_pooled inventory f) as (_ & _ & ->).
  rewrite (entry_imps inventory f).
  apply pooled_latency_reweighted.
  intros m Hm. apply impressions_nonneg.
  unfold unitsOf in Hm. now apply list_elem_of_filter in Hm.
Qed.

Lemma globalTotals_sumLatency_close :
  sumWeightedLatency (pool inventory)
  - sumImpressions (pool inventory) * (1 # 2)
  <= Totals.sumLatency (globalTotals inventory)
  /\ Totals.sumLatency (globalTotals inventory)
     <= sumWeightedLatency (pool inventory)
        + sumImpressions (pool inventory) * (1 # 2).
Proof.
  rewrite globalTotals_entries.
  cbn [addEntry Totals.sumLatency Totals.zero].
  destruct (entry_reweighted_latency "banner") as (B1 & B2).
  destruct (entry_reweighted_latency "interstitial") as (I1 & I2).
  destruct (entry_reweighted_latency "rewarded") as (R1 & R2).
  destruct (entry_reweighted_latency "native") as (N1 & N2).
  unfold sumWeightedLatency, sumImpressions in *.
  rewrite !pool_split. split; lra.
Qed.
End LatencyDrift.

(** X13.  When no unit has a negative impression count, the global latency
    the aggregate reports is within one millisecond of the pooled latency:
    rounding each format first moves the re-weighted sum by at most half the
    impressions. *)
Theorem global_latency_within_one (inventory : list InventoryProfile.t) :
  (forall m, m ∈ units inventory -> 0 <= AdUnitMetrics.impressions m) ->
  (Z.abs
     (GlobalAggregate.latency_ms (Aggregate.global (aggregate inventory))
      - pooled_latency_ms (pool inventory)) <= 1)%Z.
Proof.
  intros Hnn. rewrite aggregate_global. cbv zeta.
  cbn [GlobalAggregate.latency_ms]. unfold pooled_latency_ms.
  pose proof (globalTotals_imps inventory) as Hi.
  destruct (globalTotals_sumLatency_close inventory Hnn) as (H1 & H2).
  rewrite (Qltb_comp 0 0 (Qeq_refl 0) _ _ Hi).
  destruct (Qltb 0 (sumImpressions (pool inventory))) eqn:E; [|lia].
  apply Qltb_lt in E. rewrite Hi.
  set (T := sumImpressions (pool inventory)) in *.
  set (S := sumWeightedLatency (pool inventory)) in *.
  set (S' := Totals.sumLatency (globalTotals inventory)) in *.
  apply Math_round_close.
  - apply Qle_shift_div_r; [exact E|].
    assert ((S / T + (1 # 2)) * T == S + T * (1 # 2)) by (field; lra). lra.
  - apply Qle_shift_div_r; [exact E|].
    assert ((S' / T + (1 # 2)) * T == S' + T * (1 # 2)) by (field; lra). lra.
Qed.

Lemma global_latency_within_one_witness :
  (Z.abs
     (GlobalAggregate.latency_ms
        (Aggregate.global (aggregate rounding_inventory))
      - pooled_latency_ms (pool rounding_inventory)) <= 1)%Z.
Proof.
  apply (global_latency_within_one rounding_inventory).
  intros m Hm. unfold units, rounding_inventory, profileOf in Hm. simpl in Hm.
  rewrite !elem_of_cons, elem_of_nil in Hm.
  destruct Hm as [->|[->|[->|[]]]]; vm_compute; discriminate.
Defined.

(** ** The form: adding and removing ad units *)

Lemma filter_index_from_past {A} (k start : nat) (l : list A) :
  (k < start)%nat ->
  filter_index_from (fun _ i => negb (i =? k)%nat) start l = l.
Proof.
  revert start. induction l as [|x l IH]; intros start Hk; [reflexivity|].
  cbn [filter_index_from].
  destruct (Nat.eqb_spec start k) as [E|_]; [lia|].
  cbn [negb]. f_equal. apply IH. lia.
Qed.

Lemma filter_index_from_delete {A} (k start : nat) (l : list A) :
  filter_index_from (fun _ i => negb (i =? start + k)%nat) start l
  = delete k l.
Proof.
  revert k start. induction l as [|x l IH]; intros k start; [reflexivity|].
  cbn [filter_index_from]. destruct k as [|k].
  - rewrite Nat.add_0_r, Nat.eqb_refl. cbn [negb delete list_delete].
    apply filter_index_from_past. lia.
  - destruct (Nat.eqb_spec start (start + S k)) as [E|_]; [lia|].
    cbn [negb delete list_delete]. f_equal.
    replace (start + S k)%nat with (S start + k)%nat by lia. apply IH.
Qed.

(** Filtering on [i !== unitIdx] removes the element at [unitIdx], if
    there is one. *)
Lemma Array_filter_delete {A} (k : nat) (l : list A) :
  Array_filter (fun _ i => negb (i =? k)%nat) l = delete k l.
Proof. apply (filter_index_from_delete k 0 l). Qed.

Lemma with_metrics_id (inv : InventoryProfile.t) :
  with_metrics inv (InventoryProfile.metrics inv) = inv.
Proof. now destruct inv. Qed.

Lemma with_metrics_twice (inv : InventoryProfile.t)
    (m m' : list AdUnitMetrics.t) :
  with_metrics (with_metrics inv m) m' = with_metrics inv m'.
Proof. reflexivity. Qed.

Lemma with_metrics_metrics (inv : InventoryProfile.t)
    (m : list AdUnitMetrics.t) :
  InventoryProfile.metrics (with_metrics inv m) = m.
Proof. reflexivity. Qed.

Lemma delete_ge {A} (l : list A) (k : nat) :
  (length l <= k)%nat -> delete k l = l.
Proof.
  revert k. induction l as [|x l IH]; intros k Hk; [now destruct k|].
  destruct k as [|k]; cbn [length] in Hk; [lia|].
  cbn [delete list_delete]. f_equal. apply IH. lia.
Qed.

(** X16.  [removeAdUnit] removes exactly the unit at the given position of
    the given profile and touches nothing else; a position past the last
    unit leaves the request as it is; a profile index past the last profile
    throws before any state is set. *)
Theorem removeAdUnit_spec (request : FormRequest.t) (invIdx unitIdx : nat) :
  (FormRequest.inventory request !! invIdx = None ->
   removeAdUnit request invIdx unitIdx
   = Throw
       (TypeError "Cannot read properties of undefined (reading 'metrics')"))
  /\ (forall inv,
        FormRequest.inventory request !! invIdx = Some inv ->
        removeAdUnit request invIdx unitIdx
        = Return
            (FormRequest.mk (FormRequest.account_name request)
               (<[invIdx :=
                    with_metrics inv
                      (delete unitIdx (InventoryProfile.metrics inv))]>
                  (FormRequest.inventory request))
               (FormRequest.constraints request))
        /\ ((length (InventoryProfile.metrics inv) <= unitIdx)%nat ->
            removeAdUnit request invIdx unitIdx = Return request)).
Proof.
  unfold removeAdUnit. split.
  - intros ->. reflexivity.
  - intros inv Hl. rewrite Hl. cbn [get mbind Except_bind mret Except_ret].
    rewrite Array_filter_delete. split; [reflexivity|].
    intros Hk. rewrite (delete_ge _ _ Hk), with_metrics_id.
    destruct request as [name inventory c].
    cbn [FormRequest.account_name FormRequest.inventory
         FormRequest.constraints] in *.
    now rewrite (list_insert_id _ _ _ Hl).
Qed.

Lemma addAdUnit_Return (request : FormRequest.t) (uuid : string)
    (invIdx : nat) (next : FormRequest.t) :
  addAdUnit request uuid invIdx = Return next ->
  exists inv,
    FormRequest.inventory request !! invIdx = Some inv
    /\ next
       = FormRequest.mk (FormRequest.account_name request)
           (<[invIdx :=
                with_metrics inv
                  (InventoryProfile.metrics inv ++ [newUnit uuid])]>
              (FormRequest.inventory request))
           (FormRequest.constraints request).
Proof.
  unfold addAdUnit.
  destruct (FormRequest.inventory request !! invIdx) as [inv|];
    cbn [get mbind Except_bind mret Except_ret]; [|discriminate].
  intros E. injection E as <-. now exists inv.
Qed.

Lemma removeAdUnit_Return (request : FormRequest.t) (invIdx unitIdx : nat)
    (next : FormRequest.t) :
  removeAdUnit request invIdx unitIdx = Return next ->
  exists inv,
    FormRequest.inventory request !! invIdx = Some inv
    /\ next
       = FormRequest.mk (FormRequest.account_name request)
           (<[invIdx :=
                with_metrics inv
                  (delete unitIdx (InventoryProfile.metrics inv))]>
              (FormRequest.inventory request))
           (FormRequest.constraints request).
Proof.
  unfold removeAdUnit.
  destruct (FormRequest.inventory request !! invIdx) as [inv|];
    cbn [get mbind Except_bind mret Except_ret]; [|discriminate].
  rewrite Array_filter_delete. intros E. injection E as <-. now exists inv.
Qed.

(** X17.  Removing the unit that [addAdUnit] has just added gives the
    request back: the new unit is the last one of its profile, and nothing
    else was changed. *)
Theorem addAdUnit_removeAdUnit (request : FormRequest.t) (uuid : string)
    (invIdx : nat) (next : FormRequest.t) :
  addAdUnit request uuid invIdx = Return next ->
  exists inv,
    FormRequest.inventory request !! invIdx = Some inv
    /\ removeAdUnit next invIdx (length (InventoryProfile.metrics inv))
       = Return request.
Proof.
  intros H. destruct (addAdUnit_Return _ _ _ _ H) as (inv & Hl & ->).
  exists inv. split; [exact Hl|].
  unfold removeAdUnit.
  cbn [FormRequest.inventory FormRequest.account_name
       FormRequest.constraints].
  rewrite list_lookup_insert_eq by (now apply lookup_lt_Some in Hl).
  cbn [get mbind Except_bind mret Except_ret].
  rewrite Array_filter_delete, with_metrics_twice, with_metrics_metrics.
  rewrite delete_middle, app_nil_r, list_insert_insert_eq.
  rewrite with_metrics_id, (list_insert_id _ _ _ Hl).
  now destruct request.
Qed.

Lemma addAdUnit_removeAdUnit_witness :
  exists next,
    addAdUnit initRequest "0b1f" 0 = Return next
    /\ exists inv,
         FormRequest.inventory initRequest !! 0%nat = Some inv
         /\ removeAdUnit next 0 (length (InventoryProfile.metrics inv))
            = Return initRequest.
Proof.
  eexists. split; [reflexivity|].
  apply (addAdUnit_removeAdUnit initRequest "0b1f" 0). reflexivity.
Defined.

(** The units of an inventory around the profile at one index. *)
Lemma units_insert (inventory : list InventoryProfile.t) (i : nat)
    (inv inv' : InventoryProfile.t) :
  inventory !! i = Some inv ->
  exists before after,
    units inventory = before ++ InventoryProfile.metrics inv ++ after
    /\ units (<[i := inv']> inventory)
       = before ++ InventoryProfile.metrics inv' ++ after.
Proof.
  revert i. induction inventory as [|p inventory IH]; intros i Hl;
    [discriminate|].
  destruct i as [|i].
  - injection Hl as ->. exists [], (units inventory). split; reflexivity.
  - destruct (IH i Hl) as (before & after & E1 & E2).
    exists (InventoryProfile.metrics p ++ before), after.
    change (<[S i := inv']> (p :: inventory))
      with (p :: <[i := inv']> inventory).
    unfold units in *. cbn [map concat].
    rewrite E1, E2, <- !app_assoc. split; reflexivity.
Qed.

Lemma byFormat_lookup_None (inventory : list InventoryProfile.t) (f : string) :
  f ∉ formats -> prop (Aggregate.byFormat (aggregate inventory)) f = None.
Proof.
  unfold aggregate. cbn [Aggregate.byFormat].
  generalize (accumulateAll inventory). intros p.
  induction formats as [|g fs IH]; intros Hf; cbn [map prop]; [reflexivity|].
  unfold formatEntry at 1. destruct (String.eqb_spec g f) as [->|Hne].
  - exfalso. apply Hf. left.
  - apply IH. intros Hin. apply Hf. now right.
Qed.

(** X18.  Adding an ad unit from the form moves the impression counts by
    exactly the new unit: the interstitial entry gains 100000 impressions,
    the entries of the other formats stay as they are, and the total
    impression count the segmentation rule reads grows by 100000. *)
Theorem addAdUnit_aggregate (request : FormRequest.t) (uuid : string)
    (invIdx : nat) (next : FormRequest.t) :
  addAdUnit request uuid invIdx = Return next ->
  (forall f, f <> "interstitial" ->
     prop (Aggregate.byFormat (aggregate (FormRequest.inventory next))) f
     = prop (Aggregate.byFormat (aggregate (FormRequest.inventory request)))
         f)
  /\ (exists e e',
        prop (Aggregate.byFormat (aggregate (FormRequest.inventory request)))
          "interstitial" = Some e
        /\ prop (Aggregate.byFormat (aggregate (FormRequest.inventory next)))
             "interstitial" = Some e'
        /\ FormatAggregate.imps e' == FormatAggregate.imps e + 100000)
  /\ totalImps (aggregate (FormRequest.inventory next))
     == totalImps (aggregate (FormRequest.inventory request)) + 100000.
Proof.
  intros H. destruct (addAdUnit_Return _ _ _ _ H) as (inv & Hl & ->).
  cbn [FormRequest.inventory].
  destruct (units_insert (FormRequest.inventory request) invIdx inv
              (with_metrics inv
                 (InventoryProfile.metrics inv ++ [newUnit uuid])) Hl)
    as (before & after & E1 & E2).
  rewrite with_metrics_metrics in E2.
  set (inventory := FormRequest.inventory request) in *.
  set (inventory' := <[invIdx := _]> inventory) in *.
  assert (Hother : forall f, f <> "interstitial" ->
                     unitsOf f inventory' = unitsOf f inventory).
  { intros f Hf. unfold unitsOf. rewrite E1, E2, !filter_app.
    rewrite filter_cons, decide_False by (cbn; congruence).
    now rewrite filter_nil, app_nil_r. }
  assert (Hsum : forall g,
            sumQ g (unitsOf "interstitial" inventory')
            == sumQ g (unitsOf "interstitial" inventory) + g (newUnit uuid)).
  { intros g. unfold unitsOf. rewrite E1, E2, !filter_app.
    rewrite filter_cons, decide_True by reflexivity.
    rewrite filter_nil, !sumQ_app, sumQ_cons, sumQ_nil. ring. }
  assert (Hpool : sumQ AdUnitMetrics.impressions (pool inventory')
                  == sumQ AdUnitMetrics.impressions (pool inventory)
                     + 100000).
  { rewrite !pool_split, Hsum.
    rewrite !Hother by discriminate.
    change (AdUnitMetrics.impressions (newUnit uuid)) with 100000. ring. }
  split; [|split].
  - intros f Hf. destruct (decide (f ∈ formats)) as [Hin|Hout].
    + rewrite !byFormat_lookup by exact Hin. f_equal. f_equal.
      apply formatEntry_ext.
      change (bucket inventory' f = bucket inventory f).
      now rewrite !bucket_unitsOf, Hother.
    + now rewrite !byFormat_lookup_None.
  - eexists. eexists.
    split; [apply byFormat_lookup, (bool_decide_unpack _); exact I|].
    split; [apply byFormat_lookup, (bool_decide_unpack _); exact I|].
    rewrite !entry_imps. unfold sumImpressions. rewrite !Hsum. reflexivity.
  - rewrite !totalImps_pool. exact Hpool.
Qed.

Lemma addAdUnit_aggregate_witness :
  exists next,
    addAdUnit initRequest "0b1f" 0 = Return next
    /\ (forall f, f <> "interstitial" ->
          prop (Aggregate.byFormat (aggregate (FormRequest.inventory next))) f
          = prop
              (Aggregate.byFormat
                 (aggregate (FormRequest.inventory initRequest))) f)
    /\ (exists e e',
          prop
            (Aggregate.byFormat
               (aggregate (FormRequest.inventory initRequest)))
            "interstitial" = Some e
          /\ prop
               (Aggregate.byFormat (aggregate (FormRequest.inventory next)))
               "interstitial" = Some e'
          /\ FormatAggregate.imps e' == FormatAggregate.imps e + 100000)
    /\ totalImps (aggregate (FormRequest.inventory next))
       == totalImps (aggregate (FormRequest.inventory initRequest)) + 100000.
Proof.
  eexists. split; [reflexivity|].
  apply (addAdUnit_aggregate initRequest "0b1f" 0). reflexivity.
Defined.

(** ** The form and the route together *)

Lemma toBody_validated (request : FormRequest.t) :
  validated (toBody request)
  = if String.eqb (FormRequest.account_name request) ""
       || (length (FormRequest.inventory request) =? 0)%nat
    then None
    else Some (FormRequest.account_name request, FormRequest.inventory request).
Proof. reflexivity. Qed.

(** The response of the route to a request of the form. *)
Lemma POST_toBody (request : FormRequest.t) (now : N) :
  (FormRequest.account_name request = ""
   \/ FormRequest.inventory request = [] ->
   POST (toBody request) now
   = Response.mk (Response.Detail "Missing account_name or inventory") 400)
  /\ (FormRequest.account_name request <> "" ->
      FormRequest.inventory request <> [] ->
      exists summary sections,
        POST (toBody request) now
        = Response.mk
            (Response.Plan
               (PlanResponse.mk (FormRequest.account_name request) summary
                  sections (Some (FormRequest.constraints request))))
            200).
Proof.
  split.
  - intros H. unfold POST, handle. rewrite toBody_validated.
    destruct H as [-> | ->]; [reflexivity|].
    now rewrite orb_true_r.
  - intros Hn Hi. unfold POST.
    rewrite (handle_valid (toBody request) now
               (FormRequest.account_name request)
               (FormRequest.inventory request)).
    + cbn [toBody PlanCreateRequest.constraints]. rewrite tactics_Some.
      cbn [mbind Except_bind mret Except_ret]. eexists. eexists. reflexivity.
    + rewrite toBody_validated.
      apply String.eqb_neq in Hn. rewrite Hn.
      destruct (FormRequest.inventory request); [contradiction|reflexivity].
Qed.

(** X19.  Whatever the form holds, a run of [generatePlan] that reaches the
    route ends with the loading flag down and in one of two states: the plan
    of the route, echoing the account name and the constraints, and no
    error, when the account name and the inventory are not empty; or no plan
    and the error text of input validation when one of them is empty.  The
    form always sends a constraints object, so the message of a server error
    never shows. *)
Theorem generatePlan_from_form (request : FormRequest.t) (now : N) :
  UiState.loading (generatePlan (Return (POST (toBody request) now))) = false
  /\ ((FormRequest.account_name request <> ""
       /\ FormRequest.inventory request <> []
       /\ UiState.error (generatePlan (Return (POST (toBody request) now)))
          = None
       /\ exists r,
            UiState.plan (generatePlan (Return (POST (toBody request) now)))
            = Some (Response.Plan r)
            /\ PlanResponse.account_name r = FormRequest.account_name request
            /\ PlanResponse.constraints r
               = Some (FormRequest.constraints request))
      \/ ((FormRequest.account_name request = ""
           \/ FormRequest.inventory request = [])
          /\ UiState.plan (generatePlan (Return (POST (toBody request) now)))
             = None
          /\ UiState.error (generatePlan (Return (POST (toBody request) now)))
             = Some "Missing account_name or inventory")).
Proof.
  destruct (POST_toBody request now) as (Hbad & Hgood).
  destruct (String.eqb_spec (FormRequest.account_name request) "") as [En|En].
  - rewrite (Hbad (or_introl En)). split; [reflexivity|]. right. tauto.
  - destruct (FormRequest.inventory request) as [|p l] eqn:Ei.
    + rewrite (Hbad (or_intror eq_refl)). split; [reflexivity|]. right. tauto.
    + destruct (Hgood En) as (summary & sections & ->); [discriminate|].
      split; [reflexivity|]. left.
      split; [exact En|]. split; [discriminate|]. split; [reflexivity|].
      eexists. split; [reflexivity|]. split; reflexivity.
Qed.

(** X20.  Adding or removing an ad unit keeps the account name, the
    constraints and the number of profiles, so it never changes what the
    route answers to the request: the status stays what it was, 400 for an
    empty account name and 200 otherwise. *)
Theorem form_edits_keep_status (request next : FormRequest.t) :
  (exists uuid invIdx, addAdUnit request uuid invIdx = Return next)
  \/ (exists invIdx unitIdx, removeAdUnit request invIdx unitIdx = Return next)
  ->
  FormRequest.account_name next = FormRequest.account_name request
  /\ FormRequest.constraints next = FormRequest.constraints request
  /\ length (FormRequest.inventory next)
     = length (FormRequest.inventory request)
  /\ forall now,
       Response.status (POST (toBody next) now)
       = Response.status (POST (toBody request) now)
       /\ (Response.status (POST (toBody request) now)
           = if String.eqb (FormRequest.account_name request) ""
             then 400%Z else 200%Z).
Proof.
  intros H.
  assert (Hnext : exists i inv inv',
            FormRequest.inventory request !! i = Some inv
            /\ next
               = FormRequest.mk (FormRequest.account_name request)
                   (<[i := inv']> (FormRequest.inventory request))
                   (FormRequest.constraints request)).
  { destruct H as [(uuid & i & H)|(i & k & H)].
    - destruct (addAdUnit_Return _ _ _ _ H) as (inv & Hl & ->).
      now exists i, inv, (with_metrics inv
                            (InventoryProfile.metrics inv ++ [newUnit uuid])).
    - destruct (FormRequest.inventory request !! i) as [inv|] eqn:Hl.
      + destruct (removeAdUnit_Return request i k next H)
          as (inv0 & Hl0 & ->).
        now exists i, inv, (with_metrics inv0
                              (delete k (InventoryProfile.metrics inv0))).
      + unfold removeAdUnit in H. rewrite Hl in H. discriminate H. }
  destruct Hnext as (i & inv & inv' & Hl & ->).
  cbn [FormRequest.account_name FormRequest.constraints
       FormRequest.inventory].
  split; [reflexivity|]. split; [reflexivity|].
  split; [apply length_insert|].
  assert (Hne : FormRequest.inventory request <> []).
  { intros E. rewrite E in Hl. discriminate Hl. }
  assert (Hne' : <[i := inv']> (FormRequest.inventory request) <> []).
  { intros E. apply (f_equal length) in E. rewrite length_insert in E.
    destruct (FormRequest.inventory request); [contradiction|discriminate]. }
  intros now.
  destruct (String.eqb_spec (FormRequest.account_name request) "") as [En|En].
  - destruct (POST_toBody request now) as (Hbad & _).
    destruct (POST_toBody
                (FormRequest.mk (FormRequest.account_name request)
                   (<[i := inv']> (FormRequest.inventory request))
                   (FormRequest.constraints request)) now) as (Hbad' & _).
    rewrite (Hbad (or_introl En)), (Hbad' (or_introl En)).
    split; reflexivity.
  - destruct (POST_toBody request now) as (_ & Hgood).
    destruct (POST_toBody
                (FormRequest.mk (FormRequest.account_name request)
                   (<[i := inv']> (FormRequest.inventory request))
                   (FormRequest.constraints request)) now) as (_ & Hgood').
    destruct (Hgood En Hne) as (? & ? & ->).
    destruct (Hgood' En Hne') as (? & ? & ->).
    split; reflexivity.
Qed.

Lemma form_edits_keep_status_witness :
  exists next,
    addAdUnit initRequest "0b1f" 0 = Return next
    /\ FormRequest.account_name next = FormRequest.account_name initRequest
    /\ FormRequest.constraints next = FormRequest.constraints initRequest
    /\ length (FormRequest.inventory next)
       = length (FormRequest.inventory initRequest)
    /\ forall now,
         Response.status (POST (toBody next) now)
         = Response.status (POST (toBody initRequest) now)
         /\ (Response.status (POST (toBody initRequest) now)
             = if String.eqb (FormRequest.account_name initRequest) ""
               then 400%Z else 200%Z).
Proof.
  eexists. split; [reflexivity|].
  apply (form_edits_keep_status initRequest).
  left. exists "0b1f", 0%nat. reflexivity.
Defined.

(** ** What the plan does not depend on *)

Lemma accumulate_read (p : gmap string Totals.t) (m m' : AdUnitMetrics.t) :
  read_of_unit m = read_of_unit m' -> accumulate p m = accumulate p m'.
Proof.
  unfold read_of_unit. intros E. injection E as Ef Efr El Ei Er.
  unfold accumulate, addUnit. now rewrite Ef, Efr, El, Ei, Er.
Qed.

Lemma fold_accumulate_read (us us' : list AdUnitMetrics.t)
    (p : gmap string Totals.t) :
  map read_of_unit us = map read_of_unit us' ->
  fold_left accumulate us p = fold_left accumulate us' p.
Proof.
  revert us' p. induction us as [|m us IH]; intros [|m' us'] p E;
    try discriminate E; [reflexivity|].
  cbn [map] in E.
  assert (Em : read_of_unit m = read_of_unit m') by congruence.
  assert (Eus : map read_of_unit us = map read_of_unit us') by congruence.
  cbn [fold_left]. rewrite (accumulate_read p m m' Em). now apply IH.
Qed.

Lemma accumulateAll_read (inventory inventory' : list InventoryProfile.t) :
  map read_of_profile inventory = map read_of_profile inventory' ->
  accumulateAll inventory = accumulateAll inventory'.
Proof.
  unfold accumulateAll. generalize (∅ : gmap string Totals.t).
  revert inventory'.
  induction inventory as [|inv rest IH]; intros [|inv' rest'] p E;
    try discriminate E; [reflexivity|].
  cbn [map] in E. unfold read_of_profile at 1 3 in E.
  assert (Em : map read_of_unit (InventoryProfile.metrics inv)
               = map read_of_unit (InventoryProfile.metrics inv'))
    by congruence.
  assert (Erest : map read_of_profile rest = map read_of_profile rest')
    by congruence.
  cbn [fold_left]. rewrite (fold_accumulate_read _ _ p Em). now apply IH.
Qed.

Lemma rewarded_count_read (us us' : list AdUnitMetrics.t) :
  map read_of_unit us = map read_of_unit us' ->
  length (filter (fun m => AdUnitMetrics.format m = "rewarded") us)
  = length (filter (fun m => AdUnitMetrics.format m = "rewarded") us').
Proof.
  revert us'. induction us as [|m us IH]; intros [|m' us'] E;
    try discriminate E; [reflexivity|].
  cbn [map] in E. unfold read_of_unit at 1 3 in E.
  assert (Ef : AdUnitMetrics.format m = AdUnitMetrics.format m')
    by congruence.
  assert (Eus : map read_of_unit us = map read_of_unit us') by congruence.
  rewrite !filter_cons, Ef.
  destruct (decide (AdUnitMetrics.format m' = "rewarded"));
    cbn [length]; now rewrite (IH us' Eus).
Qed.

Lemma inventory_flags_read (inventory inventory' : list InventoryProfile.t) :
  map read_of_profile inventory = map read_of_profile inventory' ->
  hasSingleRewardedUnit inventory = hasSingleRewardedUnit inventory'
  /\ hasPolicyFlags inventory = hasPolicyFlags inventory'.
Proof.
  revert inventory'.
  induction inventory as [|inv rest IH]; intros [|inv' rest'] E;
    try discriminate E; [split; reflexivity|].
  cbn [map] in E. unfold read_of_profile at 1 3 in E.
  assert (Em : map read_of_unit (InventoryProfile.metrics inv)
               = map read_of_unit (InventoryProfile.metrics inv'))
    by congruence.
  assert (Ep : InventoryProfile.policy_flags inv
               = InventoryProfile.policy_flags inv') by congruence.
  assert (Erest : map read_of_profile rest = map read_of_profile rest')
    by congruence.
  destruct (IH rest' Erest) as (H1 & H2).
  unfold hasSingleRewardedUnit, hasPolicyFlags in *. cbn [existsb].
  now rewrite H1, H2, (rewarded_count_read _ _ Em), Ep.
Qed.

Lemma tactics_read (inventory inventory' : list InventoryProfile.t)
    (c c' : option BusinessConstraints.t) (now : N) :
  map read_of_profile inventory = map read_of_profile inventory' ->
  option_map read_of_constraints c = option_map read_of_constraints c' ->
  aggregate inventory = aggregate inventory'
  /\ tactics inventory c (aggregate inventory) now
     = tactics inventory' c' (aggregate inventory') now.
Proof.
  intros Ei Ec.
  assert (Hagg : aggregate inventory = aggregate inventory').
  { unfold aggregate. now rewrite (accumulateAll_read _ _ Ei). }
  split; [exact Hagg|]. rewrite <- Hagg.
  destruct (inventory_flags_read _ _ Ei) as (H1 & H2).
  destruct c as [c|], c' as [c'|]; try discriminate Ec.
  - cbn [option_map] in Ec. unfold read_of_constraints in Ec.
    injection Ec as El Ed. rewrite !tactics_Some. now rewrite El, Ed, H1, H2.
  - now rewrite !tactics_None.
Qed.

(** X21.  The plan depends on a request only through its account name, the
    format, fill rate, latency, impressions and revenue of each ad unit, the
    policy flags of each profile, and the latency budget and developer
    capacity of the constraints.  Two requests that agree on these get the
    same status and, when a plan is returned, the same sections and the same
    summary: application ids and names, SDK versions, mediation partners,
    ad-unit ids, platforms, the reported average eCPM of a unit and the
    primary goal change nothing but the echoed constraints. *)
Theorem plan_reads_only (body body' : PlanCreateRequest.t) (now : N) :
  PlanCreateRequest.account_name body = PlanCreateRequest.account_name body' ->
  option_map (map read_of_profile) (PlanCreateRequest.inventory body)
  = option_map (map read_of_profile) (PlanCreateRequest.inventory body') ->
  option_map read_of_constraints (PlanCreateRequest.constraints body)
  = option_map read_of_constraints (PlanCreateRequest.constraints body') ->
  Response.status (POST body now) = Response.status (POST body' now)
  /\ match Response.json (POST body now), Response.json (POST body' now) with
     | Response.Plan r, Response.Plan r' =>
         PlanResponse.sections r = PlanResponse.sections r'
         /\ PlanResponse.summary r = PlanResponse.summary r'
         /\ PlanResponse.account_name r = PlanResponse.account_name r'
     | Response.Detail d, Response.Detail d' => d = d'
     | _, _ => False
     end.
Proof.
  intros En Ei Ec. unfold POST.
  destruct (validated body) as [[name inventory]|] eqn:Hv.
  - pose proof Hv as Hv0. apply validated_Some in Hv0 as (Hn & Hne & Hi & Hie).
    rewrite Hi in Ei.
    destruct (PlanCreateRequest.inventory body') as [inventory'|] eqn:Hi';
      [|discriminate Ei].
    cbn [option_map] in Ei. injection Ei as Ei.
    assert (Hv' : validated body' = Some (name, inventory')).
    { apply validated_Some. rewrite <- En.
      repeat split; try assumption.
      intros ->. destruct inventory; [contradiction|discriminate Ei]. }
    rewrite (handle_valid body now name inventory Hv).
    rewrite (handle_valid body' now name inventory' Hv').
    destruct (tactics_read inventory inventory' _ _ now Ei Ec) as (<- & <-).
    destruct (tactics inventory (PlanCreateRequest.constraints body)
                (aggregate inventory) now);
      cbn [mbind Except_bind mret Except_ret Response.status Response.json
           PlanResponse.sections PlanResponse.summary
           PlanResponse.account_name];
      repeat split.
  - assert (Hv' : validated body' = None).
    { apply validated_None. apply validated_None in Hv.
      rewrite <- En.
      destruct Hv as [H|[H|[H|H]]]; [tauto|tauto| |].
      - rewrite H in Ei.
        destruct (PlanCreateRequest.inventory body'); [discriminate Ei|tauto].
      - rewrite H in Ei.
        destruct (PlanCreateRequest.inventory body') as [[|? ?]|];
          try discriminate Ei; tauto. }
    unfold handle. rewrite Hv, Hv'. split; reflexivity.
Qed.

Lemma plan_reads_only_witness :
  Response.status (POST demo_request 1730548800000)
  = Response.status (POST demo_request_relabelled 1730548800000)
  /\ match
       Response.json (POST demo_request 1730548800000),
       Response.json (POST demo_request_relabelled 1730548800000)
     with
     | Response.Plan r, Response.Plan r' =>
         PlanResponse.sections r = PlanResponse.sections r'
         /\ PlanResponse.summary r = PlanResponse.summary r'
         /\ PlanResponse.account_name r = PlanResponse.account_name r'
     | Response.Detail d, Response.Detail d' => d = d'
     | _, _ => False
     end.
Proof.
  apply (plan_reads_only demo_request demo_request_relabelled 1730548800000);
    reflexivity.
Defined.

(** ** Aggregating two inventories *)

Lemma units_app (inventory1 inventory2 : list InventoryProfile.t) :
  units (inventory1 ++ inventory2) = units inventory1 ++ units inventory2.
Proof. unfold units. now rewrite map_app, concat_app. Qed.

(** X22.  Impression counts add up over inventories: for each of the four
    formats the impressions of the entry of two inventories put together
    are the sum of those of the two, and so is the total impression count
    the segmentation rule reads. *)
Theorem aggregate_app (inventory1 inventory2 : list InventoryProfile.t) :
  (forall f, f ∈ formats ->
     exists e e1 e2,
       prop (Aggregate.byFormat (aggregate (inventory1 ++ inventory2))) f
       = Some e
       /\ prop (Aggregate.byFormat (aggregate inventory1)) f = Some e1
       /\ prop (Aggregate.byFormat (aggregate inventory2)) f = Some e2
       /\ FormatAggregate.imps e
          == FormatAggregate.imps e1 + FormatAggregate.imps e2)
  /\ totalImps (aggregate (inventory1 ++ inventory2))
     == totalImps (aggregate inventory1) + totalImps (aggregate inventory2).
Proof.
  assert (Hsum : forall g f,
            sumQ g (unitsOf f (inventory1 ++ inventory2))
            == sumQ g (unitsOf f inventory1) + sumQ g (unitsOf f inventory2)).
  { intros g f. unfold unitsOf. now rewrite units_app, filter_app, sumQ_app. }
  split.
  - intros f Hf. do 3 eexists.
    split; [now apply byFormat_lookup|].
    split; [now apply byFormat_lookup|].
    split; [now apply byFormat_lookup|].
    rewrite !entry_imps. unfold sumImpressions. apply Hsum.
  - rewrite !totalImps_pool. unfold sumImpressions, pool.
    now rewrite units_app, filter_app, sumQ_app.
Qed.

(** ** The engine in binary64: the aggregator *)

Section Binary64.
Import PrimFloat.
#[local] Open Scope float_scope.
#[local] Set Warnings "-inexact-float".

Lemma F64_accumulate_lookup (p : gmap string F64.Totals.t)
    (m : F64.AdUnitMetrics.t) (f : string) :
  default F64.Totals.zero (F64.accumulate p m !! f) =
  if decide (F64.AdUnitMetrics.format m = f)
  then F64.addUnit (default F64.Totals.zero (p !! f)) m
  else default F64.Totals.zero (p !! f).
Proof.
  unfold F64.accumulate. case_decide as Hf.
  - subst f. now rewrite lookup_insert_eq.
  - now rewrite lookup_insert_ne.
Qed.

Lemma F64_fold_accumulate_lookup (us : list F64.AdUnitMetrics.t)
    (p : gmap string F64.Totals.t) (f : string) :
  default F64.Totals.zero (fold_left F64.accumulate us p !! f) =
  fold_left F64.addUnit
    (filter (fun m => F64.AdUnitMetrics.format m = f) us)
    (default F64.Totals.zero (p !! f)).
Proof.
  revert p. induction us as [|m us IH]; intros p; [reflexivity|].
  cbn [fold_left]. rewrite IH, F64_accumulate_lookup, filter_cons.
  case_decide; reflexivity.
Qed.

Lemma F64_accumulate_profiles (inventory : list F64.InventoryProfile.t)
    (p : gmap string F64.Totals.t) :
  fold_left
    (fun perFormat inv =>
       fold_left F64.accumulate (F64.InventoryProfile.metrics inv) perFormat)
    inventory p
  = fold_left F64.accumulate (F64.units inventory) p.
Proof.
  revert p. induction inventory as [|inv rest IH]; intros p; [reflexivity|].
  unfold F64.units. cbn [fold_left map concat].
  rewrite fold_left_app. apply IH.
Qed.

(** The bucket of a format holds exactly the units of that format, added in
    the order of the inventory. *)
Lemma F64_bucket_unitsOf (inventory : list F64.InventoryProfile.t)
    (f : string) :
  F64.bucket inventory f
  = fold_left F64.addUnit (F64.unitsOf f inventory) F64.Totals.zero.
Proof.
  unfold F64.bucket, F64.accumulateAll, F64.unitsOf.
  rewrite F64_accumulate_profiles, F64_fold_accumulate_lookup.
  now rewrite lookup_empty.
Qed.

(** Each field of the running totals is its own left-to-right sum. *)
Lemma F64_fold_addUnit (us : list F64.AdUnitMetrics.t) (t : F64.Totals.t) :
  fold_left F64.addUnit us t
  = F64.Totals.mk
      (fold_left add (map F64.AdUnitMetrics.impressions us) (F64.Totals.imps t))
      (fold_left add (map F64.AdUnitMetrics.revenue us) (F64.Totals.revenue t))
      (fold_left add
         (map (fun m =>
                 F64.AdUnitMetrics.latency_ms m * F64.AdUnitMetrics.impressions m)
            us)
         (F64.Totals.sumLatency t))
      (fold_left add
         (map (fun m =>
                 F64.AdUnitMetrics.fill_rate m * F64.AdUnitMetrics.impressions m)
            us)
         (F64.Totals.sumFillImps t)).
Proof.
  revert t. induction us as [|m us IH]; intros t; [now destruct t|].
  cbn [fold_left map]. now rewrite IH.
Qed.

Lemma F64_bucket_sums (inventory : list F64.InventoryProfile.t) (f : string) :
  F64.bucket inventory f
  = F64.Totals.mk
      (F64.sumImpressions (F64.unitsOf f inventory))
      (F64.sumRevenue (F64.unitsOf f inventory))
      (F64.sumWeightedLatency (F64.unitsOf f inventory))
      (F64.sumWeightedFill (F64.unitsOf f inventory)).
Proof. now rewrite F64_bucket_unitsOf, F64_fold_addUnit. Qed.

(** Reading an entry back from the object built by [Object.fromEntries]. *)
Lemma F64_prop_formatEntry (p : gmap string F64.Totals.t) (fs : list string)
    (f : string) :
  f ∈ fs ->
  prop (map (F64.formatEntry p) fs) f = Some (snd (F64.formatEntry p f)).
Proof.
  induction fs as [|g fs IH]; intros Hin.
  - now apply elem_of_nil in Hin.
  - cbn [map prop]. unfold F64.formatEntry at 1.
    destruct (String.eqb g f) eqn:E.
    + apply String.eqb_eq in E. now subst g.
    + apply elem_of_cons in Hin as [->|Hin]; [|now apply IH].
      now rewrite String.eqb_refl in E.
Qed.

Lemma F64_byFormat_lookup (inventory : list F64.InventoryProfile.t)
    (f : string) :
  f ∈ formats ->
  prop (F64.Aggregate.byFormat (F64.aggregate inventory)) f
  = Some (snd (F64.formatEntry (F64.accumulateAll inventory) f)).
Proof.
  intros Hin. unfold F64.aggregate. cbn [F64.Aggregate.byFormat].
  now apply F64_prop_formatEntry.
Qed.

(** Only the four formats have an entry. *)
Lemma F64_byFormat_formats (inventory : list F64.InventoryProfile.t)
    (f : string) (e : F64.FormatAggregate.t) :
  prop (F64.Aggregate.byFormat (F64.aggregate inventory)) f = Some e ->
  f ∈ formats.
Proof.
  unfold F64.aggregate. cbn [F64.Aggregate.byFormat].
  generalize (F64.accumulateAll inventory). intros p.
  induction formats as [|g fs IH]; [discriminate|].
  cbn [map prop]. unfold F64.formatEntry at 1.
  destruct (String.eqb g f) eqn:E.
  - apply String.eqb_eq in E. subst g. intros _. apply elem_of_cons. now left.
  - intros H. apply elem_of_cons. right. now apply IH.
Qed.

(** Every format has a benchmark, and no benchmark eCPM is falsy. *)
Lemma F64_benchmarks_lookup (f : string) :
  f ∈ formats ->
  exists b,
    F64.benchmarks !! f = Some b
    /\ F64.num_or (F64.Benchmark.avg_ecpm b) 1 = F64.Benchmark.avg_ecpm b.
Proof.
  unfold formats. rewrite !elem_of_cons, elem_of_nil.
  intros [->|[->|[->|[->|[]]]]]; eexists; (split; [reflexivity|]);
    reflexivity.
Qed.


(** The entry of a format, written over its bucket. *)
Lemma F64_formatEntry_bucket (inventory : list F64.InventoryProfile.t)
    (f : string) :
  snd (F64.formatEntry (F64.accumulateAll inventory) f) =
  let agg := F64.bucket inventory f in
  let avg_ecpm :=
    if 0 <? F64.Totals.imps agg
    then F64.Totals.revenue agg * 1000 / F64.Totals.imps agg else 0 in
  let fill_rate :=
    if 0 <? F64.Totals.imps agg
    then F64.Totals.sumFillImps agg / F64.Totals.imps agg else 0 in
  F64.FormatAggregate.mk avg_ecpm fill_rate
    (if 0 <? F64.Totals.imps agg
     then F64.Math_round (F64.Totals.sumLatency agg / F64.Totals.imps agg)
     else 0)
    (F64.Totals.imps agg) (F64.Totals.revenue agg)
    (match F64.benchmarks !! f with
     | Some b =>
         (avg_ecpm - F64.Benchmark.avg_ecpm b)
         / F64.num_or (F64.Benchmark.avg_ecpm b) 1
     | None => 0
     end)
    (match F64.benchmarks !! f with
     | Some b => fill_rate - F64.Benchmark.fill_rate b
     | None => 0
     end).
Proof. reflexivity. Qed.

(** C3.  For a format whose units have a positive total of impressions, the
    format entry holds, every operation being that of the doubles of the
    program and every sum running over the units in their order: average
    eCPM = total revenue * 1000 / total impressions; average fill rate =
    impression-weighted fill sum / total impressions; average latency =
    round (impression-weighted latency sum / total impressions); the eCPM
    gap is (observed - benchmark) / benchmark, the divisor being 1 for a
    falsy benchmark, which none of the four is; the fill-rate gap is
    observed - benchmark. *)
Theorem format_aggregate_rates
    (inventory : list F64.InventoryProfile.t) (f : string) :
  f ∈ formats ->
  F64.lt 0 (F64.sumImpressions (F64.unitsOf f inventory)) ->
  exists e b,
    prop (F64.Aggregate.byFormat (F64.aggregate inventory)) f = Some e
    /\ F64.benchmarks !! f = Some b
    /\ F64.FormatAggregate.imps e
       = F64.sumImpressions (F64.unitsOf f inventory)
    /\ F64.FormatAggregate.revenue e
       = F64.sumRevenue (F64.unitsOf f inventory)
    /\ F64.FormatAggregate.avg_ecpm e
       = F64.sumRevenue (F64.unitsOf f inventory) * 1000
         / F64.sumImpressions (F64.unitsOf f inventory)
    /\ F64.FormatAggregate.fill_rate e
       = F64.sumWeightedFill (F64.unitsOf f inventory)
         / F64.sumImpressions (F64.unitsOf f inventory)
    /\ F64.FormatAggregate.latency_ms e
       = F64.Math_round
           (F64.sumWeightedLatency (F64.unitsOf f inventory)
            / F64.sumImpressions (F64.unitsOf f inventory))
    /\ F64.FormatAggregate.avg_ecpm_gap e
       = (F64.FormatAggregate.avg_ecpm e - F64.Benchmark.avg_ecpm b)
         / (if (F64.Benchmark.avg_ecpm b =? 0)
               || is_nan (F64.Benchmark.avg_ecpm b)
            then 1 else F64.Benchmark.avg_ecpm b)
    /\ F64.FormatAggregate.avg_ecpm_gap e
       = (F64.FormatAggregate.avg_ecpm e - F64.Benchmark.avg_ecpm b)
         / F64.Benchmark.avg_ecpm b
    /\ F64.FormatAggregate.fill_rate_gap e
       = F64.FormatAggregate.fill_rate e - F64.Benchmark.fill_rate b.
Proof.
  intros Hf Hpos.
  destruct (F64_benchmarks_lookup f Hf) as (b & Hb & Hb0).
  exists (snd (F64.formatEntry (F64.accumulateAll inventory) f)), b.
  split; [now apply F64_byFormat_lookup|].
  split; [exact Hb|].
  rewrite F64_formatEntry_bucket, F64_bucket_sums. cbv zeta.
  cbn [F64.Totals.imps F64.Totals.revenue F64.Totals.sumLatency
       F64.Totals.sumFillImps
       F64.FormatAggregate.imps F64.FormatAggregate.revenue
       F64.FormatAggregate.avg_ecpm F64.FormatAggregate.fill_rate
       F64.FormatAggregate.latency_ms F64.FormatAggregate.avg_ecpm_gap
       F64.FormatAggregate.fill_rate_gap].
  unfold F64.lt in Hpos. rewrite Hpos, Hb.
  repeat apply conj; try reflexivity.
  now rewrite Hb0.
Qed.

Lemma format_aggregate_rates_witness :
  exists e b,
    prop (F64.Aggregate.byFormat (F64.aggregate F64.scenario)) "rewarded"
    = Some e
    /\ F64.benchmarks !! "rewarded" = Some b
    /\ F64.FormatAggregate.imps e
       = F64.sumImpressions (F64.unitsOf "rewarded" F64.scenario)
    /\ F64.FormatAggregate.revenue e
       = F64.sumRevenue (F64.unitsOf "rewarded" F64.scenario)
    /\ F64.FormatAggregate.avg_ecpm e
       = F64.sumRevenue (F64.unitsOf "rewarded" F64.scenario) * 1000
         / F64.sumImpressions (F64.unitsOf "rewarded" F64.scenario)
    /\ F64.FormatAggregate.fill_rate e
       = F64.sumWeightedFill (F64.unitsOf "rewarded" F64.scenario)
         / F64.sumImpressions (F64.unitsOf "rewarded" F64.scenario)
    /\ F64.FormatAggregate.latency_ms e
       = F64.Math_round
           (F64.sumWeightedLatency (F64.unitsOf "rewarded" F64.scenario)
            / F64.sumImpressions (F64.unitsOf "rewarded" F64.scenario))
    /\ F64.FormatAggregate.avg_ecpm_gap e
       = (F64.FormatAggregate.avg_ecpm e - F64.Benchmark.avg_ecpm b)
         / (if (F64.Benchmark.avg_ecpm b =? 0)
               || is_nan (F64.Benchmark.avg_ecpm b)
            then 1 else F64.Benchmark.avg_ecpm b)
    /\ F64.FormatAggregate.avg_ecpm_gap e
       = (F64.FormatAggregate.avg_ecpm e - F64.Benchmark.avg_ecpm b)
         / F64.Benchmark.avg_ecpm b
    /\ F64.FormatAggregate.fill_rate_gap e
       = F64.FormatAggregate.fill_rate e - F64.Benchmark.fill_rate b.
Proof.
  apply (format_aggregate_rates F64.scenario "rewarded").
  - apply (bool_decide_unpack _). vm_compute. exact I.
  - vm_compute. reflexivity.
Defined.

(** The scenario of the specification, by evaluation: the entry of the
    rewarded format holds the doubles the program computes.  The eCPM is
    8.2 and the latency 1300; the eCPM gap, (8.2 - 9.5) / 9.5, is the double
    -0.13684210526315796, below -0.10; the fill-rate gap, 0.86 - 0.82, is the
    double 0.040000000000000036, not the double 0.04. *)
Example scenario_rewarded_entry :
  prop (F64.Aggregate.byFormat (F64.aggregate F64.scenario)) "rewarded"
  = Some
      (F64.FormatAggregate.mk 8.2 0.86 1300 240000 1968
         (-0.13684210526315796) 0.040000000000000036)
  /\ (-0.13684210526315796 <=? -0.10) = true
  /\ (0.040000000000000036 =? 0.04) = false.
Proof. repeat apply conj; vm_compute; reflexivity. Qed.

(** [Math.round] on doubles, by evaluation: ties go up, also below zero;
    the greatest double below one half rounds to 0; integral and
    non-finite values are returned as they are. *)
Example Math_round_values :
  map F64.Math_round
    [0.5; 1.5; 2.5; -0.5; -1.5; -2.5; 0.49999999999999994; 100.4; 989.65;
     -0.2; 4503599627370497; infinity; 0]
  = [1; 2; 3; -0; -1; -2; 0; 100; 990; -0; 4503599627370497; infinity; 0].
Proof. vm_compute. reflexivity. Qed.

(** ** The engine in binary64: the rules *)

Section Rules.
Variable Number_toString : float -> string.

Lemma F64_tactics_Some (inventory : list F64.InventoryProfile.t)
    (c : F64.BusinessConstraints.t) (agg : F64.Aggregate.t) (now : N) :
  F64.tactics Number_toString inventory (Some c) agg now =
  Return
    (push_if (F64.rewardedVolumeHigh agg) section_rewarded_caps
    (push_if (F64.bannerWeak agg) section_banner_refresh
    (push_if (F64.hasPolicyFlags inventory) section_policy_health
    (push_if
       (F64.latencyHigh agg (F64.BusinessConstraints.latency_budget_ms c))
       (F64.section_latency_opt Number_toString
          (F64.BusinessConstraints.latency_budget_ms c))
    (push_if
       ((200000 <? F64.totalImps agg) && F64.hasSingleRewardedUnit inventory)
       section_segment_units
    (push_if (F64.floorsNeeded agg) section_geo_floors
    (push_if (F64.biddingNeeded agg)
       (F64.section_enable_bidding Number_toString
          (F64.BusinessConstraints.developer_capacity c)
          (F64.BusinessConstraints.latency_budget_ms c) now)
       []))))))).
Proof. unfold F64.tactics. destruct (F64.biddingNeeded agg); reflexivity. Qed.

(** The sections of a call, one disjunct per rule. *)
Lemma F64_tactics_sections (inventory : list F64.InventoryProfile.t)
    (c : F64.BusinessConstraints.t) (agg : F64.Aggregate.t) (now : N) :
  exists sections,
    F64.tactics Number_toString inventory (Some c) agg now = Return sections
    /\ forall s,
         s ∈ sections <->
         (F64.biddingNeeded agg = true
          /\ s = F64.section_enable_bidding Number_toString
                   (F64.BusinessConstraints.developer_capacity c)
                   (F64.BusinessConstraints.latency_budget_ms c) now)
         \/ (F64.floorsNeeded agg = true /\ s = section_geo_floors)
         \/ ((200000 <? F64.totalImps agg)
             && F64.hasSingleRewardedUnit inventory = true
             /\ s = section_segment_units)
         \/ (F64.latencyHigh agg (F64.BusinessConstraints.latency_budget_ms c)
             = true
             /\ s = F64.section_latency_opt Number_toString
                      (F64.BusinessConstraints.latency_budget_ms c))
         \/ (F64.hasPolicyFlags inventory = true /\ s = section_policy_health)
         \/ (F64.bannerWeak agg = true /\ s = section_banner_refresh)
         \/ (F64.rewardedVolumeHigh agg = true /\ s = section_rewarded_caps).
Proof.
  eexists. split; [apply F64_tactics_Some|].
  intros s. rewrite !elem_of_push_if, elem_of_nil. tauto.
Qed.

Lemma F64_fires_geo_floors (inventory : list F64.InventoryProfile.t)
    (c : F64.BusinessConstraints.t) (agg : F64.Aggregate.t) (now : N)
    (sections : list PlanSection.t) :
  F64.tactics Number_toString inventory (Some c) agg now = Return sections ->
  (fires "geo_floors" sections <-> F64.floorsNeeded agg = true)
  /\ (forall s,
        s ∈ sections -> PlanSection.id s = "geo_floors" ->
        s = section_geo_floors).
Proof.
  intros Ht.
  destruct (F64_tactics_sections inventory c agg now) as (sections' & Ht' & Hs).
  assert (sections' = sections) by congruence. subst sections'.
  split; [unfold fires; split|].
  - intros (s & Hin & Hid). apply Hs in Hin.
    destruct Hin as
      [[Hc E]|[[Hc E]|[[Hc E]|[[Hc E]|[[Hc E]|[[Hc E]|[Hc E]]]]]]];
      try other_rule.
    exact Hc.
  - intros Hc. exists section_geo_floors.
    split; [apply Hs; right; left; now split|reflexivity].
  - intros s Hin Hid. apply Hs in Hin.
    destruct Hin as
      [[Hc E]|[[Hc E]|[[Hc E]|[[Hc E]|[[Hc E]|[[Hc E]|[Hc E]]]]]]];
      try other_rule.
    exact E.
Qed.

Lemma F64_fires_enable_bidding (inventory : list F64.InventoryProfile.t)
    (c : F64.BusinessConstraints.t) (agg : F64.Aggregate.t) (now : N)
    (sections : list PlanSection.t) :
  F64.tactics Number_toString inventory (Some c) agg now = Return sections ->
  (fires "enable_bidding" sections <-> F64.biddingNeeded agg = true).
Proof.
  intros Ht.
  destruct (F64_tactics_sections inventory c agg now) as (sections' & Ht' & Hs).
  assert (sections' = sections) by congruence. subst sections'.
  unfold fires; split.
  - intros (s & Hin & Hid). apply Hs in Hin.
    destruct Hin as
      [[Hc E]|[[Hc E]|[[Hc E]|[[Hc E]|[[Hc E]|[[Hc E]|[Hc E]]]]]]];
      try other_rule.
    exact Hc.
  - intros Hc. eexists. split; [apply Hs; left; split; [exact Hc|]|];
      reflexivity.
Qed.

Lemma F64_floorsNeeded_spec (agg : F64.Aggregate.t) :
  F64.floorsNeeded agg = true <->
  F64.le 0.90 (F64.GlobalAggregate.fill_rate (F64.Aggregate.global agg))
  /\ F64.le (F64.GlobalAggregate.avg_ecpm (F64.Aggregate.global agg))
       (0.95 * match prop (F64.Aggregate.byFormat agg) "rewarded" with
               | Some r => F64.FormatAggregate.avg_ecpm r
               | None =>
                   F64.GlobalAggregate.avg_ecpm (F64.Aggregate.global agg)
               end).
Proof.
  unfold F64.floorsNeeded, F64.field_or, from_option, F64.le.
  now rewrite andb_true_iff.
Qed.

Lemma F64_biddingNeeded_spec (agg : F64.Aggregate.t) :
  F64.biddingNeeded agg = true <->
  F64.le 0.85 (F64.GlobalAggregate.fill_rate (F64.Aggregate.global agg))
  /\ (F64.le
        match prop (F64.Aggregate.byFormat agg) "rewarded" with
        | Some r => F64.FormatAggregate.avg_ecpm_gap r
        | None => 0
        end (- 0.10)
      \/ F64.le
           match prop (F64.Aggregate.byFormat agg) "interstitial" with
           | Some i => F64.FormatAggregate.avg_ecpm_gap i
           | None => 0
           end (- 0.10)).
Proof.
  unfold F64.biddingNeeded, F64.field_or, from_option, F64.le.
  now rewrite andb_true_iff, orb_true_iff.
Qed.

(** C4.  With a constraints object, the geo_floors rule fires if and only
    if the global fill rate is at least 0.90 and the global average eCPM is
    at most the double 0.95 * the rewarded average eCPM, the global average
    eCPM standing in for the latter when the aggregate has no rewarded
    entry.  The product is the rounded product of the program.  Its section
    has impact 4 and effort 2. *)
Theorem geo_floors_rule (inventory : list F64.InventoryProfile.t)
    (c : F64.BusinessConstraints.t) (agg : F64.Aggregate.t) (now : N) :
  exists sections,
    F64.tactics Number_toString inventory (Some c) agg now = Return sections
    /\ (fires "geo_floors" sections <->
        F64.le 0.90 (F64.GlobalAggregate.fill_rate (F64.Aggregate.global agg))
        /\ F64.le (F64.GlobalAggregate.avg_ecpm (F64.Aggregate.global agg))
             (0.95 * match prop (F64.Aggregate.byFormat agg) "rewarded" with
                     | Some r => F64.FormatAggregate.avg_ecpm r
                     | None =>
                         F64.GlobalAggregate.avg_ecpm
                           (F64.Aggregate.global agg)
                     end))
    /\ (forall s,
          s ∈ sections -> PlanSection.id s = "geo_floors" ->
          PlanSection.impact_score s = 4%Z
          /\ PlanSection.effort_score s = 2%Z).
Proof.
  destruct (F64_tactics_sections inventory c agg now) as (sections & Ht & _).
  exists sections. split; [exact Ht|].
  destruct (F64_fires_geo_floors inventory c agg now sections Ht) as [Hf Hs].
  split.
  - now rewrite <- F64_floorsNeeded_spec.
  - intros s Hin Hid. rewrite (Hs s Hin Hid). split; reflexivity.
Qed.

(** The boundary of the floors rule, by evaluation of the aggregator and
    the rules.  A rewarded unit earning 3 per thousand impressions and a
    banner unit earning 2.7, both at fill rate 0.95: the global average eCPM
    is 2.85, and 0.95 * 3 is the double 2.8499999999999996, so the rule does
    not fire. *)
Example geo_floors_boundary (now : N) :
  F64.aggregate F64.floor_boundary
  = F64.Aggregate.mk
      [ ("banner",
         F64.FormatAggregate.mk 2.7 0.95 500 1000 2.7 1.2500000000000002 0);
        ("interstitial",
         F64.FormatAggregate.mk 0 0 0 0 0 (-1) (-0.9));
        ("rewarded",
         F64.FormatAggregate.mk 3 0.95 500 1000 3 (-0.68421052631578949)
           0.13);
        ("native", F64.FormatAggregate.mk 0 0 0 0 0 (-1) (-0.92)) ]
      (F64.GlobalAggregate.mk 2.85 0.95 500)
  /\ 0.95 * 3 = 2.8499999999999996
  /\ (2.85 <=? 0.95 * 3) = false
  /\ F64.fired_ids Number_toString F64.floor_boundary now
     = ["enable_bidding"].
Proof. repeat apply conj; vm_compute; reflexivity. Qed.


(** The entry of a format whose units have no positive total of
    impressions: the guards answer 0 and the eCPM stands a whole benchmark
    below it. *)
Lemma F64_entry_no_impressions (inventory : list F64.InventoryProfile.t)
    (f : string) :
  f ∈ formats ->
  (0 <? F64.sumImpressions (F64.unitsOf f inventory)) = false ->
  F64.FormatAggregate.avg_ecpm
    (snd (F64.formatEntry (F64.accumulateAll inventory) f)) = 0
  /\ F64.FormatAggregate.avg_ecpm_gap
       (snd (F64.formatEntry (F64.accumulateAll inventory) f)) = -1.
Proof.
  intros Hf H0.
  rewrite F64_formatEntry_bucket, F64_bucket_sums. cbv zeta.
  cbn [F64.Totals.imps F64.FormatAggregate.avg_ecpm
       F64.FormatAggregate.avg_ecpm_gap].
  rewrite H0. split; [reflexivity|].
  revert Hf. unfold formats. rewrite !elem_of_cons, elem_of_nil.
  intros [->|[->|[->|[->|[]]]]]; vm_compute; reflexivity.
Qed.

(** The gap of an entry against the literal benchmark of its format. *)
Lemma F64_entry_gap (inventory : list F64.InventoryProfile.t) (f : string)
    (b : F64.Benchmark.t) :
  F64.benchmarks !! f = Some b ->
  F64.num_or (F64.Benchmark.avg_ecpm b) 1 = F64.Benchmark.avg_ecpm b ->
  F64.FormatAggregate.avg_ecpm_gap
    (snd (F64.formatEntry (F64.accumulateAll inventory) f))
  = (F64.FormatAggregate.avg_ecpm
       (snd (F64.formatEntry (F64.accumulateAll inventory) f))
     - F64.Benchmark.avg_ecpm b) / F64.Benchmark.avg_ecpm b.
Proof.
  intros Hb Hb0. unfold F64.formatEntry.
  cbn [snd F64.FormatAggregate.avg_ecpm F64.FormatAggregate.avg_ecpm_gap].
  now rewrite Hb, Hb0.
Qed.

(** X14.  On the aggregate of the inventory the rewarded and the
    interstitial entries are always there, with the gaps
    (eCPM - 9.5) / 9.5 and (eCPM - 6.2) / 6.2 in doubles.  The
    enable_bidding rule fires if and only if the global fill rate is at
    least 0.85 and one of the two gaps is at most -0.10.  A format whose
    units have no positive total of impressions has the gap -1: an
    inventory without rewarded impressions, or without interstitial
    impressions, fires the rule as soon as the global fill rate is at least
    0.85. *)
Theorem enable_bidding_on_inventory
    (inventory : list F64.InventoryProfile.t)
    (c : F64.BusinessConstraints.t) (now : N) :
  exists sections r i,
    F64.tactics Number_toString inventory (Some c) (F64.aggregate inventory)
      now = Return sections
    /\ prop (F64.Aggregate.byFormat (F64.aggregate inventory)) "rewarded"
       = Some r
    /\ prop (F64.Aggregate.byFormat (F64.aggregate inventory)) "interstitial"
       = Some i
    /\ F64.FormatAggregate.avg_ecpm_gap r
       = (F64.FormatAggregate.avg_ecpm r - 9.5) / 9.5
    /\ F64.FormatAggregate.avg_ecpm_gap i
       = (F64.FormatAggregate.avg_ecpm i - 6.2) / 6.2
    /\ (fires "enable_bidding" sections <->
        F64.le 0.85
          (F64.GlobalAggregate.fill_rate
             (F64.Aggregate.global (F64.aggregate inventory)))
        /\ (F64.le (F64.FormatAggregate.avg_ecpm_gap r) (- 0.10)
            \/ F64.le (F64.FormatAggregate.avg_ecpm_gap i) (- 0.10)))
    /\ ((0 <? F64.sumImpressions (F64.unitsOf "rewarded" inventory)) = false
        \/ (0 <? F64.sumImpressions (F64.unitsOf "interstitial" inventory))
           = false ->
        (fires "enable_bidding" sections <->
         F64.le 0.85
           (F64.GlobalAggregate.fill_rate
              (F64.Aggregate.global (F64.aggregate inventory))))).
Proof.
  destruct (F64_tactics_sections inventory c (F64.aggregate inventory) now)
    as (sections & Ht & _).
  assert (Hr : "rewarded" ∈ formats) by (apply (bool_decide_unpack _); exact I).
  assert (Hi : "interstitial" ∈ formats)
    by (apply (bool_decide_unpack _); exact I).
  exists sections,
    (snd (F64.formatEntry (F64.accumulateAll inventory) "rewarded")),
    (snd (F64.formatEntry (F64.accumulateAll inventory) "interstitial")).
  split; [exact Ht|].
  split; [now apply F64_byFormat_lookup|].
  split; [now apply F64_byFormat_lookup|].
  split; [now apply (F64_entry_gap inventory "rewarded" (F64.Benchmark.mk 9.5 0.82))|].
  split; [now apply (F64_entry_gap inventory "interstitial" (F64.Benchmark.mk 6.2 0.90))|].
  pose proof (F64_fires_enable_bidding inventory c _ now sections Ht) as Hf.
  rewrite F64_biddingNeeded_spec in Hf.
  rewrite !F64_byFormat_lookup in Hf by assumption.
  split; [exact Hf|].
  intros H0. rewrite Hf. split; [tauto|]. intros Hfill. split; [exact Hfill|].
  destruct H0 as [H0|H0].
  - left. destruct (F64_entry_no_impressions inventory "rewarded" Hr H0)
      as [_ ->]. reflexivity.
  - right. destruct (F64_entry_no_impressions inventory "interstitial" Hi H0)
      as [_ ->]. reflexivity.
Qed.

(** The boundary of the bidding rule, by evaluation.  The rewarded units
    earn exactly 8.55 per thousand impressions, nine tenths of the benchmark
    9.5, and the interstitial units earn more than their benchmark: the
    rewarded gap is the double -0.09999999999999992, above -0.10, and the
    rule does not fire although the global fill rate is 0.9. *)
Example enable_bidding_boundary (now : N) :
  (exists r,
     prop (F64.Aggregate.byFormat (F64.aggregate F64.bidding_boundary))
       "rewarded" = Some r
     /\ F64.FormatAggregate.avg_ecpm r = 8.55
     /\ F64.FormatAggregate.avg_ecpm_gap r = -0.09999999999999992)
  /\ F64.GlobalAggregate.fill_rate
       (F64.Aggregate.global (F64.aggregate F64.bidding_boundary)) = 0.9
  /\ F64.fired_ids Number_toString F64.bidding_boundary now = ["geo_floors"].
Proof.
  split; [eexists; split; [reflexivity|]; split; vm_compute; reflexivity|].
  split; vm_compute; reflexivity.
Qed.

(** X15.  On the aggregate of the inventory the rewarded entry is always
    there, so the fallback to the global eCPM is never taken: the geo_floors
    rule fires if and only if the global fill rate is at least 0.90 and the
    global average eCPM is at most the double 0.95 * the eCPM of the
    rewarded entry.  Without a positive total of rewarded impressions that
    eCPM is 0 and so is the product: the rule then fires only on a global
    average eCPM that is not positive. *)
Theorem geo_floors_on_inventory (inventory : list F64.InventoryProfile.t)
    (c : F64.BusinessConstraints.t) (now : N) :
  exists sections r,
    F64.tactics Number_toString inventory (Some c) (F64.aggregate inventory)
      now = Return sections
    /\ prop (F64.Aggregate.byFormat (F64.aggregate inventory)) "rewarded"
       = Some r
    /\ (fires "geo_floors" sections <->
        F64.le 0.90
          (F64.GlobalAggregate.fill_rate
             (F64.Aggregate.global (F64.aggregate inventory)))
        /\ F64.le
             (F64.GlobalAggregate.avg_ecpm
                (F64.Aggregate.global (F64.aggregate inventory)))
             (0.95 * F64.FormatAggregate.avg_ecpm r))
    /\ ((0 <? F64.sumImpressions (F64.unitsOf "rewarded" inventory)) = false ->
        F64.FormatAggregate.avg_ecpm r = 0
        /\ (fires "geo_floors" sections <->
            F64.le 0.90
              (F64.GlobalAggregate.fill_rate
                 (F64.Aggregate.global (F64.aggregate inventory)))
            /\ F64.le
                 (F64.GlobalAggregate.avg_ecpm
                    (F64.Aggregate.global (F64.aggregate inventory)))
                 0)).
Proof.
  destruct (F64_tactics_sections inventory c (F64.aggregate inventory) now)
    as (sections & Ht & _).
  assert (Hr : "rewarded" ∈ formats) by (apply (bool_decide_unpack _); exact I).
  exists sections,
    (snd (F64.formatEntry (F64.accumulateAll inventory) "rewarded")).
  split; [exact Ht|].
  split; [now apply F64_byFormat_lookup|].
  destruct (F64_fires_geo_floors inventory c _ now sections Ht) as [Hf _].
  rewrite F64_floorsNeeded_spec in Hf.
  rewrite F64_byFormat_lookup in Hf by assumption.
  split; [exact Hf|].
  intros H0.
  destruct (F64_entry_no_impressions inventory "rewarded" Hr H0) as [E _].
  split; [exact E|]. rewrite Hf, E. reflexivity.
Qed.

(** The demo inventory of the form and the scenario of the specification
    fire the same rules in doubles as over the rationals. *)
Example binary64_fired_ids (now : N) :
  F64.fired_ids Number_toString F64.demo_inventory now
  = fired_ids demo_inventory now
  /\ F64.fired_ids Number_toString F64.scenario now = fired_ids scenario now.
Proof. split; vm_compute; reflexivity. Qed.

End Rules.

(** ** The engine in binary64: the order of the units *)

(** X11.  The order of the units of a format shows in the numbers.  Two
    inventories hold the same three rewarded units, each of fill rate 0.85
    (28, 13 and 25 impressions), the last two exchanged.  The rounded sums
    differ: the global fill rate is the double 0.85 on one and
    0.8499999999999999 on the other, and the enable_bidding rule fires on
    the first only. *)
Theorem aggregate_order_dependent (Number_toString : float -> string)
    (now : N) :
  F64.units F64.fill_order_a ≡ₚ F64.units F64.fill_order_b
  /\ F64.GlobalAggregate.fill_rate
       (F64.Aggregate.global (F64.aggregate F64.fill_order_a)) = 0.85
  /\ F64.GlobalAggregate.fill_rate
       (F64.Aggregate.global (F64.aggregate F64.fill_order_b))
     = 0.8499999999999999
  /\ (0.85 <=? 0.8499999999999999) = false
  /\ F64.fired_ids Number_toString F64.fill_order_a now = ["enable_bidding"]
  /\ F64.fired_ids Number_toString F64.fill_order_b now = [].
Proof.
  split.
  - unfold F64.units, F64.fill_order_a, F64.fill_order_b, F64.profileOf.
    cbn [map concat F64.InventoryProfile.metrics app].
    apply perm_skip, perm_swap.
  - repeat apply conj; vm_compute; reflexivity.
Qed.

End Binary64.
